(** * multiplication-practice: the templated state-machine widget

    A shallow embedding of [multiplication-practice.py].  The widget is a
    Tk toplevel whose methods mutate its attributes; here an attribute
    store is a record, a method is a function in a small state-and-exception
    monad, and the Tk event loop is a dispatch function that looks the
    active binding up and runs it.

    Python strings are modelled as [string] over the code points U+0000 to
    U+00FF (one [ascii] per code point); Python [int] as [Z]; Python
    [float] as a binary64 [spec_float]. *)

From Stdlib Require Import ZArith Lia Bool List Ascii String.
From Stdlib Require Import DecimalString SpecFloat.
From stdpp Require Import base option gmap strings.

Local Open Scope string_scope.
Local Open Scope Z_scope.

(** ** Python strings *)

Module PyStr.

Definition code (c : ascii) : N := N_of_ascii c.

(** [str.isdecimal] on one code point below 256: the ASCII digits. *)
Definition isdecimal_char (c : ascii) : bool :=
  ((48 <=? code c) && (code c <=? 57))%N.

(** [str.isnumeric] on one code point below 256: the ASCII digits, the
    superscripts U+00B2, U+00B3, U+00B9 and the vulgar fractions
    U+00BC, U+00BD, U+00BE (Unicode Numeric_Type Decimal, Digit or
    Numeric). *)
Definition isnumeric_char (c : ascii) : bool :=
  isdecimal_char c
  || (code c =? 178)%N || (code c =? 179)%N || (code c =? 185)%N
  || (code c =? 188)%N || (code c =? 189)%N || (code c =? 190)%N.

Fixpoint forallb_string (p : ascii -> bool) (s : string) : bool :=
  match s with
  | EmptyString => true
  | String c s' => p c && forallb_string p s'
  end.

(** [s.isnumeric()]: at least one character and all of them numeric. *)
Definition isnumeric (s : string) : bool :=
  match s with
  | EmptyString => false
  | _ => forallb_string isnumeric_char s
  end.

Definition isdecimal (s : string) : bool :=
  match s with
  | EmptyString => false
  | _ => forallb_string isdecimal_char s
  end.

(** [s[:-1]]: all but the last character, [""] for [""]. *)
Fixpoint drop_last (s : string) : string :=
  match s with
  | EmptyString => EmptyString
  | String c EmptyString => EmptyString
  | String c s' => String c (drop_last s')
  end.

(** The blanks [int] passes over around a number, on one code point
    below 256: the ASCII white space 9 to 13 and 32, and the two other
    spaces U+0085 and U+00A0.  (The separators U+001C to U+001F, blanks
    for [str.isspace], are none for [int].) *)
Definition isspace_char (c : ascii) : bool :=
  (((9 <=? code c) && (code c <=? 13)) || (code c =? 32)
   || (code c =? 133) || (code c =? 160))%N.

Fixpoint lstrip (s : string) : string :=
  match s with
  | String c s' => if isspace_char c then lstrip s' else s
  | EmptyString => EmptyString
  end.

Definition digit_value (c : ascii) : Z := Z.of_N (code c) - 48.

(** The digit run of [int(s)]: decimal digits, a single underscore
    allowed between two digits.  [prev] tells whether the previous
    character was a digit.  Returns the value and the unread rest. *)
Fixpoint int_digits (acc : Z) (prev : bool) (s : string) : option (Z * string) :=
  match s with
  | String c s' =>
      if isdecimal_char c then int_digits (acc * 10 + digit_value c) true s'
      else if Ascii.eqb c "_" then
        if prev then
          match s' with
          | String d _ => if isdecimal_char d then int_digits acc false s' else None
          | EmptyString => None
          end
        else None
      else if prev then Some (acc, s) else None
  | EmptyString => if prev then Some (acc, EmptyString) else None
  end.

(** The digits [int] counts in the run of digits and underscores at the
    head of [s]; leading zeros count, underscores do not. *)
Fixpoint digit_count (s : string) : Z :=
  match s with
  | String c s' =>
      if isdecimal_char c then 1 + digit_count s'
      else if Ascii.eqb c "_" then digit_count s'
      else 0
  | EmptyString => 0
  end.

(** [sys.get_int_max_str_digits()] as the interpreter starts with. *)
Definition int_max_str_digits : Z := 4300.

(** [int(s)] in base ten, as CPython 3.11 has it: surrounding blanks, an
    optional sign, the digit run, which may not count more digits than
    the interpreter's limit; [None] stands for [ValueError]. *)
Definition int (s : string) : option Z :=
  let body (neg : bool) (t : string) :=
    match int_digits 0 false t with
    | Some (v, rest) =>
        match lstrip rest with
        | EmptyString =>
            if int_max_str_digits <? digit_count t then None
            else Some (if neg then - v else v)
        | _ => None
        end
    | None => None
    end in
  match lstrip s with
  | String "+" t => body false t
  | String "-" t => body true t
  | t => body false t
  end.

(** [str.isidentifier] on code points below 256: a letter or the
    underscore first, then letters, digits, the underscore and the
    middle dot U+00B7.  The letters are the ASCII ones, U+00AA, U+00B5,
    U+00BA and U+00C0 to U+00FF without the two signs U+00D7 and
    U+00F7. *)
Definition identifier_start (c : ascii) : bool :=
  (((65 <=? code c) && (code c <=? 90)) || (code c =? 95)
   || ((97 <=? code c) && (code c <=? 122))
   || (code c =? 170) || (code c =? 181) || (code c =? 186)
   || ((192 <=? code c) && (code c <=? 214))
   || ((216 <=? code c) && (code c <=? 246))
   || (248 <=? code c))%N.

Definition identifier_continue (c : ascii) : bool :=
  identifier_start c || isdecimal_char c || (code c =? 183)%N.

Definition isidentifier (s : string) : bool :=
  match s with
  | EmptyString => false
  | String c s' => identifier_start c && forallb_string identifier_continue s'
  end.

(** [repr(s)] for a [str] of code points below 256.  The quote is the
    single one unless the text holds a single quote and no double one;
    the quote and the backslash are escaped, tab, newline and carriage
    return are written as [\t], [\n] and [\r], and every other code
    point that is not printable (the controls, U+007F to U+00A0 and the
    soft hyphen U+00AD) as [\x] and two hexadecimal digits. *)
Definition double_quote : ascii := Eval cbv in ascii_of_nat 34.

Definition isprintable_char (c : ascii) : bool :=
  (((32 <=? code c) && (code c <? 127))
   || ((161 <=? code c) && negb (code c =? 173)))%N.

Definition hex_digit (n : N) : ascii :=
  match String.get (N.to_nat n) "0123456789abcdef" with
  | Some c => c
  | None => "0"%char
  end.

Definition repr_char (quote c : ascii) : string :=
  if Ascii.eqb c quote || (code c =? 92)%N then String (ascii_of_nat 92) (String c EmptyString)
  else if (code c =? 9)%N then String (ascii_of_nat 92) "t"
  else if (code c =? 10)%N then String (ascii_of_nat 92) "n"
  else if (code c =? 13)%N then String (ascii_of_nat 92) "r"
  else if isprintable_char c then String c EmptyString
  else String (ascii_of_nat 92)
         (String "x" (String (hex_digit (code c / 16))
                        (String (hex_digit (code c mod 16)) EmptyString))).

Fixpoint holds (c : ascii) (s : string) : bool :=
  match s with
  | EmptyString => false
  | String d s' => Ascii.eqb c d || holds c s'
  end.

Fixpoint repr_go (quote : ascii) (s : string) : string :=
  match s with
  | EmptyString => String quote EmptyString
  | String c s' => String.append (repr_char quote c) (repr_go quote s')
  end.

Definition repr (s : string) : string :=
  let quote :=
    if holds "'" s && negb (holds double_quote s) then double_quote else "'"%char in
  String quote (repr_go quote s).

(** [str(l)] for a list of [str]. *)
Fixpoint repr_items (l : list string) : string :=
  match l with
  | [] => EmptyString
  | [s] => repr s
  | s :: l' => String.append (repr s) (String.append ", " (repr_items l'))
  end.

Definition str_list (l : list string) : string :=
  String "[" (String.append (repr_items l) "]").

(** [str(z)] for an [int]. *)
Definition str_int (z : Z) : string := NilZero.string_of_int (Z.to_int z).

(** [len(s) > 0]. *)
Definition nonempty (s : string) : bool :=
  match s with EmptyString => false | _ => true end.

End PyStr.

(** ** Python floats *)

Module PyFloat.

Definition prec : Z := 53.
Definition emax : Z := 1024.

(** [x - y] on floats. *)
Definition sub (x y : spec_float) : spec_float := SFsub prec emax x y.

(** [n / d] rounded half to even, for [0 <= n] and [0 < d]. *)
Definition div_half_even (n d : Z) : Z :=
  let q := n / d in
  let r := n mod d in
  match 2 * r ?= d with
  | Lt => q
  | Gt => q + 1
  | Eq => if Z.even q then q else q + 1
  end.

(** [round(x, 1)]: the decimal with one fractional digit nearest to the
    exact value of [x] (ties to even), then the float nearest to that
    decimal.  Zeros, infinities and NaN are returned as they are. *)
Definition round1 (x : spec_float) : spec_float :=
  match x with
  | S754_finite s m e =>
      match div_half_even (10 * Zpos m * 2 ^ Z.max e 0) (2 ^ Z.max (- e) 0) with
      | Zpos k => SFdiv prec emax (S754_finite s k 0) (S754_finite false 10 0)
      | _ => S754_zero s
      end
  | _ => x
  end.

(** [0 <= x] on floats. *)
Definition nonneg (x : spec_float) : bool :=
  match x with
  | S754_zero _ => true
  | S754_infinity s => negb s
  | S754_nan => false
  | S754_finite s _ _ => negb s
  end.

(** [x <= y] on finite floats, by their exact values. *)
Definition signed (s : bool) (m : positive) : Z :=
  if s then Zneg m else Zpos m.

Definition finite_le (x y : spec_float) : bool :=
  match x, y with
  | S754_zero _, S754_zero _ => true
  | S754_zero _, S754_finite s _ _ => negb s
  | S754_finite s _ _, S754_zero _ => s
  | S754_finite sx mx ex, S754_finite sy my ey =>
      let ez := Z.min ex ey in
      (signed sx mx * 2 ^ (ex - ez) <=? signed sy my * 2 ^ (ey - ez))
  | _, _ => false
  end.

(** *** [str] of a float: the shortest decimal that reads back *)

(** [c * 10^p] compared with [n * 2^t]. *)
Definition cmp_dec_bin (c p n t : Z) : comparison :=
  (c * 10 ^ Z.max p 0 * 2 ^ Z.max (- t) 0
     ?= n * 2 ^ Z.max t 0 * 10 ^ Z.max (- p) 0).

(** A number of decimal digits that [m * 2^e] surely has before the
    point, at most three short of those it has: its binary logarithm
    times a little more than the logarithm of two. *)
Definition decimal_estimate (m e : Z) : Z :=
  (Z.log2 m + e) * 30103 / 100000 - 1.

(** The least [d] from [d0] on, within [fuel] steps, with
    [m * 2^e < 10^d]. *)
Fixpoint decimal_point (fuel : nat) (d0 : Z) (m e : Z) : Z :=
  match fuel with
  | O => d0
  | S fuel' =>
      match cmp_dec_bin 1 d0 m e with
      | Gt => d0
      | _ => decimal_point fuel' (d0 + 1) m e
      end
  end.

(** Does [c * 10^p] read back as the float [m * 2^e]?  The float's
    neighbours are half a unit away, a quarter below a power of two. *)
Definition reads_back (c p : Z) (m e : Z) : bool :=
  let below := if (m =? 2 ^ 52) && (- 1074 <? e) then 1 else 2 in
  let inside_lo := cmp_dec_bin c p (4 * m - below) (e - 2) in
  let inside_hi := cmp_dec_bin c p (4 * m + 2) (e - 2) in
  match inside_lo, inside_hi with
  | Gt, Lt => true
  | Eq, _ | _, Eq => Z.even m
  | _, _ => false
  end.

(** The shortest digits: the first [n] for which a decimal of [n]
    digits reads back, and of such decimals the nearest.  Returns the
    digits as an integer and the power of ten they are scaled by. *)
Fixpoint shortest (fuel : nat) (n : Z) (dp m e : Z) : Z * Z :=
  let p := dp - n in
  let f := (m * 2 ^ Z.max e 0 * 10 ^ Z.max (- p) 0)
           / (2 ^ Z.max (- e) 0 * 10 ^ Z.max p 0) in
  match fuel with
  | O => (f, p)
  | S fuel' =>
      match reads_back f p m e, reads_back (f + 1) p m e with
      | true, false => (f, p)
      | false, true => (f + 1, p)
      | true, true =>
          match cmp_dec_bin (2 * f + 1) p (2 * m) e with
          | Gt => (f, p)
          | Lt => (f + 1, p)
          | Eq => if Z.even f then (f, p) else (f + 1, p)
          end
      | false, false => shortest fuel' (n + 1) dp m e
      end
  end.

Definition digits (c : Z) : string := NilZero.string_of_int (Z.to_int c).

Fixpoint rstrip_zeros (s : string) : string :=
  match s with
  | EmptyString => EmptyString
  | String c s' =>
      match rstrip_zeros s' with
      | EmptyString => if Ascii.eqb c "0" then EmptyString else String c EmptyString
      | r => String c r
      end
  end.

Fixpoint zeros (n : nat) : string :=
  match n with
  | O => EmptyString
  | S n' => String "0" (zeros n')
  end.

Fixpoint take (n : nat) (s : string) : string :=
  match n, s with
  | S n', String c s' => String c (take n' s')
  | _, _ => EmptyString
  end.

Fixpoint drop (n : nat) (s : string) : string :=
  match n, s with
  | S n', String _ s' => drop n' s'
  | _, _ => s
  end.

(** The digits [ds] with the decimal point after the first [dp] of
    them, the way [repr] lays a float out. *)
Definition layout (ds : string) (dp : Z) : string :=
  if (dp <=? - 4) || (16 <? dp) then
    let x := dp - 1 in
    let xs := digits (Z.abs x) in
    take 1 ds
    ++ (match drop 1 ds with EmptyString => EmptyString | r => String "." r end)
    ++ "e" ++ (if x <? 0 then "-" else "+")
    ++ (if Z.abs x <? 10 then String "0" xs else xs)
  else if dp <=? 0 then "0." ++ zeros (Z.to_nat (- dp)) ++ ds
  else if Z.of_nat (String.length ds) <=? dp
       then ds ++ zeros (Z.to_nat dp - String.length ds) ++ ".0"
       else take (Z.to_nat dp) ds ++ String "." (drop (Z.to_nat dp) ds).

(** [str(x)] for a float. *)
Definition str (x : spec_float) : string :=
  match x with
  | S754_zero s => if s then "-0.0" else "0.0"
  | S754_infinity s => if s then "-inf" else "inf"
  | S754_nan => "nan"
  | S754_finite s m e =>
      let dp := decimal_point 8 (decimal_estimate (Zpos m) e) (Zpos m) e in
      let '(c, p) := shortest 17 1 dp (Zpos m) e in
      let all := digits c in
      (if s then "-" else "")
      ++ layout (rstrip_zeros all) (Z.of_nat (String.length all) + p)
  end.

(** The float nearest to the integer [z]. *)
Definition of_Z (z : Z) : spec_float := binary_normalize prec emax z 0 false.

End PyFloat.

(** ** Outcomes of a Python call *)

(** The exceptions the embedded methods can raise.  [BadFormatKey c] is
    the [RuntimeError] of [_get_formatted] for candidate [c]; [ReError]
    is [re.error], which [re.sub] raises on a replacement text it cannot
    parse, and [IndexError] is what it raises on a replacement text that
    names a group the pattern has not.  [TclError] is what a call into
    Tk raises, as the making of the window does where there is no
    display. *)
Inductive exn : Type :=
  | KeyError (key : string)
  | BadFormatKey (candidate : string)
  | ValueError
  | TypeError
  | AttributeError (name : string)
  | ReError
  | IndexError
  | TclError.

Inductive result (A : Type) : Type :=
  | Ok (a : A)
  | Raise (e : exn).
Arguments Ok {A} a.
Arguments Raise {A} e.

Definition map_ok {A B : Type} (f : A -> B) (r : result A) : result B :=
  match r with
  | Ok a => Ok (f a)
  | Raise e => Raise e
  end.

(** ** The template resolver: [_get_formatted] *)

Module Template.

Definition backslash : ascii := Eval cbv in ascii_of_nat 92.
Definition newline : ascii := Eval cbv in ascii_of_nat 10.

(** The look-behind [(?<!\\)]: the character before the position, if
    there is one, is not a backslash. *)
Definition not_escaped (prev : option ascii) : bool :=
  match prev with
  | Some c => negb (Ascii.eqb c backslash)
  | None => true
  end.

(** The lazy group [(.+?)] followed by [(?<!\\)\]], read after an
    opening bracket.  [first] holds while the group is still empty,
    [prev] is the character just read.  Any character but a newline
    extends the group; the first bracket that may close it does. *)
Fixpoint lazy_group (first : bool) (prev : ascii) (s : string) : option string :=
  match s with
  | EmptyString => None
  | String c s' =>
      if negb first && Ascii.eqb c "]" && negb (Ascii.eqb prev backslash)
      then Some EmptyString
      else if Ascii.eqb c newline then None
      else option_map (String c) (lazy_group false c s')
  end.

(** [re.findall(match_str, template)]: the groups of the matches, left
    to right, without overlap.  [skip] counts the characters of the
    current match that are still to be passed over. *)
Fixpoint findall_go (skip : nat) (prev : option ascii) (s : string) : list string :=
  match s with
  | EmptyString => []
  | String c s' =>
      match skip with
      | S k => findall_go k (Some c) s'
      | O =>
          if Ascii.eqb c "[" && not_escaped prev then
            match lazy_group true c s' with
            | Some tok => tok :: findall_go (S (String.length tok)) (Some c) s'
            | None => findall_go 0 (Some c) s'
            end
          else findall_go 0 (Some c) s'
      end
  end.

Definition findall (template : string) : list string :=
  findall_go 0 None template.

(** *** The replacement text of [re.sub] *)

Definition is_octal (c : ascii) : bool :=
  ((48 <=? PyStr.code c) && (PyStr.code c <=? 55))%N.

Definition is_ascii_letter (c : ascii) : bool :=
  (((65 <=? PyStr.code c) && (PyStr.code c <=? 90))
   || ((97 <=? PyStr.code c) && (PyStr.code c <=? 122)))%N.

Definition octal_value (c : ascii) : N := (PyStr.code c - 48)%N.

(** The escapes [re] knows in a replacement: a, b, f, n, r, t, v and
    the backslash itself. *)
Definition escape_char (c : ascii) : option ascii :=
  if Ascii.eqb c "a" then Some (ascii_of_nat 7)
  else if Ascii.eqb c "b" then Some (ascii_of_nat 8)
  else if Ascii.eqb c "f" then Some (ascii_of_nat 12)
  else if Ascii.eqb c "n" then Some (ascii_of_nat 10)
  else if Ascii.eqb c "r" then Some (ascii_of_nat 13)
  else if Ascii.eqb c "t" then Some (ascii_of_nat 9)
  else if Ascii.eqb c "v" then Some (ascii_of_nat 11)
  else if Ascii.eqb c backslash then Some backslash
  else None.

(** The name of [\g<name>]: the text up to the closing [>] and the
    rest after it. *)
Fixpoint group_name (s : string) : option (string * string) :=
  match s with
  | EmptyString => None
  | String c s' =>
      if Ascii.eqb c ">" then Some (EmptyString, s')
      else match group_name s' with
           | Some (n, rest) => Some (String c n, rest)
           | None => None
           end
  end.

(** The group that the name of [\g<name>] refers to, in a pattern
    without groups: an identifier is looked up among the named groups,
    of which there are none, and that is an [IndexError]; any other name
    is read by [int] and must give 0, the whole match. *)
Definition group_zero (n : string) : result unit :=
  if PyStr.isidentifier n then Raise IndexError
  else match PyStr.int n with
       | Some 0 => Ok tt
       | _ => Raise ReError
       end.

(** The replacement text after [re]'s processing of backslashes, as
    CPython 3.11 does it ([sre_parse.parse_template]), for a pattern
    without groups whose match is [whole].  [fuel] bounds the number of
    characters read; [expand_repl] gives enough. *)
Fixpoint expand_go (fuel : nat) (whole : string) (s : string) : result string :=
  match fuel with
  | O => Raise ReError
  | S fuel' =>
      match s with
      | EmptyString => Ok EmptyString
      | String c s1 =>
          if negb (Ascii.eqb c backslash)
          then map_ok (String c) (expand_go fuel' whole s1)
          else
            match s1 with
            | EmptyString => Raise ReError
            | String d s2 =>
                if Ascii.eqb d "g" then
                  match s2 with
                  | String "<" s3 =>
                      match group_name s3 with
                      | Some (n, rest) =>
                          match group_zero n with
                          | Ok _ => map_ok (String.append whole) (expand_go fuel' whole rest)
                          | Raise e => Raise e
                          end
                      | None => Raise ReError
                      end
                  | _ => Raise ReError
                  end
                else if Ascii.eqb d "0" then
                  match s2 with
                  | String o1 s3 =>
                      if is_octal o1 then
                        match s3 with
                        | String o2 s4 =>
                            if is_octal o2
                            then map_ok
                                   (String (ascii_of_N (octal_value o1 * 8 + octal_value o2)))
                                   (expand_go fuel' whole s4)
                            else map_ok (String (ascii_of_N (octal_value o1)))
                                   (expand_go fuel' whole s3)
                        | EmptyString =>
                            map_ok (String (ascii_of_N (octal_value o1)))
                              (expand_go fuel' whole s3)
                        end
                      else map_ok (String (ascii_of_N 0)) (expand_go fuel' whole s2)
                  | EmptyString => Ok (String (ascii_of_N 0) EmptyString)
                  end
                else if PyStr.isdecimal_char d then
                  match s2 with
                  | String d2 (String d3 s4) =>
                      if is_octal d && is_octal d2 && is_octal d3 then
                        let v := (octal_value d * 64 + octal_value d2 * 8 + octal_value d3)%N in
                        if (v <=? 255)%N
                        then map_ok (String (ascii_of_N v)) (expand_go fuel' whole s4)
                        else Raise ReError
                      else Raise ReError
                  | _ => Raise ReError
                  end
                else
                  match escape_char d with
                  | Some e => map_ok (String e) (expand_go fuel' whole s2)
                  | None =>
                      if is_ascii_letter d then Raise ReError
                      else map_ok (fun t => String c (String d t))
                             (expand_go fuel' whole s2)
                  end
            end
      end
  end.

Definition expand_repl (whole repl : string) : result string :=
  expand_go (S (String.length repl)) whole repl.

(** A text without a backslash: [re.sub] inserts it as it is. *)
Definition plain (s : string) : bool :=
  PyStr.forallb_string (fun c => negb (Ascii.eqb c backslash)) s.

(** *** [re.sub] for the pattern of one candidate *)

(** The last character of the bracket plus the name: what the
    look-behind before the closing bracket sees. *)
Fixpoint last_char (c : ascii) (s : string) : ascii :=
  match s with
  | EmptyString => c
  | String d s' => last_char d s'
  end.

(** [rest] when [s] begins with [p]. *)
Fixpoint strip_prefix (p s : string) : option string :=
  match p, s with
  | EmptyString, _ => Some s
  | String a p', String b s' => if Ascii.eqb a b then strip_prefix p' s' else None
  | String _ _, EmptyString => None
  end.

(** A candidate that, pasted into a pattern, stands for its own text
    and nothing else: it holds none of the characters that [re] reads as
    operators.  Python identifiers are of this kind. *)
Definition operator_char (c : ascii) : bool :=
  existsb (Ascii.eqb c) (list_ascii_of_string ".^$*+?{}[]|()\").

Definition literal_name (s : string) : bool :=
  PyStr.forallb_string (fun c => negb (operator_char c)) s.

(** Does the pattern [(?<!\\)\[name(?<!\\)\]] match where the opening
    bracket has just been read and [s] follows?  This is the match for a
    [literal_name], as the names of the state table are; what [re] makes
    of a candidate with operators in it is not modelled, and the
    theorems on what the passes give are stated for literal names. *)
Definition closes (name s : string) : bool :=
  match strip_prefix name s with
  | Some (String "]" _) => negb (Ascii.eqb (last_char "[" name) backslash)
  | _ => false
  end.

(** Every match of the candidate's pattern replaced by [text]. *)
Fixpoint replace_go (name text : string) (skip : nat) (prev : option ascii)
    (s : string) : string :=
  match s with
  | EmptyString => EmptyString
  | String c s' =>
      match skip with
      | S k => replace_go name text k (Some c) s'
      | O =>
          if Ascii.eqb c "[" && not_escaped prev && closes name s'
          then String.append text
                 (replace_go name text (S (String.length name)) (Some c) s')
          else String c (replace_go name text 0 (Some c) s')
      end
  end.

(** [re.sub(sub_string, repl, template)]. *)
Definition sub (name repl template : string) : result string :=
  match expand_repl (String "[" (name ++ "]")) repl with
  | Ok text => Ok (replace_go name text 0 None template)
  | Raise e => Raise e
  end.

(** *** The two loops of [_get_formatted] *)

(** [replacements[k] = v] on an insertion-ordered dict. *)
Fixpoint dict_set (k v : string) (d : list (string * string)) : list (string * string) :=
  match d with
  | [] => [(k, v)]
  | (k', v') :: d' =>
      if String.eqb k k' then (k, v) :: d' else (k', v') :: dict_set k v d'
  end.

Section Resolver.

(** [attrs] is [vars(self)] and [scope] is
    [dict(globals(), **locals())], each name mapped to the [str] of
    its value. *)
Variable attrs : gmap string string.
Variable scope : gmap string string.

Definition lookup_candidate (candidate : string) : option string :=
  match attrs !! candidate with
  | Some v => Some v
  | None => scope !! candidate
  end.

Fixpoint collect (candidates : list string) (replacements : list (string * string))
    : result (list (string * string)) :=
  match candidates with
  | [] => Ok replacements
  | candidate :: rest =>
      match lookup_candidate candidate with
      | Some v => collect rest (dict_set candidate v replacements)
      | None => Raise (BadFormatKey candidate)
      end
  end.

Fixpoint substitute (replacements : list (string * string)) (template : string)
    : result string :=
  match replacements with
  | [] => Ok template
  | (candidate, v) :: rest =>
      match sub candidate v template with
      | Ok template' => substitute rest template'
      | Raise e => Raise e
      end
  end.

Definition _get_formatted (template : string) : result string :=
  match collect (findall template) [] with
  | Ok replacements => substitute replacements template
  | Raise e => Raise e
  end.

End Resolver.

End Template.

(** ** The widget: attributes, state table and environment *)

(** The methods an event can be routed to: the five handlers of the state
    table and [refresh_text], the other method that accepts an event. *)
Inductive handler : Type :=
  | h_start_game
  | h_on_keypress
  | h_on_backspace
  | h_on_enter
  | h_next_problem
  | h_refresh_text.

(** [self.<name>] as evaluated by the [bind] statement. *)
Definition method_of_name (name : string) : option handler :=
  if String.eqb name "start_game" then Some h_start_game
  else if String.eqb name "on_keypress" then Some h_on_keypress
  else if String.eqb name "on_backspace" then Some h_on_backspace
  else if String.eqb name "on_enter" then Some h_on_enter
  else if String.eqb name "next_problem" then Some h_next_problem
  else if String.eqb name "refresh_text" then Some h_refresh_text
  else None.

Record MultiplicationWidgetState : Type := {
  message : string;
  event_routings : list (string * list string)
}.

Definition nl : string := String Template.newline EmptyString.

(** The table built in [__init__]; nothing assigns to it afterwards. *)
Definition widget_states : list (string * MultiplicationWidgetState) :=
  [ ("initial",
     {| message := "[num_problems] Challenges." ++ nl ++ "Click to Start!";
        event_routings := [("<Button-1>", ["start_game"]); ("<Return>", ["start_game"])] |});
    ("problem",
     {| message := "[first_num] X [second_num]" ++ nl ++ "[_user_input_buffer]";
        event_routings := [("<Key>", ["on_keypress"]); ("<BackSpace>", ["on_backspace"]);
                           ("<Return>", ["on_enter"])] |});
    ("correct",
     {| message := "That's correct!" ++ nl ++ "Click to continue.";
        event_routings := [("<Button-1>", ["next_problem"]); ("<Return>", ["next_problem"])] |});
    ("incorrect",
     {| message := "That's incorrect." ++ nl ++ "Click to continue.";
        event_routings := [("<Button-1>", ["next_problem"]); ("<Return>", ["next_problem"])] |});
    ("end",
     {| message := "You solved [num_solved] out of [num_problems] in [seconds_elapsed] seconds!"
                   ++ nl ++ "Click to play again!";
        event_routings := [("<Button-1>", ["start_game"]); ("<Return>", ["start_game"])] |}) ].

Fixpoint assoc {A : Type} (k : string) (l : list (string * A)) : option A :=
  match l with
  | [] => None
  | (k', a) :: l' => if String.eqb k k' then Some a else assoc k l'
  end.

(** The attributes of [self] that the methods read or write, the text of
    the label's [StringVar] and the bindings Tk holds for the window. *)
Record widget : Type := Widget {
  num_problems : Z;
  seconds_elapsed : option spec_float;
  num_solved : option Z;
  _num_displayed : option Z;
  first_num : option Z;
  second_num : option Z;
  _start_time : option spec_float;
  _end_time : option spec_float;
  _user_input_buffer : option string;
  _min_factor : Z;
  _max_factor : Z;
  curr_widget_state : string;
  text : string;
  bindings : gmap string handler
}.

Definition set_seconds_elapsed (v : option spec_float) (w : widget) : widget :=
  {| num_problems := num_problems w;
     seconds_elapsed := v;
     num_solved := num_solved w;
     _num_displayed := _num_displayed w;
     first_num := first_num w;
     second_num := second_num w;
     _start_time := _start_time w;
     _end_time := _end_time w;
     _user_input_buffer := _user_input_buffer w;
     _min_factor := _min_factor w;
     _max_factor := _max_factor w;
     curr_widget_state := curr_widget_state w;
     text := text w;
     bindings := bindings w |}.

Definition set_num_solved (v : option Z) (w : widget) : widget :=
  {| num_problems := num_problems w;
     seconds_elapsed := seconds_elapsed w;
     num_solved := v;
     _num_displayed := _num_displayed w;
     first_num := first_num w;
     second_num := second_num w;
     _start_time := _start_time w;
     _end_time := _end_time w;
     _user_input_buffer := _user_input_buffer w;
     _min_factor := _min_factor w;
     _max_factor := _max_factor w;
     curr_widget_state := curr_widget_state w;
     text := text w;
     bindings := bindings w |}.

Definition set_num_displayed (v : option Z) (w : widget) : widget :=
  {| num_problems := num_problems w;
     seconds_elapsed := seconds_elapsed w;
     num_solved := num_solved w;
     _num_displayed := v;
     first_num := first_num w;
     second_num := second_num w;
     _start_time := _start_time w;
     _end_time := _end_time w;
     _user_input_buffer := _user_input_buffer w;
     _min_factor := _min_factor w;
     _max_factor := _max_factor w;
     curr_widget_state := curr_widget_state w;
     text := text w;
     bindings := bindings w |}.

Definition set_first_num (v : option Z) (w : widget) : widget :=
  {| num_problems := num_problems w;
     seconds_elapsed := seconds_elapsed w;
     num_solved := num_solved w;
     _num_displayed := _num_displayed w;
     first_num := v;
     second_num := second_num w;
     _start_time := _start_time w;
     _end_time := _end_time w;
     _user_input_buffer := _user_input_buffer w;
     _min_factor := _min_factor w;
     _max_factor := _max_factor w;
     curr_widget_state := curr_widget_state w;
     text := text w;
     bindings := bindings w |}.

Definition set_second_num (v : option Z) (w : widget) : widget :=
  {| num_problems := num_problems w;
     seconds_elapsed := seconds_elapsed w;
     num_solved := num_solved w;
     _num_displayed := _num_displayed w;
     first_num := first_num w;
     second_num := v;
     _start_time := _start_time w;
     _end_time := _end_time w;
     _user_input_buffer := _user_input_buffer w;
     _min_factor := _min_factor w;
     _max_factor := _max_factor w;
     curr_widget_state := curr_widget_state w;
     text := text w;
     bindings := bindings w |}.

Definition set_start_time (v : option spec_float) (w : widget) : widget :=
  {| num_problems := num_problems w;
     seconds_elapsed := seconds_elapsed w;
     num_solved := num_solved w;
     _num_displayed := _num_displayed w;
     first_num := first_num w;
     second_num := second_num w;
     _start_time := v;
     _end_time := _end_time w;
     _user_input_buffer := _user_input_buffer w;
     _min_factor := _min_factor w;
     _max_factor := _max_factor w;
     curr_widget_state := curr_widget_state w;
     text := text w;
     bindings := bindings w |}.

Definition set_end_time (v : option spec_float) (w : widget) : widget :=
  {| num_problems := num_problems w;
     seconds_elapsed := seconds_elapsed w;
     num_solved := num_solved w;
     _num_displayed := _num_displayed w;
     first_num := first_num w;
     second_num := second_num w;
     _start_time := _start_time w;
     _end_time := v;
     _user_input_buffer := _user_input_buffer w;
     _min_factor := _min_factor w;
     _max_factor := _max_factor w;
     curr_widget_state := curr_widget_state w;
     text := text w;
     bindings := bindings w |}.

Definition set_user_input_buffer (v : option string) (w : widget) : widget :=
  {| num_problems := num_problems w;
     seconds_elapsed := seconds_elapsed w;
     num_solved := num_solved w;
     _num_displayed := _num_displayed w;
     first_num := first_num w;
     second_num := second_num w;
     _start_time := _start_time w;
     _end_time := _end_time w;
     _user_input_buffer := v;
     _min_factor := _min_factor w;
     _max_factor := _max_factor w;
     curr_widget_state := curr_widget_state w;
     text := text w;
     bindings := bindings w |}.

Definition set_curr_widget_state (v : string) (w : widget) : widget :=
  {| num_problems := num_problems w;
     seconds_elapsed := seconds_elapsed w;
     num_solved := num_solved w;
     _num_displayed := _num_displayed w;
     first_num := first_num w;
     second_num := second_num w;
     _start_time := _start_time w;
     _end_time := _end_time w;
     _user_input_buffer := _user_input_buffer w;
     _min_factor := _min_factor w;
     _max_factor := _max_factor w;
     curr_widget_state := v;
     text := text w;
     bindings := bindings w |}.

Definition set_text (v : string) (w : widget) : widget :=
  {| num_problems := num_problems w;
     seconds_elapsed := seconds_elapsed w;
     num_solved := num_solved w;
     _num_displayed := _num_displayed w;
     first_num := first_num w;
     second_num := second_num w;
     _start_time := _start_time w;
     _end_time := _end_time w;
     _user_input_buffer := _user_input_buffer w;
     _min_factor := _min_factor w;
     _max_factor := _max_factor w;
     curr_widget_state := curr_widget_state w;
     text := v;
     bindings := bindings w |}.

Definition set_bindings (v : gmap string handler) (w : widget) : widget :=
  {| num_problems := num_problems w;
     seconds_elapsed := seconds_elapsed w;
     num_solved := num_solved w;
     _num_displayed := _num_displayed w;
     first_num := first_num w;
     second_num := second_num w;
     _start_time := _start_time w;
     _end_time := _end_time w;
     _user_input_buffer := _user_input_buffer w;
     _min_factor := _min_factor w;
     _max_factor := _max_factor w;
     curr_widget_state := curr_widget_state w;
     text := text w;
     bindings := v |}.

(** The world a handler runs in: the widget and what it draws from
    outside.  [clock] lists the readings [time.time()] gives, [ticks]
    counts those taken; [dice] and [rolls] do the same for the random
    source behind [randint].  [tk_attrs] holds the text of the other
    entries of [vars(self)] (Tk's own attributes, the label, the
    [StringVar], the table), and [ambient template] the text of
    [dict(globals(), **locals())] inside [_get_formatted]. *)
Record world : Type := World {
  self : widget;
  clock : nat -> spec_float;
  ticks : nat;
  dice : nat -> Z;
  rolls : nat;
  tk_attrs : gmap string string;
  ambient : string -> gmap string string
}.

Definition with_self (f : widget -> widget) (w : world) : world :=
  {| self := f (self w); clock := clock w; ticks := ticks w; dice := dice w;
     rolls := rolls w; tk_attrs := tk_attrs w; ambient := ambient w |}.

(** ** The monad of methods: state and exceptions *)

Definition M (A : Type) : Type := world -> world * result A.

Definition ret {A : Type} (a : A) : M A := fun w => (w, Ok a).

Definition raise {A : Type} (e : exn) : M A := fun w => (w, Raise e).

Definition bind {A B : Type} (m : M A) (k : A -> M B) : M B :=
  fun w =>
    match m w with
    | (w', Ok a) => k a w'
    | (w', Raise e) => (w', Raise e)
    end.

Notation "'let*' x ':=' m 'in' k" := (bind m (fun x => k))
  (at level 10, x name, m at level 200, k at level 200).

Definition get {A : Type} (f : widget -> A) : M A := fun w => (w, Ok (f (self w))).

Definition update (f : widget -> widget) : M unit := fun w => (with_self f w, Ok tt).

(** A value that must not be [None] where it is used. *)
Definition need {A : Type} (o : option A) : M A :=
  match o with
  | Some a => ret a
  | None => raise TypeError
  end.

Fixpoint for_each {A : Type} (l : list A) (body : A -> M unit) : M unit :=
  match l with
  | [] => ret tt
  | a :: l' => let* _ := body a in for_each l' body
  end.

(** One more reading of the clock taken; one more draw made. *)
Definition tick (w : world) : world :=
  {| self := self w; clock := clock w; ticks := S (ticks w); dice := dice w;
     rolls := rolls w; tk_attrs := tk_attrs w; ambient := ambient w |}.

Definition roll (w : world) : world :=
  {| self := self w; clock := clock w; ticks := ticks w; dice := dice w;
     rolls := S (rolls w); tk_attrs := tk_attrs w; ambient := ambient w |}.

(** [time.time()]. *)
Definition time_time : M spec_float :=
  fun w => (tick w, Ok (clock w (ticks w))).

(** The value [randint(a, b)] draws in world [w]: some value of [a..b]. *)
Definition drawn (a b : Z) (w : world) : Z :=
  a + dice w (rolls w) mod (b - a + 1).

(** [randint(a, b)]; [ValueError] on an empty range. *)
Definition randint (a b : Z) : M Z :=
  fun w =>
    if b <? a then (w, Raise ValueError)
    else (roll w, Ok (drawn a b w)).

(** ** The methods of [MultiplicationWidget] *)

Definition str_option {A : Type} (str : A -> string) (o : option A) : string :=
  match o with
  | Some a => str a
  | None => "None"
  end.

(** [vars(self)], each value as [str] renders it. *)
Definition vars_text (w : world) : gmap string string :=
  let s := self w in
  list_to_map
    [ ("num_problems", PyStr.str_int (num_problems s));
      ("seconds_elapsed", str_option PyFloat.str (seconds_elapsed s));
      ("num_solved", str_option PyStr.str_int (num_solved s));
      ("_num_displayed", str_option PyStr.str_int (_num_displayed s));
      ("first_num", str_option PyStr.str_int (first_num s));
      ("second_num", str_option PyStr.str_int (second_num s));
      ("_start_time", str_option PyFloat.str (_start_time s));
      ("_end_time", str_option PyFloat.str (_end_time s));
      ("_user_input_buffer", str_option id (_user_input_buffer s));
      ("_min_factor", PyStr.str_int (_min_factor s));
      ("_max_factor", PyStr.str_int (_max_factor s));
      ("curr_widget_state", curr_widget_state s) ]
  ∪ tk_attrs w.

Definition _init_vars : M unit :=
  let* _ := update (set_num_solved (Some 0)) in
  let* _ := update (set_num_displayed (Some 0)) in
  update (set_user_input_buffer (Some "")).

Definition _gen_factors : M unit :=
  let* lo := get _min_factor in
  let* hi := get _max_factor in
  let* a := randint lo hi in
  let* _ := update (set_first_num (Some a)) in
  let* lo' := get _min_factor in
  let* hi' := get _max_factor in
  let* b := randint lo' hi' in
  update (set_second_num (Some b)).

Definition _get_formatted (template : string) : M string :=
  fun w =>
    (w, Template._get_formatted (vars_text w) (ambient w template) template).

(** [self.widget_states[name]]. *)
Definition state_of (name : string) : M MultiplicationWidgetState :=
  match assoc name widget_states with
  | Some st => ret st
  | None => raise (KeyError name)
  end.

Definition refresh_text : M unit :=
  let* name := get curr_widget_state in
  let* widget_state := state_of name in
  let* t := _get_formatted (message widget_state) in
  update (set_text t).

(** [self.unbind(event_name)]: Tk forgets the binding of the sequence, if
    it has one. *)
Definition unbind (event_name : string) : M unit :=
  update (fun s => set_bindings (delete event_name (bindings s)) s).

(** [self.bind(event_name, self.func_name)]: the method found under the
    name becomes the one binding of the sequence. *)
Definition bind_event (event_name func_name : string) : M unit :=
  match method_of_name func_name with
  | Some h => update (fun s => set_bindings (<[event_name := h]> (bindings s)) s)
  | None => raise (AttributeError func_name)
  end.

(** The loop under [# unbind old events]. *)
Definition unbind_routings (routings : list (string * list string)) : M unit :=
  for_each routings
    (fun '(event_name, funcs) => for_each funcs (fun _ => unbind event_name)).

(** The loop under [# bind new ones]. *)
Definition bind_routings (routings : list (string * list string)) : M unit :=
  for_each routings
    (fun '(event_name, funcs) =>
       for_each funcs (fun func_name => bind_event event_name func_name)).

Definition set_widget_state (state_name : string) : M unit :=
  let* widget_state := state_of state_name in
  let* curr := get curr_widget_state in
  let* old_widget_state := state_of curr in
  let* _ := unbind_routings (event_routings old_widget_state) in
  let* _ := bind_routings (event_routings widget_state) in
  let* t := _get_formatted (message widget_state) in
  let* _ := update (set_text t) in
  update (set_curr_widget_state state_name).

Definition on_keypress (char : string) : M unit :=
  if PyStr.isnumeric char then
    let* o := get _user_input_buffer in
    let* buf := need o in
    let* _ := update (set_user_input_buffer (Some (buf ++ char))) in
    refresh_text
  else ret tt.

Definition on_backspace : M unit :=
  let* o := get _user_input_buffer in
  let* buf := need o in
  let* _ := update (set_user_input_buffer (Some (PyStr.drop_last buf))) in
  refresh_text.

Definition on_enter : M unit :=
  let* o := get _user_input_buffer in
  let* buf := need o in
  if PyStr.nonempty buf then
    let* oa := get first_num in
    let* ob := get second_num in
    let* a := need oa in
    let* b := need ob in
    let correct_result := a * b in
    match PyStr.int buf with
    | None => raise ValueError
    | Some v =>
        if v =? correct_result then
          let* os := get num_solved in
          let* n := need os in
          let* _ := update (set_num_solved (Some (n + 1))) in
          set_widget_state "correct"
        else set_widget_state "incorrect"
    end
  else ret tt.

Definition _display_problem : M unit :=
  let* d := get _num_displayed in
  let* n := get num_problems in
  if bool_decide (d = Some n) then
    let* t := time_time in
    let* _ := update (set_end_time (Some t)) in
    let* e := get _end_time in
    let* s := get _start_time in
    let* e' := need e in
    let* s' := need s in
    let* _ := update (set_seconds_elapsed (Some (PyFloat.round1 (PyFloat.sub e' s')))) in
    set_widget_state "end"
  else
    let* _ := _gen_factors in
    let* _ := set_widget_state "problem" in
    let* d' := get _num_displayed in
    let* k := need d' in
    update (set_num_displayed (Some (k + 1))).

Definition start_game : M unit :=
  let* _ := _init_vars in
  let* t := time_time in
  let* _ := update (set_start_time (Some t)) in
  _display_problem.

Definition next_problem : M unit :=
  let* _ := _gen_factors in
  let* _ := update (set_user_input_buffer (Some "")) in
  _display_problem.

Arguments assoc : simpl never.
Arguments set_widget_state : simpl never.
Arguments refresh_text : simpl never.

(** ** The event loop *)

(** What the input source delivers: a click of the first button, or a
    key press with the character it produces. *)
Inductive key : Type :=
  | Return
  | BackSpace
  | OtherKey.

Inductive event : Type :=
  | Button1
  | KeyPress (k : key) (char : string).

(** [event.char]; Tk gives two question marks for a mouse event. *)
Definition event_char (ev : event) : string :=
  match ev with
  | Button1 => "??"
  | KeyPress _ char => char
  end.

(** The binding Tk picks for an event: of the sequences of the table
    that match, the most specific one that is bound. *)
Definition binding_for (ev : event) (b : gmap string handler) : option handler :=
  match ev with
  | Button1 => b !! "<Button-1>"
  | KeyPress Return _ =>
      match b !! "<Return>" with Some h => Some h | None => b !! "<Key>" end
  | KeyPress BackSpace _ =>
      match b !! "<BackSpace>" with Some h => Some h | None => b !! "<Key>" end
  | KeyPress OtherKey _ => b !! "<Key>"
  end.

Definition run_handler (h : handler) (ev : event) : M unit :=
  match h with
  | h_start_game => start_game
  | h_on_keypress => on_keypress (event_char ev)
  | h_on_backspace => on_backspace
  | h_on_enter => on_enter
  | h_next_problem => next_problem
  | h_refresh_text => refresh_text
  end.

(** One turn of the main loop: the bound handler, if any, runs to its
    end or to an exception, which Tk reports and drops; what the handler
    had written by then stays. *)
Definition dispatch (ev : event) : M unit :=
  fun w =>
    match binding_for ev (bindings (self w)) with
    | Some h => run_handler h ev w
    | None => (w, Ok tt)
    end.

Definition step (ev : event) (w : world) : world := fst (dispatch ev w).

(** The attributes as the assignments of [__init__] leave them: the
    constants, the session attributes at [None], the state name, a
    [StringVar] still empty and a window without bindings. *)
Definition new_widget : widget :=
  {| num_problems := 5; seconds_elapsed := None; num_solved := None;
     _num_displayed := None; first_num := None; second_num := None;
     _start_time := None; _end_time := None; _user_input_buffer := None;
     _min_factor := 0; _max_factor := 10;
     curr_widget_state := "initial"; text := ""; bindings := ∅ |}.

(** The calls of [__init__] into Tk, in the order of the source: the
    constructor of [Tk] (by [super()], with the arguments given),
    [StringVar()],
    [Label(self, textvariable=self.text)], [self.label.pack()], the two
    [self.label.config(...)] and [self.config(bg='#222')]. *)
Inductive tk_call : Type :=
  | TkInit
  | NewStringVar
  | NewLabel
  | LabelPack
  | LabelFont
  | LabelColours
  | WindowColour.

(** A call into Tk returns or raises, as the toolkit [tk] decides; the
    attributes of the model it leaves alone. *)
Definition call (tk : tk_call -> result unit) (c : tk_call) : M unit :=
  fun w => (w, tk c).

(** A toolkit every call of which returns. *)
Definition tk_up : tk_call -> result unit := fun _ => Ok tt.

(** A toolkit without a display: the window cannot be made. *)
Definition tk_no_display : tk_call -> result unit :=
  fun c => match c with TkInit => Raise TclError | _ => Ok tt end.

(** The constructor.  Its assignments cannot fail and give [new_widget];
    around them it calls into Tk, and between [pack] and the first
    [config] it enters the first state by [set_widget_state], read from
    [curr_widget_state].  A call that raises ends the constructor, and
    no widget comes to be. *)
Definition __init__ (tk : tk_call -> result unit)
    (clock : nat -> spec_float) (dice : nat -> Z)
    (tk_attrs : gmap string string) (ambient : string -> gmap string string)
    : world * result unit :=
  (let* _ := call tk TkInit in
   let* _ := call tk NewStringVar in
   let* _ := call tk NewLabel in
   let* _ := call tk LabelPack in
   let* name := get curr_widget_state in
   let* _ := set_widget_state name in
   let* _ := call tk LabelFont in
   let* _ := call tk LabelColours in
   call tk WindowColour)
    {| self := new_widget; clock := clock; ticks := 0%nat; dice := dice;
       rolls := 0%nat; tk_attrs := tk_attrs; ambient := ambient |}.

(** The worlds the program can be in between two events. *)
Inductive reachable : world -> Prop :=
  | reachable_init tk clock dice tk_attrs ambient w :
      __init__ tk clock dice tk_attrs ambient = (w, Ok tt) -> reachable w
  | reachable_step ev w :
      reachable w -> reachable (step ev w).

(** Several events in a row. *)
Definition run (evs : list event) (w : world) : world :=
  fold_left (fun w ev => step ev w) evs w.

(** ** Predicates on worlds *)

Definition state_names : list string :=
  ["initial"; "problem"; "correct"; "incorrect"; "end"].

(** The names the templates of the table refer to. *)
Definition table_tokens : list string :=
  ["num_problems"; "first_num"; "second_num"; "_user_input_buffer"; "num_solved";
   "seconds_elapsed"].

(** The input buffer, if set, holds no backslash. *)
Definition buffer_plain (w : world) : Prop :=
  match _user_input_buffer (self w) with
  | Some b => Template.plain b = true
  | None => True
  end.

(** ** The bindings of a state *)

(** What the unbinding loop leaves of a table of bindings. *)
Definition unbind_map (routings : list (string * list string))
    (b : gmap string handler) : gmap string handler :=
  fold_left
    (fun b '(event_name, funcs) => fold_left (fun b _ => delete event_name b) funcs b)
    routings b.

(** What the binding loop makes of a table of bindings, when every
    method name is found. *)
Definition bind_map (routings : list (string * list string))
    (b : gmap string handler) : gmap string handler :=
  fold_left
    (fun b '(event_name, funcs) =>
       fold_left
         (fun b func_name =>
            match method_of_name func_name with
            | Some h => <[event_name := h]> b
            | None => b
            end)
         funcs b)
    routings b.

(** The event bindings of the state called [name]: its routings, and
    nothing else. *)
Definition bindings_of (name : string) : gmap string handler :=
  match assoc name widget_states with
  | Some st => bind_map (event_routings st) ∅
  | None => ∅
  end.

Definition resolvable (routings : list (string * list string)) : Prop :=
  Forall (fun r => Forall (fun f => is_Some (method_of_name f)) r.2) routings.

(** ** The invariant of the session *)

(** The input buffer, if set, holds numeric characters only. *)
Definition numeric_buffer (w : world) : Prop :=
  match _user_input_buffer (self w) with
  | Some b => PyStr.forallb_string PyStr.isnumeric_char b = true
  | None => True
  end.

(** A factor is set and lies between the configured limits. *)
Definition in_range (w : world) (o : option Z) : Prop :=
  exists a, o = Some a /\ _min_factor (self w) <= a <= _max_factor (self w).

(** The counters are set and ordered; while a problem is shown it is
    not yet counted as solved. *)
Definition counters_ok (w : world) : Prop :=
  exists s d,
    num_solved (self w) = Some s /\ _num_displayed (self w) = Some d
    /\ 0 <= s /\ s <= d /\ d <= num_problems (self w)
    /\ (curr_widget_state (self w) = "problem" -> s < d).

Record session (w : world) : Prop := {
  ses_counters : counters_ok w;
  ses_first : in_range w (first_num (self w));
  ses_second : in_range w (second_num (self w));
  ses_start : is_Some (_start_time (self w));
  ses_buffer : is_Some (_user_input_buffer (self w))
}.

Record inv (w : world) : Prop := {
  inv_state : curr_widget_state (self w) ∈ state_names;
  inv_bindings : bindings (self w) = bindings_of (curr_widget_state (self w));
  inv_problems : num_problems (self w) = 5;
  inv_min : _min_factor (self w) = 0;
  inv_max : _max_factor (self w) = 10;
  inv_numeric : numeric_buffer w;
  inv_session : curr_widget_state (self w) <> "initial" -> session w
}.

(** ** Worlds after the steps of a handler *)

(** The world after [_gen_factors]: two draws, two factors. *)
Definition with_factors (w : world) : world :=
  let lo := _min_factor (self w) in
  let hi := _max_factor (self w) in
  with_self
    (fun s => set_second_num (Some (drawn lo hi (roll w)))
                (set_first_num (Some (drawn lo hi w)) s))
    (roll (roll w)).

(** The world after a transition to [name] that shows [t]. *)
Definition transitioned (name t : string) (w : world) : world :=
  with_self
    (fun s => set_curr_widget_state name (set_text t (set_bindings (bindings_of name) s)))
    w.

(** The world after [_init_vars] and the reading of the start time. *)
Definition started (w : world) : world :=
  with_self
    (fun s =>
       set_start_time (Some (clock w (ticks w)))
         (set_user_input_buffer (Some "")
            (set_num_displayed (Some 0) (set_num_solved (Some 0) s))))
    (tick w).

(** The world after the first two statements of [next_problem]. *)
Definition cleared (w : world) : world :=
  with_self (set_user_input_buffer (Some "")) (with_factors w).

(** What a handler leaves behind: the invariant holds, the widget is
    past its first state, and the handler either returned or raised the
    [ValueError] of [int]. *)
Definition kept (r : world * result unit) : Prop :=
  inv r.1 /\ curr_widget_state (self r.1) <> "initial"
  /\ (r.2 = Ok tt \/ r.2 = Raise ValueError).

(** ** The configuration *)

(** The fields set once in [__init__] and read ever after. *)
Definition config (w : world) : Z * Z * Z :=
  (num_problems (self w), _min_factor (self w), _max_factor (self w)).

(** A method that leaves the configuration as it found it, whether it
    returns or raises. *)
Definition preserves {A : Type} (m : M A) : Prop :=
  forall w, config (fst (m w)) = config w.

(** An attribute update that does not touch the configuration. *)
Definition off_config (f : widget -> widget) : Prop :=
  forall s, num_problems (f s) = num_problems s
            /\ _min_factor (f s) = _min_factor s
            /\ _max_factor (f s) = _max_factor s.

(** ** A sample environment *)

(** A clock that advances three seconds a reading. *)
Definition sample_clock (n : nat) : spec_float :=
  PyFloat.of_Z (1000 + 3 * Z.of_nat n).

(** A clock set back between its first reading and the ones after. *)
Definition clock_set_back (n : nat) : spec_float :=
  match n with
  | O => PyFloat.of_Z 10
  | _ => PyFloat.of_Z 5
  end.

Definition sample_dice (n : nat) : Z := 7 * Z.of_nat n + 3.

(** The text of [match_str], the pattern of the tokens. *)
Definition match_str : string := "(?<!\\)\[(.+?)(?<!\\)\]".

(** The globals of the module whose text is the same in every run, as
    the script started by the interpreter has them.  Left out are those
    whose text holds an address or a path ([randint], [dedent], [re],
    [__loader__], [__file__]) and [mw], which is bound only when the
    constructor has returned. *)
Definition sample_globals : gmap string string :=
  list_to_map
    [ ("__name__", "__main__"); ("__doc__", "None"); ("__package__", "None");
      ("__spec__", "None"); ("__annotations__", "{}");
      ("__builtins__", "<module 'builtins' (built-in)>"); ("__cached__", "None");
      ("Label", "<class 'tkinter.Label'>"); ("Tk", "<class 'tkinter.Tk'>");
      ("StringVar", "<class 'tkinter.StringVar'>");
      ("MethodType", "<class 'method'>");
      ("GetSetDescriptorType", "<class 'getset_descriptor'>");
      ("List", "typing.List"); ("Dict", "typing.Dict");
      ("time", "<module 'time' (built-in)>");
      ("MultiplicationWidgetState", "<class '__main__.MultiplicationWidgetState'>");
      ("MultiplicationWidget", "<class '__main__.MultiplicationWidget'>") ].

(** The locals of [_get_formatted] at the look-up of a candidate:
    [self] (Tk prints the window's path name), [template], [match_str],
    [replacement_candidates] and the loop variable [candidate], which is
    looked up only while it holds its own name.  Left out is
    [replacements], whose text changes from one look-up to the next.
    A local hides a global of the same name. *)
Definition sample_locals (template : string) : gmap string string :=
  list_to_map
    [ ("self", "."); ("template", template); ("match_str", match_str);
      ("replacement_candidates", PyStr.str_list (Template.findall template));
      ("candidate", "candidate") ].

(** A part of [dict(globals(), **locals())] inside [_get_formatted]. *)
Definition sample_ambient (template : string) : gmap string string :=
  sample_locals template ∪ sample_globals.

Definition sample_world : world :=
  fst (__init__ tk_up sample_clock sample_dice ∅ sample_ambient).

(** One problem of a session, answered with [answer] and left by a
    click. *)
Definition round (answer : string) : list event :=
  [KeyPress OtherKey answer; KeyPress Return ""; Button1].

(** The character U+00B2, superscript two. *)
Definition superscript_two : string := String (ascii_of_N 178) EmptyString.

(** The number a string of decimal digits denotes, after [acc]. *)
Fixpoint decimal_value (acc : Z) (s : string) : Z :=
  match s with
  | EmptyString => acc
  | String c s' => decimal_value (acc * 10 + PyStr.digit_value c) s'
  end.



(** ** Signs of floats *)

(** [r] is not NaN and carries the sign [s]. *)
Definition signed_as (s : bool) (r : spec_float) : Prop :=
  match r with
  | S754_zero s' | S754_infinity s' | S754_finite s' _ _ => s' = s
  | S754_nan => False
  end.

(** ** Counting the calls of a handler *)

Definition handler_eqb (h1 h2 : handler) : bool :=
  match h1, h2 with
  | h_start_game, h_start_game
  | h_on_keypress, h_on_keypress
  | h_on_backspace, h_on_backspace
  | h_on_enter, h_on_enter
  | h_next_problem, h_next_problem
  | h_refresh_text, h_refresh_text => true
  | _, _ => false
  end.

(** How often the events [evs], delivered one after the other from
    world [w] on, invoke the handler [h]. *)
Fixpoint handler_calls (h : handler) (evs : list event) (w : world) : nat :=
  match evs with
  | [] => 0
  | ev :: evs' =>
      (match binding_for ev (bindings (self w)) with
       | Some h' => if handler_eqb h h' then 1 else 0
       | None => 0
       end + handler_calls h evs' (step ev w))%nat
  end.

(** The invocations of [_display_problem] among the handlers run for
    [evs]: [start_game] and [next_problem] each end with one, and no
    other handler makes any. *)
Definition display_calls (evs : list event) (w : world) : nat :=
  (handler_calls h_start_game evs w + handler_calls h_next_problem evs w)%nat.

(** A session: the click that starts it, then one round a problem. *)
Definition session_events (answers : list string) : list event :=
  Button1 :: concat (map round answers).

(** ** Stages of a session *)

(** An answer that [int] reads: decimal digits, and not more of them
    than the limit allows. *)
Definition readable (answer : string) : Prop :=
  PyStr.isdecimal answer = true
  /\ Z.of_nat (String.length answer) <= PyStr.int_max_str_digits.

(** The world in which a problem stands unanswered. *)
Definition asking (d : Z) (w : world) : Prop :=
  inv w /\ curr_widget_state (self w) = "problem"
  /\ _user_input_buffer (self w) = Some ""
  /\ _num_displayed (self w) = Some d.

(** The world in which the last answer has been judged. *)
Definition judged (d : Z) (w : world) : Prop :=
  inv w
  /\ (curr_widget_state (self w) = "correct" \/ curr_widget_state (self w) = "incorrect")
  /\ _num_displayed (self w) = Some d.

(** ** The substitution as the specification words it *)

(** One pass over the template: every token is replaced by the text of
    its entry, and the text put in is never read again.  A token without
    an entry stays. *)
Fixpoint single_pass_go (lookup : string -> option string) (skip : nat)
    (prev : option ascii) (s : string) : string :=
  match s with
  | EmptyString => EmptyString
  | String c s' =>
      match skip with
      | S k => single_pass_go lookup k (Some c) s'
      | O =>
          if Ascii.eqb c "[" && Template.not_escaped prev then
            match Template.lazy_group true c s' with
            | Some tok =>
                match lookup tok with
                | Some v => v ++ single_pass_go lookup (S (String.length tok)) (Some c) s'
                | None => String c (single_pass_go lookup 0 (Some c) s')
                end
            | None => String c (single_pass_go lookup 0 (Some c) s')
            end
          else String c (single_pass_go lookup 0 (Some c) s')
      end
  end.

Definition single_pass (attrs scope : gmap string string) (template : string) : string :=
  single_pass_go (Template.lookup_candidate attrs scope) 0 None template.

(** The distinct names of [l] in the order of their first occurrence,
    those of [seen] left out. *)
Fixpoint first_occurrences (seen l : list string) : list string :=
  match l with
  | [] => []
  | c :: l' =>
      if existsb (String.eqb c) seen then first_occurrences seen l'
      else c :: first_occurrences (seen ++ [c]) l'
  end.

(** The passes [_get_formatted] makes over a template whose tokens all
    have entries: one for each distinct token, in the order of first
    occurrence, with the text of its entry. *)
Definition passes (attrs scope : gmap string string) (template : string)
    : list (string * string) :=
  map (fun c => (c, default "" (Template.lookup_candidate attrs scope c)))
    (first_occurrences [] (Template.findall template)).

(** The passes one after the other, each putting its text in as it
    is, over what the passes before it have left. *)
Definition run_passes (reps : list (string * string)) (template : string) : string :=
  fold_left (fun t kv => Template.replace_go kv.1 kv.2 0 None t) reps template.

(** The characters the texts of numbers are made of. *)
Definition number_alphabet : string := "0123456789-.e+infaNo".

Fixpoint in_string (c : ascii) (s : string) : bool :=
  match s with
  | EmptyString => false
  | String d s' => Ascii.eqb c d || in_string c s'
  end.

(** A text of number characters only. *)
Definition number_text (s : string) : bool :=
  PyStr.forallb_string (fun c => in_string c number_alphabet) s.

(** A text without an opening bracket and without a backslash. *)
Definition inert (s : string) : bool :=
  PyStr.forallb_string
    (fun c => negb (Ascii.eqb c "[") && negb (Ascii.eqb c Template.backslash)) s.

(** The character a pass has last read when it is through [u], having
    read [prev] before. *)
Fixpoint prev_after (prev : option ascii) (u : string) : option ascii :=
  match u with
  | EmptyString => prev
  | String c u' => prev_after (Some c) u'
  end.

(** The template of the state called [name]. *)
Definition message_of (name : string) : string :=
  match assoc name widget_states with
  | Some st => message st
  | None => ""
  end.

(** ** What the label shows *)

(** The text of the label in the state called [name] for the attributes
    [s]: the template of the state with each name in brackets replaced
    by the text of the attribute. *)
Definition display_text (name : string) (s : widget) : string :=
  if String.eqb name "initial" then
    PyStr.str_int (num_problems s) ++ (" Challenges." ++ nl ++ "Click to Start!")
  else if String.eqb name "problem" then
    str_option PyStr.str_int (first_num s)
    ++ (" X " ++ (str_option PyStr.str_int (second_num s)
                  ++ (nl ++ str_option id (_user_input_buffer s))))
  else if String.eqb name "correct" then "That's correct!" ++ nl ++ "Click to continue."
  else if String.eqb name "incorrect" then "That's incorrect." ++ nl ++ "Click to continue."
  else if String.eqb name "end" then
    "You solved "
    ++ (str_option PyStr.str_int (num_solved s)
        ++ (" out of "
            ++ (PyStr.str_int (num_problems s)
                ++ (" in "
                    ++ (str_option PyFloat.str (seconds_elapsed s)
                        ++ (" seconds!" ++ nl ++ "Click to play again!"))))))
  else "".

(** The label shows the template of the current state, resolved with
    the attributes as they are now. *)
Definition shown (w : world) : Prop :=
  text (self w) = display_text (curr_widget_state (self w)) (self w).

(** The world after a transition to [name], and after [refresh_text],
    with the text they show. *)
Definition moved (name : string) (w : world) : world :=
  transitioned name (display_text name (self w)) w.

Definition refreshed (w : world) : world :=
  with_self (set_text (display_text (curr_widget_state (self w)) (self w))) w.

(** The world after the last reading of the clock of a session. *)
Definition stopped (w : world) : world :=
  with_self
    (fun s =>
       set_seconds_elapsed
         (Some (PyFloat.round1
                  (PyFloat.sub (clock w (ticks w))
                     (default (clock w (ticks w)) (_start_time s)))))
         (set_end_time (Some (clock w (ticks w))) s))
    (tick w).

(** ** The event loop as a transition function *)

Definition is_confirm (ev : event) : bool :=
  match ev with
  | Button1 | KeyPress Return _ => true
  | _ => false
  end.

(** What the handlers of the five states do to a world in which a
    session's attributes are set, written without the methods: the
    state, the event and the attributes decide. *)
Definition machine (ev : event) (w : world) : world * result unit :=
  let s := self w in
  let name := curr_widget_state s in
  let buf := default "" (_user_input_buffer s) in
  if String.eqb name "problem" then
    match ev with
    | Button1 => (w, Ok tt)
    | KeyPress OtherKey char =>
        if PyStr.isnumeric char
        then (refreshed (with_self (set_user_input_buffer (Some (buf ++ char))) w), Ok tt)
        else (w, Ok tt)
    | KeyPress BackSpace _ =>
        (refreshed (with_self (set_user_input_buffer (Some (PyStr.drop_last buf))) w), Ok tt)
    | KeyPress Return _ =>
        if PyStr.nonempty buf then
          match PyStr.int buf with
          | None => (w, Raise ValueError)
          | Some v =>
              if v =? default 0 (first_num s) * default 0 (second_num s)
              then (moved "correct"
                      (with_self (set_num_solved (Some (default 0 (num_solved s) + 1))) w),
                    Ok tt)
              else (moved "incorrect" w, Ok tt)
          end
        else (w, Ok tt)
    end
  else if negb (is_confirm ev) then (w, Ok tt)
  else if String.eqb name "correct" || String.eqb name "incorrect" then
    if bool_decide (_num_displayed s = Some (num_problems s))
    then (moved "end" (stopped (cleared w)), Ok tt)
    else (with_self (set_num_displayed (Some (default 0 (_num_displayed s) + 1)))
            (moved "problem" (with_factors (cleared w))), Ok tt)
  else
    (with_self (set_num_displayed (Some 1)) (moved "problem" (with_factors (started w))),
     Ok tt).

(** The pairs of states an event can lead from and to. *)
Definition edge (s s' : string) : bool :=
  String.eqb s s'
  || String.eqb s "initial" && String.eqb s' "problem"
  || String.eqb s "problem" && (String.eqb s' "correct" || String.eqb s' "incorrect")
  || (String.eqb s "correct" || String.eqb s "incorrect")
     && (String.eqb s' "problem" || String.eqb s' "end")
  || String.eqb s "end" && String.eqb s' "problem".

(** ** Shapes of templates *)

(** Every opening bracket of [s] has a backslash before it; [prev] is
    the character before [s]. *)
Fixpoint brackets_escaped (prev : option ascii) (s : string) : bool :=
  match s with
  | EmptyString => true
  | String c s' =>
      (negb (Ascii.eqb c "[") || negb (Template.not_escaped prev))
      && brackets_escaped (Some c) s'
  end.

(** [p] occurs in [s]. *)
Fixpoint occurs (p s : string) : bool :=
  match Template.strip_prefix p s with
  | Some _ => true
  | None =>
      match s with
      | EmptyString => false
      | String _ s' => occurs p s'
      end
  end.

(** A text that stays on one line. *)
Definition one_line (s : string) : bool :=
  PyStr.forallb_string (fun c => negb (Ascii.eqb c Template.newline)) s.

(** The entries of [lookup] for the names of [names], none for the
    others. *)
Definition only (names : list string) (lookup : string -> option string)
    (c : string) : option string :=
  if existsb (String.eqb c) names then lookup c else None.

(** At the end of a session the elapsed time is set. *)
Definition timed (w : world) : Prop :=
  curr_widget_state (self w) = "end" -> is_Some (seconds_elapsed (self w)).

(** Where the factors and the times of a session come from: the factors
    are the two latest draws, reduced to the range from 0 to 10; the
    start time is the latest reading of the clock while the session
    runs, and at its end the start and end times are the two latest
    readings and the elapsed time is their rounded difference. *)
Definition sourced (w : world) : Prop :=
  curr_widget_state (self w) <> "initial" ->
  (exists r, rolls w = S (S r)
             /\ first_num (self w) = Some (dice w r mod 11)
             /\ second_num (self w) = Some (dice w (S r) mod 11))
  /\ (curr_widget_state (self w) <> "end" ->
      exists k, ticks w = S k /\ _start_time (self w) = Some (clock w k))
  /\ (curr_widget_state (self w) = "end" ->
      exists k, ticks w = S (S k)
                /\ _start_time (self w) = Some (clock w k)
                /\ _end_time (self w) = Some (clock w (S k))
                /\ seconds_elapsed (self w)
                   = Some (PyFloat.round1 (PyFloat.sub (clock w (S k)) (clock w k)))).

Example int_56 : PyStr.int "56" = Some 56.
Proof. reflexivity. Qed.

Example int_half : PyStr.int (String (ascii_of_N 189) "") = None.
Proof. reflexivity. Qed.

Example isnumeric_half : PyStr.isnumeric (String (ascii_of_N 189) "") = true.
Proof. reflexivity. Qed.

Example str_int_neg : PyStr.str_int (-12) = "-12".
Proof. reflexivity. Qed.

Example findall_problem :
  Template.findall "[first_num] X [second_num]" = ["first_num"; "second_num"].
Proof. reflexivity. Qed.

Example findall_escaped :
  Template.findall "\[a] [b\] c] []]" = ["b\] c"; "]"].
Proof. reflexivity. Qed.

Example format_example :
  Template._get_formatted {[ "a" := "1"; "b" := "x\ny" ]} ∅ "[a]+[b]+[a] \[a]"
  = Ok (String.append "1+x" (String Template.newline "y+1 \[a]")).
Proof. vm_compute. reflexivity. Qed.

Definition tenth (k : positive) : spec_float :=
  SFdiv PyFloat.prec PyFloat.emax (S754_finite false k 0) (S754_finite false 10 0).


(** * Properties *)

(** ** Texts without a backslash *)

Section Plain.

Import Template.

Lemma plain_app (s t : string) :
  plain (s ++ t) = plain s && plain t.
Proof.
  induction s as [|c s IH]; [reflexivity|].
  change (String c s ++ t) with (String c (s ++ t)).
  unfold plain in *. cbn [PyStr.forallb_string].
  rewrite IH. apply andb_assoc.
Qed.

Lemma plain_uint (d : Decimal.uint) :
  plain (NilEmpty.string_of_uint d) = true.
Proof. induction d; cbn; auto. Qed.

Lemma plain_digits_uint (d : Decimal.uint) :
  plain (NilZero.string_of_uint d) = true.
Proof. destruct d; try reflexivity; apply (plain_uint (_ d)). Qed.

Lemma plain_str_int (z : Z) : plain (PyStr.str_int z) = true.
Proof.
  unfold PyStr.str_int. destruct (Z.to_int z) as [d|d]; cbn [NilZero.string_of_int].
  - apply plain_digits_uint.
  - change (plain (String "-" (NilZero.string_of_uint d)))
      with (plain (NilZero.string_of_uint d)).
    apply plain_digits_uint.
Qed.

Lemma plain_cons (c : ascii) (s : string) :
  plain (String c s) = negb (Ascii.eqb c backslash) && plain s.
Proof. reflexivity. Qed.

Lemma plain_take (n : nat) (s : string) :
  plain s = true -> plain (PyFloat.take n s) = true.
Proof.
  revert s; induction n as [|n IH]; intros [|c s]; try reflexivity.
  rewrite plain_cons. intros [Hc Hs]%andb_prop.
  cbn [PyFloat.take]. rewrite plain_cons, Hc, IH by assumption. reflexivity.
Qed.

Lemma plain_drop (n : nat) (s : string) :
  plain s = true -> plain (PyFloat.drop n s) = true.
Proof.
  revert s; induction n as [|n IH]; intros [|c s]; try (intros H; exact H).
  rewrite plain_cons. intros [Hc Hs]%andb_prop.
  cbn [PyFloat.drop]. auto.
Qed.

Lemma plain_zeros (n : nat) : plain (PyFloat.zeros n) = true.
Proof. induction n as [|n IH]; [reflexivity|]. exact IH. Qed.

Lemma plain_rstrip_zeros (s : string) :
  plain s = true -> plain (PyFloat.rstrip_zeros s) = true.
Proof.
  induction s as [|c s IH]; [reflexivity|].
  rewrite plain_cons. intros [Hc Hs]%andb_prop. specialize (IH Hs).
  cbn [PyFloat.rstrip_zeros].
  destruct (PyFloat.rstrip_zeros s) as [|d r].
  - destruct (Ascii.eqb c "0"); [reflexivity|].
    rewrite plain_cons, Hc. reflexivity.
  - rewrite plain_cons, Hc, IH. reflexivity.
Qed.

Lemma plain_layout (ds : string) (dp : Z) :
  plain ds = true -> plain (PyFloat.layout ds dp) = true.
Proof.
  intros Hds. unfold PyFloat.layout.
  destruct ((dp <=? -4) || (16 <? dp)).
  - rewrite !plain_app, plain_take by assumption.
    pose proof (plain_drop 1 ds Hds) as Hd.
    destruct (PyFloat.drop 1 ds) as [|c r].
    + destruct (dp - 1 <? 0), (Z.abs (dp - 1) <? 10); cbn;
        try apply plain_str_int; reflexivity || apply (plain_str_int (Z.abs (dp - 1))).
    + change (plain (String "." (String c r))) with (plain (String c r)).
      rewrite Hd.
      destruct (dp - 1 <? 0), (Z.abs (dp - 1) <? 10); cbn;
        apply (plain_str_int (Z.abs (dp - 1))).
  - destruct (dp <=? 0).
    + rewrite !plain_app, plain_zeros, Hds. reflexivity.
    + destruct (Z.of_nat (String.length ds) <=? dp).
      * rewrite !plain_app, plain_zeros, Hds. reflexivity.
      * rewrite plain_app, plain_take by assumption.
        change (plain (String "." (PyFloat.drop (Z.to_nat dp) ds)))
          with (plain (PyFloat.drop (Z.to_nat dp) ds)).
        rewrite plain_drop by assumption. reflexivity.
Qed.

Lemma plain_float_str (x : spec_float) : plain (PyFloat.str x) = true.
Proof.
  destruct x as [s|s| |s m e]; cbn [PyFloat.str];
    try (destruct s; reflexivity); try reflexivity.
  destruct (PyFloat.shortest 17 1 _ (Z.pos m) e) as [c p].
  rewrite plain_app, plain_layout.
  - destruct s; reflexivity.
  - apply plain_rstrip_zeros, plain_str_int.
Qed.

Lemma plain_numeric_char (c : ascii) :
  PyStr.isnumeric_char c = true -> negb (Ascii.eqb c backslash) = true.
Proof.
  intros H. destruct (Ascii.eqb_spec c backslash) as [->|]; [|reflexivity].
  vm_compute in H. discriminate.
Qed.

Lemma plain_numeric (s : string) :
  PyStr.forallb_string PyStr.isnumeric_char s = true -> plain s = true.
Proof.
  induction s as [|c s IH]; cbn; auto.
  intros [Hc Hs]%andb_prop. rewrite (plain_numeric_char c Hc). cbn. auto.
Qed.

End Plain.

(** ** The resolver *)

Section ResolverFacts.

Import Template.

Lemma expand_go_plain (whole s : string) (fuel : nat) :
  plain s = true -> (String.length s < fuel)%nat ->
  expand_go fuel whole s = Ok s.
Proof.
  revert fuel; induction s as [|c s IH]; intros [|fuel] Hs Hf;
    cbn in Hf; try lia; [reflexivity|].
  rewrite plain_cons in Hs. apply andb_prop in Hs as [Hc Hs].
  cbn [expand_go]. rewrite Hc, IH by (assumption || lia). reflexivity.
Qed.

Lemma expand_repl_plain (whole s : string) :
  plain s = true -> expand_repl whole s = Ok s.
Proof. intros H. apply expand_go_plain; [exact H | lia]. Qed.

Lemma sub_plain (name v template : string) :
  plain v = true ->
  sub name v template = Ok (replace_go name v 0 None template).
Proof. intros H. unfold sub. rewrite expand_repl_plain by exact H. reflexivity. Qed.

Lemma map_ok_raises {A B : Type} (f : A -> B) (r : result A) (e : exn) :
  map_ok f r = Raise e -> r = Raise e.
Proof. destruct r; cbn; congruence. Qed.

Lemma group_zero_raises (n : string) (e : exn) :
  group_zero n = Raise e -> e = ReError \/ e = IndexError.
Proof.
  unfold group_zero. destruct (PyStr.isidentifier n); [intros [= <-]; auto|].
  destruct (PyStr.int n) as [[| |]|]; intros [= <-]; auto.
Qed.

(** What [re] raises on a replacement text is [re.error] or
    [IndexError]. *)
Lemma expand_go_raises (whole : string) (fuel : nat) :
  forall (s : string) (e : exn),
    expand_go fuel whole s = Raise e -> e = ReError \/ e = IndexError.
Proof.
  induction fuel as [|fuel IH]; intros s e; cbn [expand_go].
  - intros [= <-]. left. reflexivity.
  - assert (M : forall (f : string -> string) t,
               map_ok f (expand_go fuel whole t) = Raise e ->
               e = ReError \/ e = IndexError).
    { intros f t H. apply map_ok_raises in H. eapply IH, H. }
    assert (R : @Raise string ReError = Raise e -> e = ReError \/ e = IndexError).
    { intros [= <-]. left. reflexivity. }
    repeat match goal with
           | |- Ok _ = Raise _ -> _ => discriminate
           | |- Raise ReError = Raise _ -> _ => exact R
           | G : group_zero _ = Raise ?e0 |- Raise ?e0 = Raise _ -> _ =>
               intros [= <-]; exact (group_zero_raises _ _ G)
           | |- map_ok _ _ = Raise _ -> _ => apply M
           | |- context [group_zero ?n] => destruct (group_zero n) eqn:?
           | |- context [match ?x with _ => _ end] => destruct x
           end.
Qed.

Lemma sub_raises (name v template : string) (e : exn) :
  sub name v template = Raise e ->
  plain v = false /\ (e = ReError \/ e = IndexError).
Proof.
  unfold sub. destruct (expand_repl _ v) as [t|e'] eqn:E; [discriminate|].
  intros [= <-]. split.
  - destruct (plain v) eqn:Hp; [|reflexivity].
    rewrite expand_repl_plain in E by exact Hp. discriminate.
  - eapply expand_go_raises, E.
Qed.

Variables attrs scope : gmap string string.

Lemma dict_set_values (k v : string) (d : list (string * string)) (P : string -> Prop) :
  P v -> Forall (fun kv => P kv.2) d -> Forall (fun kv => P kv.2) (dict_set k v d).
Proof.
  intros Hv. induction 1 as [|[k' v'] d Hk Hd IH]; cbn.
  - repeat constructor. exact Hv.
  - destruct (String.eqb k k'); constructor; auto.
Qed.

(** The first loop fails exactly when a candidate has no entry. *)
Lemma collect_ok (candidates : list string) (acc : list (string * string))
    (P : string -> Prop) :
  Forall (fun c => exists v, lookup_candidate attrs scope c = Some v /\ P v) candidates ->
  Forall (fun kv => P kv.2) acc ->
  exists reps, collect attrs scope candidates acc = Ok reps
               /\ Forall (fun kv => P kv.2) reps.
Proof.
  intros H; revert acc. induction H as [|c cs (v & Hv & HP) Hcs IH]; intros acc Hacc.
  - exists acc. split; [reflexivity | exact Hacc].
  - cbn [collect]. rewrite Hv. apply IH, dict_set_values; assumption.
Qed.

Lemma collect_raises (candidates : list string) (acc : list (string * string)) (e : exn) :
  collect attrs scope candidates acc = Raise e ->
  exists c, e = BadFormatKey c /\ c ∈ candidates
            /\ lookup_candidate attrs scope c = None.
Proof.
  revert acc. induction candidates as [|c cs IH]; intros acc; cbn [collect].
  - discriminate.
  - destruct (lookup_candidate attrs scope c) as [v|] eqn:Hc.
    + intros (c' & -> & Hin & Hnone)%IH. exists c'.
      split; [reflexivity|]. split; [right; exact Hin | exact Hnone].
    + intros [= <-]. exists c. split; [reflexivity|]. split; [left | exact Hc].
Qed.

Lemma collect_missing (candidates : list string) (acc : list (string * string)) (c : string) :
  c ∈ candidates -> lookup_candidate attrs scope c = None ->
  exists c', collect attrs scope candidates acc = Raise (BadFormatKey c').
Proof.
  intros Hin Hnone. revert acc.
  induction Hin as [c cs|c d cs Hin IH]; intros acc; cbn [collect].
  - rewrite Hnone. eauto.
  - destruct (lookup_candidate attrs scope d); eauto.
Qed.

Lemma substitute_plain (reps : list (string * string)) (template : string) :
  Forall (fun kv => plain kv.2 = true) reps ->
  exists t, substitute reps template = Ok t.
Proof.
  intros H; revert template. induction H as [|[k v] reps Hv Hreps IH]; intros template.
  - exists template. reflexivity.
  - cbn [substitute]. cbn in Hv. rewrite sub_plain by exact Hv. apply IH.
Qed.

Lemma substitute_raises (reps : list (string * string)) (template : string) (e : exn) :
  substitute reps template = Raise e ->
  (e = ReError \/ e = IndexError)
  /\ exists kv, kv ∈ reps /\ plain kv.2 = false.
Proof.
  revert template; induction reps as [|[k v] reps IH]; intros template; cbn [substitute].
  - discriminate.
  - destruct (sub k v template) as [t|e'] eqn:Hs.
    + intros H. destruct (IH _ H) as [He (kv & Hin & Hp)].
      split; [exact He|]. exists kv. split; [right; exact Hin | exact Hp].
    + intros [= <-]. destruct (sub_raises _ _ _ _ Hs) as [Hp He].
      split; [exact He|]. exists (k, v). split; [left | exact Hp].
Qed.

(** Every candidate has an entry whose text has no backslash: the
    template is resolved. *)
Lemma get_formatted_ok (template : string) :
  Forall (fun c => exists v, lookup_candidate attrs scope c = Some v /\ plain v = true)
    (findall template) ->
  exists t, Template._get_formatted attrs scope template = Ok t.
Proof.
  intros H. unfold Template._get_formatted.
  destruct (collect_ok (findall template) [] (fun v => plain v = true) H)
    as (reps & -> & Hreps); [constructor|].
  apply substitute_plain, Hreps.
Qed.

End ResolverFacts.


(** ** The templates of the state table are always resolved *)

Lemma assoc_widget_states (name : string) (st : MultiplicationWidgetState) :
  assoc name widget_states = Some st ->
  name ∈ state_names /\ assoc name widget_states = Some st.
Proof.
  intros H. split; [|exact H]. revert H. unfold widget_states. cbv [assoc].
  repeat match goal with
         | |- (if String.eqb name ?k then _ else _) = _ -> _ =>
             destruct (String.eqb_spec name k) as [->|_];
             [ intros _; unfold state_names; set_solver | ]
         end.
  discriminate.
Qed.

Lemma table_findall (name : string) (st : MultiplicationWidgetState) :
  assoc name widget_states = Some st ->
  Forall (fun c => c ∈ table_tokens /\ (c = "_user_input_buffer" -> name = "problem"))
    (Template.findall (message st)).
Proof.
  intros [Hn Hst]%assoc_widget_states. unfold state_names in Hn.
  repeat (apply elem_of_cons in Hn as [->|Hn]);
    [..|apply elem_of_nil in Hn; contradiction].
  all: vm_compute in Hst; injection Hst as <-.
  all: vm_compute Template.findall.
  all: repeat (apply Forall_cons; split; [split|]); try apply Forall_nil.
  all: try (unfold table_tokens; repeat constructor).
  all: try reflexivity; discriminate.
Qed.

Lemma fields_lookup (v1 v2 v3 v4 v5 v6 v7 v8 v9 v10 v11 v12 : string)
    (rest : gmap string string) :
  let m : gmap string string :=
    list_to_map
      [ ("num_problems", v1); ("seconds_elapsed", v2); ("num_solved", v3);
        ("_num_displayed", v4); ("first_num", v5); ("second_num", v6);
        ("_start_time", v7); ("_end_time", v8); ("_user_input_buffer", v9);
        ("_min_factor", v10); ("_max_factor", v11); ("curr_widget_state", v12) ]
    ∪ rest in
  m !! "num_problems" = Some v1 /\ m !! "seconds_elapsed" = Some v2
  /\ m !! "num_solved" = Some v3 /\ m !! "first_num" = Some v5
  /\ m !! "second_num" = Some v6 /\ m !! "_user_input_buffer" = Some v9.
Proof.
  intros m. subst m.
  repeat split; apply lookup_union_Some_l; vm_compute; reflexivity.
Qed.

Lemma plain_str_option {A : Type} (str : A -> string) (o : option A) :
  (forall a, Template.plain (str a) = true) ->
  Template.plain (str_option str o) = true.
Proof. intros H. destruct o; [apply H | reflexivity]. Qed.

(** The six names of the table have entries in [vars(self)], and their
    texts hold no backslash when the buffer holds none. *)
Lemma table_tokens_resolved (w : world) (scope : gmap string string) (c : string) :
  (c = "_user_input_buffer" -> buffer_plain w) -> c ∈ table_tokens ->
  exists v, Template.lookup_candidate (vars_text w) scope c = Some v
            /\ Template.plain v = true.
Proof.
  intros Hbuf Hc.
  destruct (fields_lookup
              (PyStr.str_int (num_problems (self w)))
              (str_option PyFloat.str (seconds_elapsed (self w)))
              (str_option PyStr.str_int (num_solved (self w)))
              (str_option PyStr.str_int (_num_displayed (self w)))
              (str_option PyStr.str_int (first_num (self w)))
              (str_option PyStr.str_int (second_num (self w)))
              (str_option PyFloat.str (_start_time (self w)))
              (str_option PyFloat.str (_end_time (self w)))
              (str_option id (_user_input_buffer (self w)))
              (PyStr.str_int (_min_factor (self w)))
              (PyStr.str_int (_max_factor (self w)))
              (curr_widget_state (self w)) (tk_attrs w))
    as (H1 & H2 & H3 & H5 & H6 & H9).
  fold (vars_text w) in H1, H2, H3, H5, H6, H9.
  assert (Hb : c = "_user_input_buffer" ->
               Template.plain (str_option id (_user_input_buffer (self w))) = true).
  { intros Heq. specialize (Hbuf Heq). unfold buffer_plain in Hbuf.
    destruct (_user_input_buffer (self w)); [exact Hbuf | reflexivity]. }
  unfold table_tokens in Hc. unfold Template.lookup_candidate.
  repeat (apply elem_of_cons in Hc as [->|Hc]);
    [..|apply elem_of_nil in Hc; contradiction].
  - rewrite H1. eauto using plain_str_int.
  - rewrite H5. eauto using plain_str_option, plain_str_int.
  - rewrite H6. eauto using plain_str_option, plain_str_int.
  - rewrite H9. eauto.
  - rewrite H3. eauto using plain_str_option, plain_str_int.
  - rewrite H2. eauto using plain_str_option, plain_float_str.
Qed.

Lemma table_message_ok (name : string) (st : MultiplicationWidgetState) (w : world) :
  assoc name widget_states = Some st ->
  (name = "problem" -> buffer_plain w) ->
  exists t, _get_formatted (message st) w = (w, Ok t).
Proof.
  intros Hst Hbuf. unfold _get_formatted.
  enough (exists t, Template._get_formatted (vars_text w)
                      (ambient w (message st)) (message st) = Ok t)
    as [t ->] by eauto.
  apply get_formatted_ok.
  eapply Forall_impl; [exact (table_findall name st Hst)|].
  intros c [Hc Hp]. apply table_tokens_resolved; auto.
Qed.

(** ** Transitions *)

Lemma with_self_same (w : world) :
  with_self (fun s => set_bindings (bindings s) s) w = w.
Proof. destruct w as [[] ? ? ? ? ? ?]. reflexivity. Qed.

Lemma unbind_funcs_run (event_name : string) (funcs : list string) (w : world) :
  for_each funcs (fun _ => unbind event_name) w
  = (with_self
       (fun s => set_bindings (fold_left (fun b _ => delete event_name b) funcs (bindings s)) s)
       w, Ok tt).
Proof.
  revert w; induction funcs as [|f funcs IH]; intros w.
  - cbn. rewrite with_self_same. reflexivity.
  - cbn [for_each]. unfold bind at 1. unfold unbind at 1, update.
    rewrite IH. reflexivity.
Qed.

Lemma unbind_routings_run (routings : list (string * list string)) (w : world) :
  unbind_routings routings w
  = (with_self (fun s => set_bindings (unbind_map routings (bindings s)) s) w, Ok tt).
Proof.
  unfold unbind_routings, unbind_map.
  revert w; induction routings as [|[ev funcs] routings IH]; intros w.
  - cbn. rewrite with_self_same. reflexivity.
  - cbn [for_each]. unfold bind at 1. rewrite unbind_funcs_run, IH. reflexivity.
Qed.

Lemma bind_funcs_run (event_name : string) (funcs : list string) (w : world) :
  Forall (fun f => is_Some (method_of_name f)) funcs ->
  for_each funcs (fun func_name => bind_event event_name func_name) w
  = (with_self
       (fun s => set_bindings
                   (fold_left
                      (fun b func_name =>
                         match method_of_name func_name with
                         | Some h => <[event_name := h]> b
                         | None => b
                         end) funcs (bindings s)) s)
       w, Ok tt).
Proof.
  intros H; revert w; induction H as [|f funcs [h Hf] Hfs IH]; intros w.
  - cbn. rewrite with_self_same. reflexivity.
  - cbn [for_each fold_left]. unfold bind at 1. unfold bind_event at 1.
    rewrite Hf. unfold update. rewrite IH. reflexivity.
Qed.

Lemma bind_routings_run (routings : list (string * list string)) (w : world) :
  resolvable routings ->
  bind_routings routings w
  = (with_self (fun s => set_bindings (bind_map routings (bindings s)) s) w, Ok tt).
Proof.
  unfold bind_routings, bind_map, resolvable.
  intros H; revert w; induction H as [|[ev funcs] routings Hf Hr IH]; intros w.
  - cbn. rewrite with_self_same. reflexivity.
  - cbn [for_each fold_left]. unfold bind at 1.
    rewrite bind_funcs_run by exact Hf. rewrite IH. reflexivity.
Qed.

Lemma table_resolvable (name : string) (st : MultiplicationWidgetState) :
  assoc name widget_states = Some st -> resolvable (event_routings st).
Proof.
  intros [Hn Hst]%assoc_widget_states. unfold state_names in Hn.
  repeat (apply elem_of_cons in Hn as [->|Hn]);
    [..|apply elem_of_nil in Hn; contradiction].
  all: vm_compute in Hst; injection Hst as <-.
  all: unfold resolvable; cbn [event_routings].
  all: repeat constructor; cbn; eauto.
Qed.

(** A transition to a state of the table, from a state of the table,
    runs to its end: the old routings are unbound, the new ones bound,
    the text set and the state recorded. *)
Lemma set_widget_state_run (name : string) (st old : MultiplicationWidgetState)
    (w : world) :
  assoc name widget_states = Some st ->
  assoc (curr_widget_state (self w)) widget_states = Some old ->
  (name = "problem" -> buffer_plain w) ->
  exists t,
    set_widget_state name w
    = (with_self
         (fun s =>
            set_curr_widget_state name
              (set_text t
                 (set_bindings
                    (bind_map (event_routings st)
                       (unbind_map (event_routings old) (bindings s))) s)))
         w, Ok tt).
Proof.
  intros Hst Hold Hbuf.
  set (w2 := with_self
               (fun s => set_bindings
                           (bind_map (event_routings st)
                              (unbind_map (event_routings old) (bindings s))) s) w).
  destruct (table_message_ok name st w2 Hst) as [t Ht].
  { intros Hn. exact (Hbuf Hn). }
  exists t. unfold set_widget_state, state_of.
  rewrite Hst. unfold bind at 1. unfold ret at 1.
  unfold bind at 1. unfold get at 1.
  rewrite Hold. unfold bind at 1. unfold ret at 1.
  unfold bind at 1. rewrite unbind_routings_run.
  unfold bind at 1. rewrite bind_routings_run by (eapply table_resolvable; eassumption).
  unfold bind at 1.
  change (with_self _ (with_self _ w)) with w2.
  rewrite Ht. reflexivity.
Qed.

Lemma rebind_table (name curr : string) (st old : MultiplicationWidgetState) :
  assoc name widget_states = Some st ->
  assoc curr widget_states = Some old ->
  unbind_map (event_routings old) (bindings_of curr) = ∅
  /\ bind_map (event_routings st) ∅ = bindings_of name.
Proof.
  intros Hst [Hc Hold]%assoc_widget_states. split.
  - unfold state_names in Hc.
    repeat (apply elem_of_cons in Hc as [->|Hc]);
      [..|apply elem_of_nil in Hc; contradiction].
    all: vm_compute in Hold; injection Hold as <-.
    all: vm_compute; reflexivity.
  - unfold bindings_of. rewrite Hst. reflexivity.
Qed.

(** ** Running the methods *)

Lemma bind_ok {A B : Type} (m : M A) (k : A -> M B) (w w' : world) (a : A) :
  m w = (w', Ok a) -> bind m k w = k a w'.
Proof. intros H. unfold bind. rewrite H. reflexivity. Qed.

Lemma bind_raise {A B : Type} (m : M A) (k : A -> M B) (w w' : world) (e : exn) :
  m w = (w', Raise e) -> bind m k w = (w', Raise e).
Proof. intros H. unfold bind. rewrite H. reflexivity. Qed.

Lemma randint_run (a b : Z) (w : world) :
  a <= b -> randint a b w = (roll w, Ok (drawn a b w)).
Proof. intros H. unfold randint. rewrite (proj2 (Z.ltb_ge b a)) by lia. reflexivity. Qed.

Lemma gen_factors_run (w : world) :
  _min_factor (self w) <= _max_factor (self w) ->
  _gen_factors w = (with_factors w, Ok tt).
Proof.
  intros H. unfold _gen_factors.
  rewrite (bind_ok _ _ w w (_min_factor (self w))) by reflexivity.
  rewrite (bind_ok _ _ w w (_max_factor (self w))) by reflexivity.
  erewrite bind_ok by (apply randint_run; exact H).
  erewrite bind_ok by reflexivity.
  erewrite bind_ok by reflexivity.
  erewrite bind_ok by reflexivity.
  erewrite bind_ok by (apply randint_run; exact H).
  reflexivity.
Qed.

Lemma drawn_in_range (a b : Z) (w : world) :
  a <= b -> a <= drawn a b w <= b.
Proof.
  intros H. unfold drawn.
  pose proof (Z.mod_pos_bound (dice w (rolls w)) (b - a + 1)). lia.
Qed.

Lemma buffer_plain_numeric (w : world) : numeric_buffer w -> buffer_plain w.
Proof.
  unfold numeric_buffer, buffer_plain.
  destruct (_user_input_buffer (self w)); [apply plain_numeric | trivial].
Qed.

Lemma in_table (name : string) :
  name ∈ state_names -> exists st, assoc name widget_states = Some st.
Proof.
  unfold state_names. intros H.
  repeat (apply elem_of_cons in H as [->|H]);
    [..|apply elem_of_nil in H; contradiction];
    eexists; vm_compute; reflexivity.
Qed.

Lemma transition_run (name : string) (w : world) :
  name ∈ state_names ->
  curr_widget_state (self w) ∈ state_names ->
  bindings (self w) = bindings_of (curr_widget_state (self w)) ->
  (name = "problem" -> buffer_plain w) ->
  exists t, set_widget_state name w = (transitioned name t w, Ok tt).
Proof.
  intros [st Hst]%in_table [old Hold]%in_table Hb Hbuf.
  destruct (set_widget_state_run name st old w Hst Hold Hbuf) as [t Ht].
  exists t. rewrite Ht. unfold transitioned.
  destruct (rebind_table name _ st old Hst Hold) as [Hu Hn].
  unfold with_self. rewrite Hb, Hu, Hn. reflexivity.
Qed.

Lemma refresh_text_run (w : world) :
  curr_widget_state (self w) ∈ state_names ->
  buffer_plain w ->
  exists t, refresh_text w = (with_self (set_text t) w, Ok tt).
Proof.
  intros [st Hst]%in_table Hbuf.
  destruct (table_message_ok _ st w Hst (fun _ => Hbuf)) as [t Ht]. exists t.
  unfold refresh_text.
  erewrite bind_ok by reflexivity.
  unfold state_of. rewrite Hst.
  erewrite bind_ok by reflexivity.
  erewrite bind_ok by exact Ht.
  reflexivity.
Qed.

Lemma display_end_run (w : world) (s0 : spec_float) :
  _num_displayed (self w) = Some (num_problems (self w)) ->
  _start_time (self w) = Some s0 ->
  curr_widget_state (self w) ∈ state_names ->
  bindings (self w) = bindings_of (curr_widget_state (self w)) ->
  exists t,
    _display_problem w
    = (transitioned "end" t
         (with_self
            (fun s =>
               set_seconds_elapsed
                 (Some (PyFloat.round1 (PyFloat.sub (clock w (ticks w)) s0)))
                 (set_end_time (Some (clock w (ticks w))) s))
            (tick w)),
       Ok tt).
Proof.
  intros Hd Hs Hc Hb.
  edestruct (transition_run "end") as [t Ht]; cycle 4.
  - exists t. unfold _display_problem.
    erewrite bind_ok by reflexivity.
    erewrite bind_ok by reflexivity.
    rewrite bool_decide_eq_true_2 by exact Hd.
    erewrite bind_ok by reflexivity.
    erewrite bind_ok by reflexivity.
    erewrite bind_ok by reflexivity.
    erewrite bind_ok by reflexivity.
    erewrite bind_ok by reflexivity.
    erewrite bind_ok by (cbn; rewrite Hs; reflexivity).
    erewrite bind_ok by reflexivity.
    exact Ht.
  - unfold state_names; repeat constructor.
  - exact Hc.
  - exact Hb.
  - discriminate.
Qed.

Lemma display_next_run (w : world) (k : Z) :
  _num_displayed (self w) = Some k ->
  k <> num_problems (self w) ->
  _min_factor (self w) <= _max_factor (self w) ->
  curr_widget_state (self w) ∈ state_names ->
  bindings (self w) = bindings_of (curr_widget_state (self w)) ->
  buffer_plain w ->
  exists t,
    _display_problem w
    = (with_self (set_num_displayed (Some (k + 1)))
         (transitioned "problem" t (with_factors w)),
       Ok tt).
Proof.
  intros Hd Hk Hr Hc Hb Hbuf.
  destruct (transition_run "problem" (with_factors w)) as [t Ht];
    [unfold state_names; repeat constructor | exact Hc | exact Hb | intros _; exact Hbuf |].
  exists t. unfold _display_problem.
  erewrite bind_ok by reflexivity.
  erewrite bind_ok by reflexivity.
  rewrite bool_decide_eq_false_2 by (rewrite Hd; congruence).
  erewrite bind_ok by (apply gen_factors_run; exact Hr).
  erewrite bind_ok by exact Ht.
  erewrite bind_ok by reflexivity.
  erewrite bind_ok by (cbn; rewrite Hd; reflexivity).
  reflexivity.
Qed.

Lemma start_game_run (w : world) :
  num_problems (self w) <> 0 ->
  _min_factor (self w) <= _max_factor (self w) ->
  curr_widget_state (self w) ∈ state_names ->
  bindings (self w) = bindings_of (curr_widget_state (self w)) ->
  exists t,
    start_game w
    = (with_self (set_num_displayed (Some 1))
         (transitioned "problem" t (with_factors (started w))),
       Ok tt).
Proof.
  intros Hn Hr Hc Hb.
  destruct (display_next_run (started w) 0) as [t Ht];
    [reflexivity | cbn; congruence | exact Hr | exact Hc | exact Hb | exact eq_refl |].
  exists t. unfold start_game, _init_vars.
  erewrite bind_ok by reflexivity.
  erewrite bind_ok by reflexivity.
  erewrite bind_ok by reflexivity.
  exact Ht.
Qed.

Lemma next_problem_run (w : world) (k : Z) :
  _num_displayed (self w) = Some k ->
  k <> num_problems (self w) ->
  _min_factor (self w) <= _max_factor (self w) ->
  curr_widget_state (self w) ∈ state_names ->
  bindings (self w) = bindings_of (curr_widget_state (self w)) ->
  exists t,
    next_problem w
    = (with_self (set_num_displayed (Some (k + 1)))
         (transitioned "problem" t (with_factors (cleared w))),
       Ok tt).
Proof.
  intros Hd Hk Hr Hc Hb.
  destruct (display_next_run (cleared w) k) as [t Ht];
    [exact Hd | exact Hk | exact Hr | exact Hc | exact Hb | exact eq_refl |].
  exists t. unfold next_problem.
  erewrite bind_ok by (apply gen_factors_run; exact Hr).
  erewrite bind_ok by reflexivity.
  exact Ht.
Qed.

Lemma next_problem_end_run (w : world) (s0 : spec_float) :
  _num_displayed (self w) = Some (num_problems (self w)) ->
  _start_time (self w) = Some s0 ->
  _min_factor (self w) <= _max_factor (self w) ->
  curr_widget_state (self w) ∈ state_names ->
  bindings (self w) = bindings_of (curr_widget_state (self w)) ->
  exists t,
    next_problem w
    = (transitioned "end" t
         (with_self
            (fun s =>
               set_seconds_elapsed
                 (Some (PyFloat.round1 (PyFloat.sub (clock w (ticks w)) s0)))
                 (set_end_time (Some (clock w (ticks w))) s))
            (tick (cleared w))),
       Ok tt).
Proof.
  intros Hd Hs Hr Hc Hb.
  destruct (display_end_run (cleared w) s0) as [t Ht];
    [exact Hd | exact Hs | exact Hc | exact Hb |].
  exists t. unfold next_problem.
  erewrite bind_ok by (apply gen_factors_run; exact Hr).
  erewrite bind_ok by reflexivity.
  exact Ht.
Qed.

Lemma on_enter_empty (w : world) :
  _user_input_buffer (self w) = Some "" -> on_enter w = (w, Ok tt).
Proof.
  intros Hb. unfold on_enter.
  erewrite bind_ok by reflexivity.
  erewrite bind_ok by (rewrite Hb; reflexivity).
  reflexivity.
Qed.

Lemma on_enter_correct (w : world) (buf : string) (a b n : Z) :
  _user_input_buffer (self w) = Some buf ->
  PyStr.nonempty buf = true ->
  first_num (self w) = Some a ->
  second_num (self w) = Some b ->
  PyStr.int buf = Some (a * b) ->
  num_solved (self w) = Some n ->
  curr_widget_state (self w) ∈ state_names ->
  bindings (self w) = bindings_of (curr_widget_state (self w)) ->
  exists t,
    on_enter w
    = (transitioned "correct" t (with_self (set_num_solved (Some (n + 1))) w), Ok tt).
Proof.
  intros Hbuf Hne Ha Hb Hint Hn Hc Hbind.
  destruct (transition_run "correct" (with_self (set_num_solved (Some (n + 1))) w))
    as [t Ht]; [unfold state_names; repeat constructor | exact Hc | exact Hbind | discriminate |].
  exists t. unfold on_enter.
  erewrite bind_ok by reflexivity.
  erewrite bind_ok by (rewrite Hbuf; reflexivity).
  rewrite Hne.
  erewrite bind_ok by reflexivity.
  erewrite bind_ok by reflexivity.
  erewrite bind_ok by (rewrite Ha; reflexivity).
  erewrite bind_ok by (rewrite Hb; reflexivity).
  rewrite Hint, Z.eqb_refl.
  erewrite bind_ok by reflexivity.
  erewrite bind_ok by (rewrite Hn; reflexivity).
  erewrite bind_ok by reflexivity.
  exact Ht.
Qed.

Lemma on_enter_incorrect (w : world) (buf : string) (a b v : Z) :
  _user_input_buffer (self w) = Some buf ->
  PyStr.nonempty buf = true ->
  first_num (self w) = Some a ->
  second_num (self w) = Some b ->
  PyStr.int buf = Some v ->
  v <> a * b ->
  curr_widget_state (self w) ∈ state_names ->
  bindings (self w) = bindings_of (curr_widget_state (self w)) ->
  exists t, on_enter w = (transitioned "incorrect" t w, Ok tt).
Proof.
  intros Hbuf Hne Ha Hb Hint Hv Hc Hbind.
  destruct (transition_run "incorrect" w)
    as [t Ht]; [unfold state_names; repeat constructor | exact Hc | exact Hbind | discriminate |].
  exists t. unfold on_enter.
  erewrite bind_ok by reflexivity.
  erewrite bind_ok by (rewrite Hbuf; reflexivity).
  rewrite Hne.
  erewrite bind_ok by reflexivity.
  erewrite bind_ok by reflexivity.
  erewrite bind_ok by (rewrite Ha; reflexivity).
  erewrite bind_ok by (rewrite Hb; reflexivity).
  rewrite Hint, (proj2 (Z.eqb_neq _ _) Hv).
  exact Ht.
Qed.

Lemma on_enter_unparsed (w : world) (buf : string) (a b : Z) :
  _user_input_buffer (self w) = Some buf ->
  PyStr.nonempty buf = true ->
  first_num (self w) = Some a ->
  second_num (self w) = Some b ->
  PyStr.int buf = None ->
  on_enter w = (w, Raise ValueError).
Proof.
  intros Hbuf Hne Ha Hb Hint. unfold on_enter.
  erewrite bind_ok by reflexivity.
  erewrite bind_ok by (rewrite Hbuf; reflexivity).
  rewrite Hne.
  erewrite bind_ok by reflexivity.
  erewrite bind_ok by reflexivity.
  erewrite bind_ok by (rewrite Ha; reflexivity).
  erewrite bind_ok by (rewrite Hb; reflexivity).
  rewrite Hint. reflexivity.
Qed.

Lemma numeric_app (s t : string) :
  PyStr.forallb_string PyStr.isnumeric_char (s ++ t)
  = PyStr.forallb_string PyStr.isnumeric_char s
    && PyStr.forallb_string PyStr.isnumeric_char t.
Proof.
  induction s as [|c s IH]; [reflexivity|].
  change (String c s ++ t) with (String c (s ++ t)).
  cbn [PyStr.forallb_string]. rewrite IH. apply andb_assoc.
Qed.

Lemma numeric_drop_last (s : string) :
  PyStr.forallb_string PyStr.isnumeric_char s = true ->
  PyStr.forallb_string PyStr.isnumeric_char (PyStr.drop_last s) = true.
Proof.
  induction s as [|c s IH]; [reflexivity|].
  cbn [PyStr.forallb_string]. intros [Hc Hs]%andb_prop.
  destruct s as [|d s]; [reflexivity|].
  change (PyStr.drop_last (String c (String d s)))
    with (String c (PyStr.drop_last (String d s))).
  cbn [PyStr.forallb_string]. rewrite Hc. exact (IH Hs).
Qed.

Lemma isnumeric_all (s : string) :
  PyStr.isnumeric s = true -> PyStr.forallb_string PyStr.isnumeric_char s = true.
Proof. destruct s; [discriminate | trivial]. Qed.

Lemma on_keypress_ignored (w : world) (char : string) :
  PyStr.isnumeric char = false -> on_keypress char w = (w, Ok tt).
Proof. intros H. unfold on_keypress. rewrite H. reflexivity. Qed.

Lemma on_keypress_run (w : world) (char buf : string) :
  PyStr.isnumeric char = true ->
  _user_input_buffer (self w) = Some buf ->
  PyStr.forallb_string PyStr.isnumeric_char buf = true ->
  curr_widget_state (self w) ∈ state_names ->
  exists t,
    on_keypress char w
    = (with_self (fun s => set_text t (set_user_input_buffer (Some (buf ++ char)) s)) w,
       Ok tt).
Proof.
  intros Hch Hbuf Hnum Hc.
  destruct (refresh_text_run (with_self (set_user_input_buffer (Some (buf ++ char))) w))
    as [t Ht]; [exact Hc | |].
  { apply buffer_plain_numeric. unfold numeric_buffer. cbn.
    rewrite numeric_app, Hnum, isnumeric_all by exact Hch. reflexivity. }
  exists t. unfold on_keypress. rewrite Hch.
  erewrite bind_ok by reflexivity.
  erewrite bind_ok by (rewrite Hbuf; reflexivity).
  erewrite bind_ok by reflexivity.
  exact Ht.
Qed.

Lemma on_backspace_run (w : world) (buf : string) :
  _user_input_buffer (self w) = Some buf ->
  PyStr.forallb_string PyStr.isnumeric_char buf = true ->
  curr_widget_state (self w) ∈ state_names ->
  exists t,
    on_backspace w
    = (with_self
         (fun s => set_text t (set_user_input_buffer (Some (PyStr.drop_last buf)) s)) w,
       Ok tt).
Proof.
  intros Hbuf Hnum Hc.
  destruct (refresh_text_run
              (with_self (set_user_input_buffer (Some (PyStr.drop_last buf))) w))
    as [t Ht]; [exact Hc | |].
  { apply buffer_plain_numeric. unfold numeric_buffer. cbn.
    apply numeric_drop_last, Hnum. }
  exists t. unfold on_backspace.
  erewrite bind_ok by reflexivity.
  erewrite bind_ok by (rewrite Hbuf; reflexivity).
  erewrite bind_ok by reflexivity.
  exact Ht.
Qed.

(** ** The invariant holds in every reachable world *)

Lemma binding_for_initial (ev : event) :
  binding_for ev (bindings_of "initial")
  = match ev with
    | Button1 | KeyPress Return _ => Some h_start_game
    | _ => None
    end.
Proof. destruct ev as [|[] ?]; vm_compute; reflexivity. Qed.

Lemma binding_for_end (ev : event) :
  binding_for ev (bindings_of "end")
  = match ev with
    | Button1 | KeyPress Return _ => Some h_start_game
    | _ => None
    end.
Proof. destruct ev as [|[] ?]; vm_compute; reflexivity. Qed.

Lemma binding_for_problem (ev : event) :
  binding_for ev (bindings_of "problem")
  = match ev with
    | Button1 => None
    | KeyPress Return _ => Some h_on_enter
    | KeyPress BackSpace _ => Some h_on_backspace
    | KeyPress OtherKey _ => Some h_on_keypress
    end.
Proof. destruct ev as [|[] ?]; vm_compute; reflexivity. Qed.

Lemma binding_for_correct (ev : event) :
  binding_for ev (bindings_of "correct")
  = match ev with
    | Button1 | KeyPress Return _ => Some h_next_problem
    | _ => None
    end.
Proof. destruct ev as [|[] ?]; vm_compute; reflexivity. Qed.

Lemma binding_for_incorrect (ev : event) :
  binding_for ev (bindings_of "incorrect")
  = match ev with
    | Button1 | KeyPress Return _ => Some h_next_problem
    | _ => None
    end.
Proof. destruct ev as [|[] ?]; vm_compute; reflexivity. Qed.

Lemma kept_ok (w : world) :
  inv w -> curr_widget_state (self w) <> "initial" -> kept (w, Ok tt).
Proof. intros H Hc. split; [exact H | split; [exact Hc | left; reflexivity]]. Qed.

Lemma kept_same (w : world) (r : result unit) :
  inv w -> curr_widget_state (self w) <> "initial" ->
  r = Ok tt \/ r = Raise ValueError -> kept (w, r).
Proof. intros H Hc Hr. split; [exact H | split; assumption]. Qed.

Lemma inv_range (w : world) : inv w -> _min_factor (self w) <= _max_factor (self w).
Proof. intros H. rewrite (inv_min w H), (inv_max w H). lia. Qed.

Lemma inv_start_game (w : world) :
  inv w ->
  kept (start_game w) /\ curr_widget_state (self (fst (start_game w))) = "problem".
Proof.
  intros H.
  destruct (start_game_run w) as [t ->];
    [rewrite (inv_problems w H); lia | apply inv_range, H | apply H | apply H |].
  pose proof (inv_range w H) as Hr.
  split; [|reflexivity]. apply kept_ok; [|cbn; discriminate]. split; cbn.
  - unfold state_names; repeat constructor.
  - reflexivity.
  - apply H.
  - apply H.
  - apply H.
  - reflexivity.
  - intros _. split; cbn.
    + exists 0, 1. cbn. rewrite (inv_problems w H). repeat split; lia.
    + eexists; split; [reflexivity|]. apply drawn_in_range, Hr.
    + eexists; split; [reflexivity|]. apply drawn_in_range, Hr.
    + eauto.
    + eauto.
Qed.

Lemma inv_next_problem (w : world) :
  inv w ->
  curr_widget_state (self w) = "correct" \/ curr_widget_state (self w) = "incorrect" ->
  kept (next_problem w).
Proof.
  intros H Hc.
  assert (Hs : session w) by (apply H; destruct Hc as [-> | ->]; discriminate).
  pose proof (inv_range w H) as Hr.
  destruct (ses_counters w Hs) as (s & d & Hsol & Hdis & H0 & Hsd & Hd5 & _).
  destruct (ses_start w Hs) as [s0 Hstart].
  destruct (Z.eq_dec d (num_problems (self w))) as [->|Hne].
  - destruct (next_problem_end_run w s0) as [t ->];
      [exact Hdis | exact Hstart | exact Hr | apply H | apply H |].
    apply kept_ok; [|cbn; discriminate]. split; cbn.
    + unfold state_names; repeat constructor.
    + reflexivity.
    + apply H.
    + apply H.
    + apply H.
    + reflexivity.
    + intros _. split; cbn.
      * exists s, (num_problems (self w)). cbn. repeat split; try assumption; try lia.
        discriminate.
      * eexists; split; [reflexivity|]. apply drawn_in_range, Hr.
      * eexists; split; [reflexivity|]. apply drawn_in_range, Hr.
      * eauto.
      * eauto.
  - destruct (next_problem_run w d) as [t ->];
      [exact Hdis | exact Hne | exact Hr | apply H | apply H |].
    apply kept_ok; [|cbn; discriminate]. split; cbn.
    + unfold state_names; repeat constructor.
    + reflexivity.
    + apply H.
    + apply H.
    + apply H.
    + reflexivity.
    + intros _. split; cbn.
      * exists s, (d + 1). cbn. repeat split; try assumption; try lia.
      * eexists; split; [reflexivity|]. apply drawn_in_range, Hr.
      * eexists; split; [reflexivity|]. apply drawn_in_range, Hr.
      * eauto.
      * eauto.
Qed.

Lemma nonempty_false (s : string) : PyStr.nonempty s = false -> s = "".
Proof. destruct s; [reflexivity | discriminate]. Qed.

Lemma inv_on_enter (w : world) :
  inv w -> curr_widget_state (self w) = "problem" ->
  kept (on_enter w).
Proof.
  intros H Hc.
  assert (Hs : session w) by (apply H; rewrite Hc; discriminate).
  destruct (ses_counters w Hs) as (s & d & Hsol & Hdis & H0 & Hsd & Hd5 & Hlt).
  specialize (Hlt Hc).
  destruct (ses_buffer w Hs) as [buf Hbuf].
  destruct (ses_first w Hs) as (a & Ha & Hra).
  destruct (ses_second w Hs) as (b & Hb & Hrb).
  destruct (PyStr.nonempty buf) eqn:Hne.
  - destruct (PyStr.int buf) as [v|] eqn:Hint.
    + destruct (Z.eq_dec v (a * b)) as [->|Hv].
      * destruct (on_enter_correct w buf a b s) as [t ->]; try assumption;
          [apply H | apply H |].
        apply kept_ok; [|cbn; discriminate].
        split; cbn;
          [ unfold state_names; repeat constructor | reflexivity
          | apply H | apply H | apply H | apply H | ].
        intros _. split; cbn; try (apply Hs); eauto.
        all: exists (s + 1), d; cbn; repeat split; try assumption; try lia; discriminate.
      * destruct (on_enter_incorrect w buf a b v) as [t ->]; try assumption;
          [apply H | apply H |].
        apply kept_ok; [|cbn; discriminate].
        split; cbn;
          [ unfold state_names; repeat constructor | reflexivity
          | apply H | apply H | apply H | apply H | ].
        intros _. split; cbn; try (apply Hs); eauto.
        all: exists s, d; cbn; repeat split; try assumption; try lia; discriminate.
    + rewrite (on_enter_unparsed w buf a b) by assumption.
      apply kept_same; [exact H | rewrite Hc; discriminate | auto].
  - apply nonempty_false in Hne as ->.
    rewrite on_enter_empty by assumption.
    apply kept_same; [exact H | rewrite Hc; discriminate | auto].
Qed.

Lemma inv_on_keypress (w : world) (char : string) :
  inv w -> curr_widget_state (self w) = "problem" ->
  kept (on_keypress char w).
Proof.
  intros H Hc.
  assert (Hs : session w) by (apply H; rewrite Hc; discriminate).
  destruct (ses_buffer w Hs) as [buf Hbuf].
  pose proof (inv_numeric w H) as Hnum. unfold numeric_buffer in Hnum.
  rewrite Hbuf in Hnum.
  destruct (PyStr.isnumeric char) eqn:Hch.
  - destruct (on_keypress_run w char buf) as [t ->]; try assumption; [apply H|].
    apply kept_ok; [|cbn; rewrite Hc; discriminate]. split; cbn; try (apply H).
    + unfold numeric_buffer. cbn.
      rewrite numeric_app, Hnum, isnumeric_all by exact Hch. reflexivity.
    + intros _. split; cbn; try (apply Hs); eauto.
  - rewrite on_keypress_ignored by exact Hch.
    apply kept_same; [exact H | rewrite Hc; discriminate | auto].
Qed.

Lemma inv_on_backspace (w : world) :
  inv w -> curr_widget_state (self w) = "problem" ->
  kept (on_backspace w).
Proof.
  intros H Hc.
  assert (Hs : session w) by (apply H; rewrite Hc; discriminate).
  destruct (ses_buffer w Hs) as [buf Hbuf].
  pose proof (inv_numeric w H) as Hnum. unfold numeric_buffer in Hnum.
  rewrite Hbuf in Hnum.
  destruct (on_backspace_run w buf) as [t ->]; try assumption; [apply H|].
  apply kept_ok; [|cbn; rewrite Hc; discriminate]. split; cbn; try (apply H).
  - unfold numeric_buffer. cbn. apply numeric_drop_last, Hnum.
  - intros _. split; cbn; try (apply Hs); eauto.
Qed.

(** A handler that an event reaches keeps the invariant and leaves the
    widget in a state other than the first. *)
Lemma inv_dispatch (w : world) (ev : event) (h : handler) :
  inv w ->
  binding_for ev (bindings (self w)) = Some h ->
  kept (dispatch ev w).
Proof.
  intros H Hb. unfold dispatch. rewrite Hb.
  rewrite (inv_bindings w H) in Hb.
  pose proof (inv_state w H) as Hc. unfold state_names in Hc.
  repeat (apply elem_of_cons in Hc as [Hc|Hc]);
    [..|apply elem_of_nil in Hc; contradiction]; rewrite Hc in Hb.
  - rewrite binding_for_initial in Hb.
    destruct ev as [|[] ?]; inversion Hb; subst h; cbn [run_handler];
      apply inv_start_game, H.
  - rewrite binding_for_problem in Hb.
    destruct ev as [|[] ?]; inversion Hb; subst h; cbn [run_handler];
      auto using inv_on_enter, inv_on_backspace, inv_on_keypress.
  - rewrite binding_for_correct in Hb.
    destruct ev as [|[] ?]; inversion Hb; subst h; cbn [run_handler];
      apply inv_next_problem; auto.
  - rewrite binding_for_incorrect in Hb.
    destruct ev as [|[] ?]; inversion Hb; subst h; cbn [run_handler];
      apply inv_next_problem; auto.
  - rewrite binding_for_end in Hb.
    destruct ev as [|[] ?]; inversion Hb; subst h; cbn [run_handler];
      apply inv_start_game, H.
Qed.

Lemma inv_step (w : world) (ev : event) : inv w -> inv (step ev w).
Proof.
  intros H.
  destruct (binding_for ev (bindings (self w))) as [h|] eqn:Hb.
  - eapply inv_dispatch; eassumption.
  - unfold step, dispatch. rewrite Hb. exact H.
Qed.

Lemma init_up (tk : tk_call -> result unit) (clock : nat -> spec_float)
    (dice : nat -> Z) (tk_attrs : gmap string string)
    (ambient : string -> gmap string string) :
  (forall c, tk c = Ok tt) ->
  __init__ tk clock dice tk_attrs ambient
  = set_widget_state "initial"
      {| self := new_widget; clock := clock; ticks := 0; dice := dice;
         rolls := 0; tk_attrs := tk_attrs; ambient := ambient |}.
Proof.
  intros Hup. unfold __init__, bind, call, get. rewrite !Hup.
  cbn [self curr_widget_state new_widget].
  destruct (set_widget_state "initial" _) as [w' [[]|e]]; reflexivity.
Qed.

Lemma init_calls (tk : tk_call -> result unit) (clock : nat -> spec_float)
    (dice : nat -> Z) (tk_attrs : gmap string string)
    (ambient : string -> gmap string string) (w : world) :
  __init__ tk clock dice tk_attrs ambient = (w, Ok tt) -> forall c, tk c = Ok tt.
Proof.
  unfold __init__, bind, call, get.
  destruct (tk TkInit) as [[]|] eqn:E1; [|discriminate].
  destruct (tk NewStringVar) as [[]|] eqn:E2; [|discriminate].
  destruct (tk NewLabel) as [[]|] eqn:E3; [|discriminate].
  destruct (tk LabelPack) as [[]|] eqn:E4; [|discriminate].
  destruct (set_widget_state _ _) as [w' [[]|e]]; [|discriminate].
  destruct (tk LabelFont) as [[]|] eqn:E5; [|discriminate].
  destruct (tk LabelColours) as [[]|] eqn:E6; [|discriminate].
  destruct (tk WindowColour) as [[]|] eqn:E7; [|discriminate].
  intros _ []; assumption.
Qed.

Lemma init_run (tk : tk_call -> result unit) (clock : nat -> spec_float)
    (dice : nat -> Z) (tk_attrs : gmap string string)
    (ambient : string -> gmap string string) :
  (forall c, tk c = Ok tt) ->
  exists t,
    __init__ tk clock dice tk_attrs ambient
    = (transitioned "initial" t
         {| self := new_widget; clock := clock; ticks := 0; dice := dice;
            rolls := 0; tk_attrs := tk_attrs; ambient := ambient |},
       Ok tt).
Proof.
  intros Hup. rewrite (init_up tk clock dice tk_attrs ambient Hup).
  set (w := {| self := new_widget |}).
  destruct (set_widget_state_run "initial"
              {| message := "[num_problems] Challenges." ++ nl ++ "Click to Start!";
                 event_routings := [("<Button-1>", ["start_game"]);
                                    ("<Return>", ["start_game"])] |}
              {| message := "[num_problems] Challenges." ++ nl ++ "Click to Start!";
                 event_routings := [("<Button-1>", ["start_game"]);
                                    ("<Return>", ["start_game"])] |} w)
    as [t Ht]; [reflexivity | reflexivity | discriminate |].
  exists t. rewrite Ht. reflexivity.
Qed.

Lemma inv_init (tk : tk_call -> result unit) (clock : nat -> spec_float)
    (dice : nat -> Z) (tk_attrs : gmap string string)
    (ambient : string -> gmap string string) (w : world) :
  __init__ tk clock dice tk_attrs ambient = (w, Ok tt) -> inv w.
Proof.
  intros Hinit. pose proof (init_calls _ _ _ _ _ _ Hinit) as Hup.
  destruct (init_run tk clock dice tk_attrs ambient Hup) as [t Ht].
  rewrite Ht in Hinit. revert Hinit.
  intros [= <-]. split; cbn; try reflexivity.
  - unfold state_names; repeat constructor.
  - intros Hc. contradiction.
Qed.

Theorem reachable_inv (w : world) : reachable w -> inv w.
Proof.
  induction 1 as [tk clock dice tk_attrs ambient w Hinit | ev w Hw IH].
  - eapply inv_init, Hinit.
  - apply inv_step, IH.
Qed.

(** ** The configuration is never written *)

Section Frame.

Lemma preserves_ret {A : Type} (a : A) : preserves (ret a).
Proof. intros w. reflexivity. Qed.

Lemma preserves_raise {A : Type} (e : exn) : preserves (@raise A e).
Proof. intros w. reflexivity. Qed.

Lemma preserves_bind {A B : Type} (m : M A) (k : A -> M B) :
  preserves m -> (forall a, preserves (k a)) -> preserves (bind m k).
Proof.
  intros Hm Hk w. unfold bind. specialize (Hm w).
  destruct (m w) as [w' [a|e]]; cbn [fst] in *.
  - rewrite Hk. exact Hm.
  - exact Hm.
Qed.

Lemma preserves_get {A : Type} (f : widget -> A) : preserves (get f).
Proof. intros w. reflexivity. Qed.

Lemma preserves_update (f : widget -> widget) : off_config f -> preserves (update f).
Proof.
  intros Hf w. unfold update, config. cbn.
  destruct (Hf (self w)) as (-> & -> & ->). reflexivity.
Qed.

Lemma preserves_need {A : Type} (o : option A) : preserves (need o).
Proof. destruct o; intros w; reflexivity. Qed.

Lemma preserves_for_each {A : Type} (l : list A) (body : A -> M unit) :
  (forall a, preserves (body a)) -> preserves (for_each l body).
Proof.
  intros Hb. induction l as [|a l IH]; cbn [for_each].
  - apply preserves_ret.
  - apply preserves_bind; [apply Hb | intros _; exact IH].
Qed.

Lemma preserves_time : preserves time_time.
Proof. intros w. reflexivity. Qed.

Lemma preserves_randint (a b : Z) : preserves (randint a b).
Proof. intros w. unfold randint. destruct (b <? a); reflexivity. Qed.

Create HintDb frame.

Hint Resolve preserves_ret preserves_raise preserves_get preserves_need
  preserves_time preserves_randint : frame.

Ltac frame :=
  repeat first
    [ solve [auto with frame]
    | apply preserves_bind; [|intros ?]
    | apply preserves_update; intros ?; repeat split ].

Lemma preserves_get_formatted (template : string) : preserves (_get_formatted template).
Proof. intros w. reflexivity. Qed.

Lemma preserves_state_of (name : string) : preserves (state_of name).
Proof. unfold state_of. destruct (assoc name widget_states); auto with frame. Qed.

Hint Resolve preserves_get_formatted preserves_state_of : frame.

Lemma preserves_unbind_routings (routings : list (string * list string)) :
  preserves (unbind_routings routings).
Proof.
  apply preserves_for_each. intros [ev funcs].
  apply preserves_for_each. intros _. unfold unbind. frame.
Qed.

Lemma preserves_bind_routings (routings : list (string * list string)) :
  preserves (bind_routings routings).
Proof.
  apply preserves_for_each. intros [ev funcs].
  apply preserves_for_each. intros f. unfold bind_event.
  destruct (method_of_name f); frame.
Qed.

Hint Resolve preserves_unbind_routings preserves_bind_routings : frame.

Lemma preserves_set_widget_state (name : string) : preserves (set_widget_state name).
Proof. unfold set_widget_state. frame. Qed.

Lemma preserves_refresh_text : preserves refresh_text.
Proof. unfold refresh_text. frame. Qed.

Hint Resolve preserves_set_widget_state preserves_refresh_text : frame.

Lemma preserves_gen_factors : preserves _gen_factors.
Proof. unfold _gen_factors. frame. Qed.

Hint Resolve preserves_gen_factors : frame.

Lemma preserves_display_problem : preserves _display_problem.
Proof. unfold _display_problem. frame. destruct (bool_decide _); frame. Qed.

Hint Resolve preserves_display_problem : frame.

Lemma preserves_start_game : preserves start_game.
Proof. unfold start_game, _init_vars. frame. Qed.

Lemma preserves_next_problem : preserves next_problem.
Proof. unfold next_problem. frame. Qed.

Lemma preserves_on_keypress (char : string) : preserves (on_keypress char).
Proof. unfold on_keypress. destruct (PyStr.isnumeric char); frame. Qed.

Lemma preserves_on_backspace : preserves on_backspace.
Proof. unfold on_backspace. frame. Qed.

Lemma preserves_on_enter : preserves on_enter.
Proof.
  unfold on_enter. frame.
  match goal with |- context [PyStr.nonempty ?b] => destruct (PyStr.nonempty b) end; frame.
  match goal with |- context [PyStr.int ?b] => destruct (PyStr.int b) end; frame.
  match goal with |- context [?v =? ?c] => destruct (v =? c) end; frame.
Qed.

End Frame.

(** ** The sample world *)

Lemma sample_init :
  __init__ tk_up sample_clock sample_dice ∅ sample_ambient = (sample_world, Ok tt).
Proof.
  unfold sample_world.
  destruct (init_run tk_up sample_clock sample_dice ∅ sample_ambient) as [t ->];
    reflexivity.
Qed.

Lemma sample_reachable : reachable sample_world.
Proof. exact (reachable_init _ _ _ _ _ _ sample_init). Qed.

Lemma run_reachable (evs : list event) (w : world) :
  reachable w -> reachable (run evs w).
Proof.
  revert w; induction evs as [|ev evs IH]; intros w H; [exact H|].
  apply IH, reachable_step, H.
Qed.

(** * The claims *)

(** C1. In every reachable world the bindings registered with Tk are
    those of the current state and no others; and a transition from
    there to any state of the table first unbinds every routing of the
    current state, which leaves no binding at all, then binds every
    routing of the new state, which leaves exactly the bindings of the
    new state. *)
Theorem one_state_bound (w : world) :
  reachable w ->
  bindings (self w) = bindings_of (curr_widget_state (self w))
  /\ forall name st old,
       assoc name widget_states = Some st ->
       assoc (curr_widget_state (self w)) widget_states = Some old ->
       exists w1 w2 t,
         unbind_routings (event_routings old) w = (w1, Ok tt)
         /\ bindings (self w1) = ∅
         /\ bind_routings (event_routings st) w1 = (w2, Ok tt)
         /\ bindings (self w2) = bindings_of name
         /\ set_widget_state name w = (transitioned name t w, Ok tt)
         /\ bindings (self (transitioned name t w)) = bindings_of name
         /\ curr_widget_state (self (transitioned name t w)) = name.
Proof.
  intros Hr. pose proof (reachable_inv w Hr) as H.
  split; [apply H|]. intros name st old Hst Hold.
  destruct (rebind_table name _ st old Hst Hold) as [Hu Hn].
  destruct (transition_run name w) as [t Ht].
  - apply (assoc_widget_states name st Hst).
  - apply H.
  - apply H.
  - intros _. apply buffer_plain_numeric, H.
  - eexists _, _, t. rewrite unbind_routings_run.
    split; [reflexivity|]. split.
    { cbn. rewrite (inv_bindings w H). exact Hu. }
    rewrite bind_routings_run by (eapply table_resolvable; eassumption).
    split; [reflexivity|]. split.
    { cbn. rewrite (inv_bindings w H), Hu. exact Hn. }
    split; [exact Ht|]. split; reflexivity.
Qed.

Lemma one_state_bound_witness :
  reachable sample_world
  /\ bindings (self sample_world) = bindings_of (curr_widget_state (self sample_world)).
Proof.
  split; [exact sample_reachable|].
  exact (proj1 (one_state_bound sample_world sample_reachable)).
Defined.

(** C2. After every handler an event invokes in a reachable world, the
    counters are set and satisfy
    [0 <= num_solved <= _num_displayed <= num_problems]. *)
Theorem counters_ordered (w : world) (ev : event) (h : handler) :
  reachable w ->
  binding_for ev (bindings (self w)) = Some h ->
  exists s d,
    num_solved (self (step ev w)) = Some s
    /\ _num_displayed (self (step ev w)) = Some d
    /\ 0 <= s /\ s <= d /\ d <= num_problems (self (step ev w)).
Proof.
  intros Hr Hb.
  destruct (inv_dispatch w ev h (reachable_inv w Hr) Hb) as (Hi & Hc & _).
  destruct (ses_counters _ (inv_session _ Hi Hc)) as (s & d & Hs & Hd & H0 & Hsd & Hdn & _).
  exists s, d. auto.
Qed.

Lemma counters_ordered_witness :
  exists s d,
    num_solved (self (step Button1 sample_world)) = Some s
    /\ _num_displayed (self (step Button1 sample_world)) = Some d
    /\ 0 <= s /\ s <= d /\ d <= num_problems (self (step Button1 sample_world)).
Proof.
  apply (counters_ordered sample_world Button1 h_start_game).
  - exact sample_reachable.
  - vm_compute. reflexivity.
Defined.

(** C9. In every reachable world [curr_widget_state] is one of the five
    names of the table, so the look-ups of a transition find their
    entries: a transition to any of the five runs to its end, and no
    event makes a handler raise.  [KeyError] is what a name outside the
    table would give. *)
Theorem state_lookup_total (w : world) :
  reachable w ->
  curr_widget_state (self w) ∈ state_names
  /\ is_Some (assoc (curr_widget_state (self w)) widget_states)
  /\ (forall name, name ∈ state_names ->
        exists t, set_widget_state name w = (transitioned name t w, Ok tt))
  /\ (forall ev k, snd (dispatch ev w) <> Raise (KeyError k))
  /\ (forall name, assoc name widget_states = None ->
        set_widget_state name w = (w, Raise (KeyError name))).
Proof.
  intros Hr. pose proof (reachable_inv w Hr) as H.
  split; [apply H|]. split.
  { destruct (in_table _ (inv_state w H)) as [st Hst]. rewrite Hst. eauto. }
  split.
  { intros name Hn. apply transition_run; try apply H; [exact Hn|].
    intros _. apply buffer_plain_numeric, H. }
  split.
  - intros ev k.
    destruct (binding_for ev (bindings (self w))) as [h|] eqn:Hb.
    + destruct (inv_dispatch w ev h H Hb) as (_ & _ & [-> | ->]); discriminate.
    + unfold dispatch. rewrite Hb. discriminate.
  - intros name Hn. unfold set_widget_state, state_of. rewrite Hn. reflexivity.
Qed.

Lemma state_lookup_total_witness :
  curr_widget_state (self sample_world) ∈ state_names.
Proof.
  exact (proj1 (state_lookup_total sample_world sample_reachable)).
Defined.

(** C10. No handler writes [num_problems], [_min_factor] or
    [_max_factor]: whatever the world, the event and the handler, and
    whether the handler returns or raises, the three fields are after it
    what they were before; in a reachable world they are the 5, 0 and 10
    of [__init__]. *)
Theorem config_unchanged :
  (forall h ev w, config (fst (run_handler h ev w)) = config w)
  /\ (forall name w, config (fst (set_widget_state name w)) = config w)
  /\ (forall ev w, config (step ev w) = config w)
  /\ (forall w, reachable w -> config w = (5, 0, 10)).
Proof.
  assert (Hh : forall h ev w, config (fst (run_handler h ev w)) = config w).
  { intros [] ev w; cbn [run_handler].
    - apply preserves_start_game.
    - apply preserves_on_keypress.
    - apply preserves_on_backspace.
    - apply preserves_on_enter.
    - apply preserves_next_problem.
    - apply preserves_refresh_text. }
  split; [exact Hh|]. split; [intros name w; apply preserves_set_widget_state|].
  split.
  - intros ev w. unfold step, dispatch.
    destruct (binding_for ev (bindings (self w))); [apply Hh | reflexivity].
  - intros w Hr. pose proof (reachable_inv w Hr) as H. unfold config.
    rewrite (inv_problems w H), (inv_min w H), (inv_max w H). reflexivity.
Qed.

(** ** Parsing a digit string *)

Lemma decimal_char_not_space (c : ascii) :
  PyStr.isdecimal_char c = true -> PyStr.isspace_char c = false.
Proof.
  unfold PyStr.isdecimal_char, PyStr.isspace_char.
  intros [H1 H2]%andb_prop. apply N.leb_le in H1, H2.
  repeat match goal with
         | |- context [(?a <=? ?b)%N] => destruct (N.leb_spec a b)
         | |- context [(?a =? ?b)%N] => destruct (N.eqb_spec a b)
         end; try reflexivity; lia.
Qed.

Lemma decimal_char_not_sign (c : ascii) :
  PyStr.isdecimal_char c = true ->
  Ascii.eqb c "+" = false /\ Ascii.eqb c "-" = false /\ Ascii.eqb c "_" = false.
Proof.
  intros H. repeat split.
  all: match goal with |- Ascii.eqb ?x ?d = false =>
         destruct (Ascii.eqb_spec x d) as [->|]; [vm_compute in H; discriminate | reflexivity]
       end.
Qed.

Lemma int_digits_decimal (s : string) (acc : Z) (prev : bool) :
  PyStr.forallb_string PyStr.isdecimal_char s = true ->
  PyStr.int_digits acc prev s
  = match s with
    | EmptyString => if prev then Some (acc, EmptyString) else None
    | _ => Some (decimal_value acc s, EmptyString)
    end.
Proof.
  revert acc prev; induction s as [|c s IH]; intros acc prev; [reflexivity|].
  cbn [PyStr.forallb_string]. intros [Hc Hs]%andb_prop.
  cbn [PyStr.int_digits decimal_value]. rewrite Hc, (IH _ _ Hs).
  destruct s; reflexivity.
Qed.

Lemma digit_count_decimal (s : string) :
  PyStr.forallb_string PyStr.isdecimal_char s = true ->
  PyStr.digit_count s = Z.of_nat (String.length s).
Proof.
  induction s as [|c s IH]; [reflexivity|].
  cbn [PyStr.forallb_string]. intros [Hc Hs]%andb_prop.
  cbn [PyStr.digit_count String.length]. rewrite Hc, (IH Hs). lia.
Qed.

(** [int] of a non-empty string of decimal digits is the number they
    denote, unless there are more digits than the limit allows. *)
Lemma int_decimal_read (s : string) :
  PyStr.isdecimal s = true ->
  PyStr.int s
  = if PyStr.int_max_str_digits <? Z.of_nat (String.length s) then None
    else Some (decimal_value 0 s).
Proof.
  destruct s as [|c s]; [discriminate|]. unfold PyStr.isdecimal. intros H.
  pose proof H as [Hc Hs]%andb_prop.
  destruct (decimal_char_not_sign c Hc) as (Hp & Hm & _).
  assert (E : PyStr.int (String c s)
              = match PyStr.int_digits 0 false (String c s) with
                | Some (v, rest) =>
                    match PyStr.lstrip rest with
                    | EmptyString =>
                        if PyStr.int_max_str_digits <? PyStr.digit_count (String c s)
                        then None else Some v
                    | _ => None
                    end
                | None => None
                end).
  { unfold PyStr.int. cbn [PyStr.lstrip]. rewrite (decimal_char_not_space c Hc).
    clear H Hc Hs.
    destruct c as [b0 b1 b2 b3 b4 b5 b6 b7].
    destruct b0, b1, b2, b3, b4, b5, b6, b7;
      try discriminate Hp; try discriminate Hm; reflexivity. }
  rewrite E, (int_digits_decimal (String c s) 0 false H).
  cbn [PyStr.lstrip]. rewrite (digit_count_decimal (String c s) H). reflexivity.
Qed.

Lemma int_decimal (s : string) :
  PyStr.isdecimal s = true ->
  Z.of_nat (String.length s) <= PyStr.int_max_str_digits ->
  PyStr.int s = Some (decimal_value 0 s).
Proof.
  intros H Hl. rewrite (int_decimal_read s H).
  destruct (Z.ltb_spec PyStr.int_max_str_digits (Z.of_nat (String.length s)));
    [lia | reflexivity].
Qed.

Lemma int_decimal_long (s : string) :
  PyStr.isdecimal s = true ->
  PyStr.int_max_str_digits < Z.of_nat (String.length s) ->
  PyStr.int s = None.
Proof.
  intros H Hl. rewrite (int_decimal_read s H).
  destruct (Z.ltb_spec PyStr.int_max_str_digits (Z.of_nat (String.length s)));
    [reflexivity | lia].
Qed.




(** C8, as the code has it.  A confirm action or a click in the
    Initial or the End state runs [start_game].  It first sets
    [num_solved] and [_num_displayed] to 0 and the buffer to the empty
    string and records the clock as [_start_time]; from there
    [_display_problem] draws the first pair of factors, goes to the
    Problem state and counts the problem shown, so that [_num_displayed]
    is 1, not 0, when the handler returns. *)
Theorem start_game_resets (w : world) :
  reachable w ->
  curr_widget_state (self w) = "initial" \/ curr_widget_state (self w) = "end" ->
  (forall c, dispatch (KeyPress Return c) w = start_game w)
  /\ dispatch Button1 w = start_game w
  /\ start_game w = _display_problem (started w)
  /\ num_solved (self (started w)) = Some 0
  /\ _num_displayed (self (started w)) = Some 0
  /\ _user_input_buffer (self (started w)) = Some ""
  /\ _start_time (self (started w)) = Some (clock w (ticks w))
  /\ exists t,
       start_game w
       = (with_self (set_num_displayed (Some 1))
            (transitioned "problem" t (with_factors (started w))), Ok tt)
       /\ let w' := fst (start_game w) in
          curr_widget_state (self w') = "problem"
          /\ num_solved (self w') = Some 0
          /\ _num_displayed (self w') = Some 1
          /\ _user_input_buffer (self w') = Some ""
          /\ _start_time (self w') = Some (clock w (ticks w))
          /\ in_range w' (first_num (self w'))
          /\ in_range w' (second_num (self w')).
Proof.
  intros Hr Hc. pose proof (reachable_inv w Hr) as H.
  pose proof (inv_range w H) as Hrange.
  assert (Hb : forall ev, ev = Button1 \/ (exists c, ev = KeyPress Return c) ->
                          dispatch ev w = start_game w).
  { intros ev Hev. unfold dispatch. rewrite (inv_bindings w H).
    destruct Hc as [-> | ->];
      [rewrite binding_for_initial | rewrite binding_for_end];
      destruct Hev as [-> | [c ->]]; reflexivity. }
  split; [intros c; apply Hb; eauto|]. split; [apply Hb; auto|].
  split; [reflexivity|]. do 4 (split; [reflexivity|]).
  destruct (start_game_run w) as [t Ht];
    [rewrite (inv_problems w H); lia | exact Hrange | apply H | apply H |].
  exists t. split; [exact Ht|].
  destruct (inv_start_game w H) as [(Hi & Hne & _) Hp].
  pose proof (inv_session _ Hi Hne) as Hs.
  cbv zeta. split; [exact Hp|].
  split; [rewrite Ht; reflexivity|]. split; [rewrite Ht; reflexivity|].
  split; [rewrite Ht; reflexivity|]. split; [rewrite Ht; reflexivity|].
  split; [apply Hs | apply Hs].
Qed.

Lemma start_game_resets_witness :
  dispatch Button1 sample_world = start_game sample_world.
Proof.
  assert (Hc : curr_widget_state (self sample_world) = "initial")
    by (vm_compute; reflexivity).
  exact (proj1 (proj2 (start_game_resets sample_world sample_reachable (or_introl Hc)))).
Defined.

(** C8 as the specification has it fails: [_num_displayed] is 0 only
    between [_init_vars] and the end of [_display_problem]; when
    [start_game] returns, the first problem has been counted and
    [_num_displayed] is 1. *)
Lemma started_session_counts_one :
  let w := fst (start_game sample_world) in
  curr_widget_state (self sample_world) = "initial"
  /\ binding_for Button1 (bindings (self sample_world)) = Some h_start_game
  /\ snd (start_game sample_world) = Ok tt
  /\ curr_widget_state (self w) = "problem"
  /\ num_solved (self w) = Some 0
  /\ _user_input_buffer (self w) = Some ""
  /\ _num_displayed (self w) = Some 1
  /\ _num_displayed (self w) <> Some 0.
Proof.
  intros w. do 7 (split; [vm_compute; reflexivity|]).
  assert (E : _num_displayed (self w) = Some 1) by (vm_compute; reflexivity).
  rewrite E. discriminate.
Qed.

(** C5. [on_keypress] lets through what [str.isnumeric] accepts, which
    is more than the decimal digits: after a click and the key for the
    superscript two the buffer holds that character, and the confirm key
    then makes [on_enter] raise the [ValueError] of [int]. *)
Theorem numeric_key_breaks_enter :
  let w := run [Button1; KeyPress OtherKey superscript_two] sample_world in
  reachable w
  /\ curr_widget_state (self w) = "problem"
  /\ _user_input_buffer (self w) = Some superscript_two
  /\ PyStr.isnumeric superscript_two = true
  /\ PyStr.isdecimal superscript_two = false
  /\ PyStr.int superscript_two = None
  /\ dispatch (KeyPress Return "") w = (w, Raise ValueError).
Proof.
  intros w.
  assert (Hb : binding_for (KeyPress Return "") (bindings (self w)) = Some h_on_enter)
    by (vm_compute; reflexivity).
  split; [apply run_reachable, sample_reachable|].
  do 5 (split; [vm_compute; reflexivity|]).
  unfold dispatch. rewrite Hb. cbn [run_handler].
  apply (on_enter_unparsed w superscript_two 3 10); vm_compute; reflexivity.
Qed.

(** ** The sign of a difference of clock readings *)

Section FloatSign.

Import PyFloat.

Lemma signed_as_nonneg (r : spec_float) : signed_as false r -> nonneg r = true.
Proof. destruct r; cbn; intros H; try rewrite H; auto. Qed.

Lemma shr_1_nonneg (mrs : shr_record) : 0 <= shr_m mrs -> 0 <= shr_m (shr_1 mrs).
Proof.
  destruct mrs as [m r s]. cbn [shr_m]. intros H. unfold shr_1.
  destruct m as [|[p|p|]|p]; cbn [shr_m]; lia.
Qed.

Lemma iter_shr_1_nonneg (p : positive) (mrs : shr_record) :
  0 <= shr_m mrs -> 0 <= shr_m (SpecFloat.iter_pos shr_1 p mrs).
Proof.
  revert mrs; induction p as [p IH|p IH|]; intros mrs H; cbn [SpecFloat.iter_pos].
  - apply IH, IH, shr_1_nonneg, H.
  - apply IH, IH, H.
  - apply shr_1_nonneg, H.
Qed.

Lemma shr_fexp_nonneg (m e : Z) (l : location) :
  0 <= m -> 0 <= shr_m (fst (shr_fexp prec emax m e l)).
Proof.
  intros H. unfold shr_fexp, shr.
  assert (H0 : 0 <= shr_m (shr_record_of_loc m l)).
  { destruct l as [|[]]; exact H. }
  destruct (fexp prec emax (Zdigits2 m + e) - e); cbn [fst];
    [exact H0 | apply iter_shr_1_nonneg, H0 | exact H0].
Qed.

Lemma round_nearest_even_nonneg (m : Z) (l : location) :
  0 <= m -> 0 <= round_nearest_even m l.
Proof.
  intros H. unfold round_nearest_even.
  destruct l as [|[]]; try destruct (Z.even m); lia.
Qed.

(** Rounding a non-negative mantissa gives a number of the sign asked
    for, never a NaN. *)
Lemma binary_round_aux_signed (s : bool) (m e : Z) (l : location) :
  0 <= m -> signed_as s (binary_round_aux prec emax s m e l).
Proof.
  intros H. unfold binary_round_aux.
  pose proof (shr_fexp_nonneg m e l H) as H1.
  destruct (shr_fexp prec emax m e l) as [mrs' e'] eqn:E1. cbn [fst] in H1.
  pose proof (shr_fexp_nonneg _ e' loc_Exact
                (round_nearest_even_nonneg _ (loc_of_shr_record mrs') H1)) as H2.
  destruct (shr_fexp prec emax (round_nearest_even (shr_m mrs') (loc_of_shr_record mrs'))
              e' loc_Exact) as [mrs'' e''] eqn:E2. cbn [fst] in H2.
  destruct (shr_m mrs'') as [|p|p]; [reflexivity | | lia].
  destruct (e'' <=? emax - prec); reflexivity.
Qed.

Lemma binary_round_signed (s : bool) (m : positive) (e : Z) :
  signed_as s (binary_round prec emax s m e).
Proof.
  unfold binary_round. destruct (shl_align m e _) as [mz ez].
  apply binary_round_aux_signed. lia.
Qed.

Lemma binary_normalize_nonneg (m e : Z) :
  0 <= m -> signed_as false (binary_normalize prec emax m e false).
Proof.
  intros H. destruct m as [|p|p]; cbn [binary_normalize];
    [reflexivity | apply binary_round_signed | lia].
Qed.

Lemma div_signed (s : bool) (k d : positive) :
  signed_as s (SFdiv prec emax (S754_finite s k 0) (S754_finite false d 0)).
Proof.
  cbn [SFdiv]. unfold SFdiv_core_binary.
  set (m' := match _ - _ with Z0 => Z.pos k | Z.pos _ => _ | Z.neg _ => 0 end).
  assert (Hm : 0 <= m').
  { subst m'. destruct (_ - _ - _); try lia. apply Z.shiftl_nonneg. lia. }
  pose proof (Z.div_pos m' (Z.pos d) Hm eq_refl) as Hq. unfold Z.div in Hq.
  destruct (Z.div_eucl m' (Z.pos d)) as [q r]. cbn [fst] in Hq.
  replace (xorb s false) with s by (destruct s; reflexivity).
  apply binary_round_aux_signed, Hq.
Qed.

(** [round(x, 1)] keeps the sign and makes no NaN. *)
Lemma round1_signed (s : bool) (x : spec_float) :
  signed_as s x -> signed_as s (round1 x).
Proof.
  destruct x as [s'|s'| |s' m e]; cbn [signed_as round1]; try (intros H; exact H).
  intros ->. destruct (div_half_even _ _); [reflexivity | apply div_signed | reflexivity].
Qed.

Lemma iter_xO (d m : positive) : Z.pos (Pos.iter xO m d) = Z.pos m * 2 ^ Z.pos d.
Proof.
  induction d as [|d IH] using Pos.peano_ind.
  - cbn [Pos.iter]. lia.
  - rewrite Pos.iter_succ, Pos2Z.inj_succ, Z.pow_succ_r by lia.
    change (Z.pos (Pos.iter xO m d)~0) with (2 * Z.pos (Pos.iter xO m d)). lia.
Qed.

Lemma shl_align_value (m : positive) (e e' : Z) :
  e' <= e -> Z.pos (fst (shl_align m e e')) = Z.pos m * 2 ^ (e - e').
Proof.
  intros H. unfold shl_align.
  destruct (e' - e) as [|p|p] eqn:E; cbn [fst]; try lia.
  - replace (e - e') with 0 by lia. lia.
  - rewrite iter_xO. f_equal. f_equal. lia.
Qed.

Lemma cond_Zopp_signed (s : bool) (m : positive) (k : Z) :
  cond_Zopp s (Z.pos m * 2 ^ k) = signed s m * 2 ^ k.
Proof. destruct s; cbn [cond_Zopp signed]; lia. Qed.

(** The later of two clock readings minus the earlier is not negative,
    and remains so rounded to one decimal. *)
Lemma elapsed_nonneg (s0 e0 : spec_float) :
  finite_le s0 e0 = true -> nonneg (round1 (sub e0 s0)) = true.
Proof.
  intros H.
  destruct s0 as [ss| | |ss ms es], e0 as [se| | |se me ee]; try discriminate H.
  { destruct se, ss; reflexivity. }
  all: apply signed_as_nonneg, round1_signed.
  - cbn in H. apply negb_true_iff in H as ->. reflexivity.
  - cbn in H. subst ss. unfold sub. cbn. reflexivity.
  - cbn [finite_le] in H. apply Z.leb_le in H.
    unfold sub. cbn [SFsub].
    apply binary_normalize_nonneg.
    rewrite !shl_align_value by lia.
    rewrite !cond_Zopp_signed.
    rewrite (Z.min_comm ee es). lia.
Qed.

End FloatSign.

(** ** Rounds of a session *)

Lemma run_app (l1 l2 : list event) (w : world) :
  run (l1 ++ l2) w = run l2 (run l1 w).
Proof. unfold run. apply fold_left_app. Qed.

Lemma handler_calls_app (h : handler) (l1 l2 : list event) (w : world) :
  handler_calls h (l1 ++ l2) w
  = (handler_calls h l1 w + handler_calls h l2 (run l1 w))%nat.
Proof.
  revert w; induction l1 as [|ev l1 IH]; intros w; [reflexivity|].
  cbn [app handler_calls]. rewrite IH.
  change (run (ev :: l1) w) with (run l1 (step ev w)). lia.
Qed.

Lemma isdecimal_isnumeric (s : string) :
  PyStr.isdecimal s = true -> PyStr.isnumeric s = true.
Proof.
  destruct s as [|c s]; [discriminate|]. unfold PyStr.isdecimal, PyStr.isnumeric.
  generalize (String c s). clear. intros s.
  induction s as [|c s IH]; [reflexivity|]. cbn [PyStr.forallb_string].
  intros [Hc Hs]%andb_prop. rewrite (IH Hs), andb_true_r.
  unfold PyStr.isnumeric_char. rewrite Hc. reflexivity.
Qed.

Lemma isdecimal_nonempty (s : string) :
  PyStr.isdecimal s = true -> PyStr.nonempty s = true.
Proof. destruct s; [discriminate | reflexivity]. Qed.

Lemma step_in_problem (w : world) (ev : event) :
  inv w -> curr_widget_state (self w) = "problem" ->
  dispatch ev w
  = match ev with
    | Button1 => (w, Ok tt)
    | KeyPress Return _ => on_enter w
    | KeyPress BackSpace _ => on_backspace w
    | KeyPress OtherKey char => on_keypress char w
    end.
Proof.
  intros H Hc. unfold dispatch.
  rewrite (inv_bindings w H), Hc, binding_for_problem.
  destruct ev as [|[] ?]; reflexivity.
Qed.

Lemma step_judged (w : world) :
  inv w ->
  curr_widget_state (self w) = "correct" \/ curr_widget_state (self w) = "incorrect" ->
  dispatch Button1 w = next_problem w
  /\ binding_for Button1 (bindings (self w)) = Some h_next_problem.
Proof.
  intros H Hc. unfold dispatch. rewrite (inv_bindings w H).
  destruct Hc as [-> | ->];
    [rewrite binding_for_correct | rewrite binding_for_incorrect]; split; reflexivity.
Qed.

(** Typing an answer and confirming it gets it judged; the count of
    problems shown stays, and no call of [next_problem] is made. *)
Lemma answer_run (w : world) (d : Z) (answer : string) :
  asking d w -> readable answer ->
  judged d (run [KeyPress OtherKey answer; KeyPress Return ""] w)
  /\ handler_calls h_next_problem [KeyPress OtherKey answer; KeyPress Return ""] w = 0%nat.
Proof.
  intros (H & Hc & Hbuf & Hd) [Ha Hlen].
  assert (Hs : session w) by (apply H; rewrite Hc; discriminate).
  destruct (ses_first w Hs) as (a & Hfa & _).
  destruct (ses_second w Hs) as (b & Hfb & _).
  destruct (ses_counters w Hs) as (n & d' & Hn & _).
  pose proof (isdecimal_isnumeric answer Ha) as Hnum.
  destruct (on_keypress_run w answer "") as [t Ht];
    [exact Hnum | exact Hbuf | reflexivity | apply H |].
  set (w1 := with_self
               (fun s => set_text t (set_user_input_buffer (Some ("" ++ answer)) s)) w)
    in Ht.
  assert (E1 : step (KeyPress OtherKey answer) w = w1).
  { unfold step. rewrite (step_in_problem w _ H Hc), Ht. reflexivity. }
  assert (H1 : inv w1) by (rewrite <- E1; apply inv_step, H).
  assert (Hc1 : curr_widget_state (self w1) = "problem") by exact Hc.
  assert (E2 : dispatch (KeyPress Return "") w1 = on_enter w1)
    by exact (step_in_problem w1 (KeyPress Return "") H1 Hc1).
  assert (Hcalls : handler_calls h_next_problem
                     [KeyPress OtherKey answer; KeyPress Return ""] w = 0%nat).
  { cbn [handler_calls]. rewrite E1.
    rewrite (inv_bindings w H), Hc, (inv_bindings w1 H1), Hc1, !binding_for_problem.
    reflexivity. }
  split; [|exact Hcalls].
  change (run [KeyPress OtherKey answer; KeyPress Return ""] w)
    with (step (KeyPress Return "") (step (KeyPress OtherKey answer) w)).
  rewrite E1. unfold step at 1. rewrite E2.
  assert (H2 : inv (fst (on_enter w1))) by (rewrite <- E2; apply inv_step, H1).
  split; [exact H2|].
  destruct (Z.eq_dec (decimal_value 0 answer) (a * b)) as [Heq|Hneq].
  - destruct (on_enter_correct w1 answer a b n) as [t' Ht'];
      [reflexivity | apply isdecimal_nonempty, Ha | exact Hfa | exact Hfb
      | rewrite int_decimal by assumption; congruence | exact Hn | apply H1 | apply H1 |].
    rewrite Ht'. split; [left; reflexivity | exact Hd].
  - destruct (on_enter_incorrect w1 answer a b (decimal_value 0 answer)) as [t' Ht'];
      [reflexivity | apply isdecimal_nonempty, Ha | exact Hfa | exact Hfb
      | apply int_decimal; assumption | exact Hneq | apply H1 | apply H1 |].
    rewrite Ht'. split; [right; reflexivity | exact Hd].
Qed.

(** A click on a judged answer when fewer than [num_problems] problems
    have been shown: the one call of [next_problem] shows the next. *)
Lemma click_next (w : world) (d : Z) :
  judged d w -> d <> 5 ->
  asking (d + 1) (step Button1 w)
  /\ handler_calls h_next_problem [Button1] w = 1%nat.
Proof.
  intros (H & Hc & Hd) Hne.
  destruct (step_judged w H Hc) as [E Hb].
  split; [|cbn [handler_calls]; rewrite Hb; reflexivity].
  destruct (next_problem_run w d) as [t Ht];
    [exact Hd | rewrite (inv_problems w H); exact Hne | apply inv_range, H
    | apply H | apply H |].
  assert (Hi : inv (step Button1 w)) by apply inv_step, H.
  unfold step in *. rewrite E, Ht in *.
  split; [exact Hi|]. repeat split.
Qed.

(** A click on a judged answer when [num_problems] problems have been
    shown: the one call of [next_problem] ends the session. *)
Lemma click_end (w : world) :
  judged 5 w ->
  curr_widget_state (self (step Button1 w)) = "end"
  /\ handler_calls h_next_problem [Button1] w = 1%nat
  /\ exists s0,
       _start_time (self w) = Some s0
       /\ seconds_elapsed (self (step Button1 w))
          = Some (PyFloat.round1 (PyFloat.sub (clock w (ticks w)) s0)).
Proof.
  intros (H & Hc & Hd).
  destruct (step_judged w H Hc) as [E Hb].
  assert (Hs : session w) by (apply H; destruct Hc as [-> | ->]; discriminate).
  destruct (ses_start w Hs) as [s0 Hs0].
  destruct (next_problem_end_run w s0) as [t Ht];
    [rewrite (inv_problems w H); exact Hd | exact Hs0 | apply inv_range, H
    | apply H | apply H |].
  unfold step. rewrite E, Ht.
  split; [reflexivity|]. split; [cbn [handler_calls]; rewrite Hb; reflexivity|].
  exists s0. split; [exact Hs0 | reflexivity].
Qed.

Lemma asking_bound (w : world) (d : Z) : asking d w -> 1 <= d <= 5.
Proof.
  intros (H & Hc & _ & Hd).
  assert (Hs : session w) by (apply H; rewrite Hc; discriminate).
  destruct (ses_counters w Hs) as (s & d' & _ & Hd' & H0 & Hsd & Hn & Hlt).
  rewrite Hd in Hd'. injection Hd' as <-.
  rewrite (inv_problems w H) in Hn. specialize (Hlt Hc). lia.
Qed.

(** One round before the last: the answer is judged, the click shows
    the next problem. *)
Lemma round_run (w : world) (d : Z) (answer : string) :
  asking d w -> d <> 5 -> readable answer ->
  asking (d + 1) (run (round answer) w)
  /\ handler_calls h_next_problem (round answer) w = 1%nat.
Proof.
  intros Hw Hne Ha.
  destruct (answer_run w d answer Hw Ha) as [Hj Hc0].
  destruct (click_next _ d Hj Hne) as [Hn Hc1].
  change (round answer)
    with (app [KeyPress OtherKey answer; KeyPress Return ""] [Button1]).
  rewrite run_app, handler_calls_app, Hc0, Hc1.
  split; [exact Hn | reflexivity].
Qed.

Lemma rounds_run (answers : list string) (w : world) (d : Z) :
  asking d w -> d + Z.of_nat (length answers) <= 5 ->
  Forall readable answers ->
  asking (d + Z.of_nat (length answers)) (run (concat (map round answers)) w)
  /\ handler_calls h_next_problem (concat (map round answers)) w = length answers.
Proof.
  revert w d; induction answers as [|a answers IH]; intros w d Hw Hlen Hall.
  - cbn. rewrite Z.add_0_r. split; [exact Hw | reflexivity].
  - apply Forall_cons in Hall as [Ha Hall]. cbn [length] in Hlen |- *.
    destruct (round_run w d a Hw) as [Hw1 Hc1]; [lia | exact Ha |].
    destruct (IH _ (d + 1) Hw1) as [Hw2 Hc2]; [lia | exact Hall |].
    cbn [map concat]. rewrite run_app, handler_calls_app, Hc1, Hc2.
    split; [|reflexivity].
    replace (d + Z.of_nat (S (length answers)))
      with (d + 1 + Z.of_nat (length answers)) by lia.
    exact Hw2.
Qed.

Lemma start_run (w : world) :
  reachable w ->
  curr_widget_state (self w) = "initial" \/ curr_widget_state (self w) = "end" ->
  asking 1 (step Button1 w) /\ handler_calls h_next_problem [Button1] w = 0%nat.
Proof.
  intros Hr Hc. pose proof (reachable_inv w Hr) as H.
  assert (E : dispatch Button1 w = start_game w).
  { unfold dispatch. rewrite (inv_bindings w H).
    destruct Hc as [-> | ->];
      [rewrite binding_for_initial | rewrite binding_for_end]; reflexivity. }
  destruct (start_game_run w) as [t Ht];
    [rewrite (inv_problems w H); lia | apply inv_range, H | apply H | apply H |].
  split.
  - split; [apply (inv_step w Button1 H)|].
    unfold step. rewrite E, Ht. repeat split.
  - cbn [handler_calls]. rewrite (inv_bindings w H).
    destruct Hc as [-> | ->];
      [rewrite binding_for_initial | rewrite binding_for_end]; reflexivity.
Qed.

(** C7 as the specification has it fails twice.  With a clock that is
    set back during the session, five answered problems bring
    [_num_displayed] to 5 after four calls of [next_problem]; the next
    click makes the fifth call, which already goes to End, after which no
    event reaches [next_problem]; and the [seconds_elapsed] it computes is
    negative. *)
Lemma fifth_call_ends_negative :
  let w0 := fst (__init__ tk_up clock_set_back sample_dice ∅ sample_ambient) in
  let events :=
    app (session_events ["1"; "1"; "1"; "1"]) [KeyPress OtherKey "1"; KeyPress Return ""] in
  let w6 := step Button1 (run events w0) in
  handler_calls h_next_problem events w0 = 4%nat
  /\ _num_displayed (self (run events w0)) = Some 5
  /\ binding_for Button1 (bindings (self (run events w0))) = Some h_next_problem
  /\ curr_widget_state (self w6) = "end"
  /\ (forall ev, binding_for ev (bindings (self w6)) <> Some h_next_problem)
  /\ seconds_elapsed (self w6) = Some (S754_finite true 5629499534213120 (-50))
  /\ PyFloat.str (S754_finite true 5629499534213120 (-50)) = "-5.0"
  /\ PyFloat.nonneg (S754_finite true 5629499534213120 (-50)) = false.
Proof.
  cbv zeta.
  split; [vm_compute; reflexivity|]. split; [vm_compute; reflexivity|].
  split; [vm_compute; reflexivity|]. split; [vm_compute; reflexivity|].
  split; [|split; [vm_compute; reflexivity | split; [vm_compute|]; reflexivity]].
  intros ev.
  assert (Hb : bindings (self (step Button1
                 (run (app (session_events ["1"; "1"; "1"; "1"])
                         [KeyPress OtherKey "1"; KeyPress Return ""])
                    (fst (__init__ tk_up clock_set_back sample_dice ∅ sample_ambient)))))
               = bindings_of "end") by (vm_compute; reflexivity).
  rewrite Hb, binding_for_end. destruct ev as [|[] ?]; discriminate.
Qed.

(** ** When a template is not resolved *)

Lemma lookup_candidate_none (attrs scope : gmap string string) (c : string) :
  Template.lookup_candidate attrs scope c = None
  <-> attrs !! c = None /\ scope !! c = None.
Proof.
  unfold Template.lookup_candidate. destruct (attrs !! c) as [v|].
  - split; [discriminate | intros [H _]; discriminate H].
  - split; [intros H; split; [reflexivity | exact H] | intros [_ H]; exact H].
Qed.

Lemma dict_set_elem (k v : string) (d : list (string * string)) (kv : string * string) :
  kv ∈ Template.dict_set k v d -> kv = (k, v) \/ kv ∈ d.
Proof.
  induction d as [|[k' v'] d IH]; cbn [Template.dict_set].
  - intros [->|H]%elem_of_cons; [left; reflexivity | right; exact H].
  - destruct (String.eqb k k').
    + intros [->|H]%elem_of_cons; [left; reflexivity | right; right; exact H].
    + intros [->|H]%elem_of_cons; [right; left|].
      destruct (IH H) as [->|Hin]; [left; reflexivity | right; right; exact Hin].
Qed.

(** What the first loop has collected are entries of candidates. *)
Lemma collect_entries (attrs scope : gmap string string) (candidates : list string) :
  forall (acc reps : list (string * string)) (kv : string * string),
    Template.collect attrs scope candidates acc = Ok reps ->
    kv ∈ reps ->
    kv ∈ acc
    \/ (kv.1 ∈ candidates /\ Template.lookup_candidate attrs scope kv.1 = Some kv.2).
Proof.
  induction candidates as [|c cs IH]; intros acc reps kv; cbn [Template.collect].
  - intros [= <-] H. left. exact H.
  - destruct (Template.lookup_candidate attrs scope c) as [v|] eqn:Hc; [|discriminate].
    intros Hr Hin. destruct (IH _ _ _ Hr Hin) as [Hacc|[Hcs Hl]].
    + apply dict_set_elem in Hacc as [->|Hacc]; [|left; exact Hacc].
      right. split; [left | exact Hc].
    + right. split; [right; exact Hcs | exact Hl].
Qed.

(** C3, as the code has it.  [_get_formatted] raises its
    bad-format-key [RuntimeError] exactly when the template holds a token
    that has an entry neither in [vars(self)] nor in
    [dict(globals(), **locals())].  For a template whose tokens hold no
    character that [re] reads as an operator, it raises nothing else but
    what [re.sub] raises, [re.error] or [IndexError], on the text of an
    entry that holds a backslash; and it returns the text when every
    token has an entry whose text holds no backslash. *)
Theorem bad_format_key_iff (attrs scope : gmap string string) (template : string) :
  ((exists c, Template._get_formatted attrs scope template = Raise (BadFormatKey c))
   <-> (exists c, c ∈ Template.findall template
                  /\ attrs !! c = None /\ scope !! c = None))
  /\ (Forall (fun c => Template.literal_name c = true) (Template.findall template) ->
      forall e, Template._get_formatted attrs scope template = Raise e ->
        (exists c, e = BadFormatKey c /\ c ∈ Template.findall template
                   /\ attrs !! c = None /\ scope !! c = None)
        \/ ((e = ReError \/ e = IndexError)
            /\ exists c v, c ∈ Template.findall template
                           /\ Template.lookup_candidate attrs scope c = Some v
                           /\ Template.plain v = false))
  /\ (Forall (fun c => Template.literal_name c = true
                       /\ exists v, Template.lookup_candidate attrs scope c = Some v
                                    /\ Template.plain v = true)
        (Template.findall template) ->
      exists t, Template._get_formatted attrs scope template = Ok t).
Proof.
  split; [split|split].
  - intros [c Hc]. unfold Template._get_formatted in Hc.
    destruct (Template.collect attrs scope (Template.findall template) [])
      as [reps|e] eqn:E.
    + apply substitute_raises in Hc as [[Hc|Hc] _]; discriminate.
    + injection Hc as ->.
      destruct (collect_raises attrs scope _ _ _ E) as (c' & _ & Hin & Hnone).
      exists c'. split; [exact Hin|]. apply lookup_candidate_none, Hnone.
  - intros (c & Hin & Hnone). apply lookup_candidate_none in Hnone.
    destruct (collect_missing attrs scope _ [] c Hin Hnone) as [c' Hc'].
    exists c'. unfold Template._get_formatted. rewrite Hc'. reflexivity.
  - intros _ e He. unfold Template._get_formatted in He.
    destruct (Template.collect attrs scope (Template.findall template) [])
      as [reps|e'] eqn:E.
    + right. apply substitute_raises in He as [He ([k v] & Hin & Hp)].
      split; [exact He|].
      destruct (collect_entries attrs scope _ _ _ _ E Hin) as [Hnil|[Hc Hl]].
      * apply elem_of_nil in Hnil. contradiction.
      * exists k, v. auto.
    + injection He as ->.
      destruct (collect_raises attrs scope _ _ _ E) as (c' & -> & Hin & Hnone).
      left. exists c'. split; [reflexivity|]. split; [exact Hin|].
      apply lookup_candidate_none, Hnone.
  - intros H. apply get_formatted_ok.
    eapply Forall_impl; [exact H|]. intros c [_ Hc]. exact Hc.
Qed.

Lemma bad_format_key_iff_witness :
  exists t, Template._get_formatted {[ "num_problems" := "5" ]} ∅
              "[num_problems] Challenges." = Ok t.
Proof.
  apply (proj2 (proj2 (bad_format_key_iff {[ "num_problems" := "5" ]} ∅
                         "[num_problems] Challenges."))).
  assert (E : Template.findall "[num_problems] Challenges." = ["num_problems"])
    by (vm_compute; reflexivity).
  rewrite E. apply Forall_cons. split; [|constructor].
  split; [reflexivity|]. exists "5". split; vm_compute; reflexivity.
Defined.

(** C3 as the specification has it fails: a token that has no entry
    among the attributes of the widget is still resolved when the scope
    of the function knows the name, as it knows its own loop variable. *)
Lemma ambient_name_resolves :
  "candidate" ∈ Template.findall "[candidate]"
  /\ vars_text sample_world !! "candidate" = None
  /\ snd (_get_formatted "[candidate]" sample_world) = Ok "candidate".
Proof.
  split.
  - assert (E : Template.findall "[candidate]" = ["candidate"])
      by (vm_compute; reflexivity).
    rewrite E. apply list_elem_of_here.
  - split; vm_compute; reflexivity.
Qed.

(** ** One pass of [re.sub] *)

Lemma strip_prefix_app (p s : string) : Template.strip_prefix p (p ++ s) = Some s.
Proof.
  induction p as [|c p IH]; [reflexivity|].
  change (String c p ++ s) with (String c (p ++ s)).
  cbn [Template.strip_prefix]. rewrite Ascii.eqb_refl. exact IH.
Qed.

Lemma replace_skip (name text u rest : string) (prev : option ascii) (c : ascii) :
  Template.replace_go name text (S (String.length u)) prev (u ++ String c rest)
  = Template.replace_go name text 0 (Some c) rest.
Proof.
  revert prev; induction u as [|d u IH]; intros prev; [reflexivity|].
  change (String d u ++ String c rest) with (String d (u ++ String c rest)).
  cbn [String.length Template.replace_go]. apply IH.
Qed.

(** At a match the pass writes the text and goes on behind the match:
    what it has written it does not read. *)
Lemma replace_at_match (name text rest : string) (prev : option ascii) :
  Template.not_escaped prev = true ->
  Ascii.eqb (Template.last_char "[" name) Template.backslash = false ->
  Template.replace_go name text 0 prev (String "[" (name ++ String "]" rest))
  = text ++ Template.replace_go name text 0 (Some "]"%char) rest.
Proof.
  intros Hp Hl. cbn [Template.replace_go].
  unfold Template.closes. rewrite strip_prefix_app, Hp, Hl. cbn [andb negb].
  rewrite Ascii.eqb_refl. cbn [andb].
  rewrite replace_skip. reflexivity.
Qed.

(** ** The passes of [_get_formatted] *)

Lemma dict_set_fresh (k v : string) (d : list (string * string)) :
  existsb (String.eqb k) (map fst d) = false ->
  Template.dict_set k v d = (d ++ [(k, v)])%list.
Proof.
  induction d as [|[k' v'] d IH]; [reflexivity|].
  cbn [map fst existsb Template.dict_set]. intros [Hk Hd]%orb_false_elim.
  rewrite Hk, (IH Hd). reflexivity.
Qed.

Lemma dict_set_same (k v : string) (d : list (string * string)) :
  existsb (String.eqb k) (map fst d) = true ->
  (forall k' v', (k', v') ∈ d -> k' = k -> v' = v) ->
  Template.dict_set k v d = d.
Proof.
  induction d as [|[k' v'] d IH]; [discriminate|].
  cbn [map fst existsb Template.dict_set]. intros Hk Hv.
  destruct (String.eqb_spec k k') as [<-|Hne].
  - rewrite (Hv k v') by (left || reflexivity). reflexivity.
  - cbn [orb] in Hk. rewrite IH; [reflexivity | exact Hk |].
    intros k'' v'' Hin. apply Hv. right. exact Hin.
Qed.

Lemma collect_passes (attrs scope : gmap string string) (candidates : list string)
    (acc : list (string * string)) :
  Forall (fun c => is_Some (Template.lookup_candidate attrs scope c)) candidates ->
  (forall k v, (k, v) ∈ acc -> Template.lookup_candidate attrs scope k = Some v) ->
  Template.collect attrs scope candidates acc
  = Ok (acc ++ map (fun c => (c, default "" (Template.lookup_candidate attrs scope c)))
                 (first_occurrences (map fst acc) candidates))%list.
Proof.
  intros H; revert acc. induction H as [|c cs [v Hv] Hcs IH]; intros acc Hacc.
  - cbn. rewrite app_nil_r. reflexivity.
  - cbn [Template.collect first_occurrences]. rewrite Hv.
    destruct (existsb (String.eqb c) (map fst acc)) eqn:E.
    + rewrite dict_set_same; [apply IH, Hacc | exact E |].
      intros k' v' Hin ->. apply Hacc in Hin. congruence.
    + rewrite dict_set_fresh by exact E. rewrite IH.
      * rewrite map_app. cbn [map fst]. rewrite <- app_assoc. cbn [app List.map].
        rewrite Hv. reflexivity.
      * intros k' v' [Hin|Hin]%elem_of_app; [apply Hacc, Hin|].
        apply list_elem_of_singleton in Hin. injection Hin as -> ->. exact Hv.
Qed.

(** With an entry for every token, [_get_formatted] is the passes run
    one after the other. *)
Lemma get_formatted_passes (attrs scope : gmap string string) (template : string) :
  Forall (fun c => is_Some (Template.lookup_candidate attrs scope c))
    (Template.findall template) ->
  Template._get_formatted attrs scope template
  = Template.substitute (passes attrs scope template) template.
Proof.
  intros H. unfold Template._get_formatted, passes.
  rewrite (collect_passes attrs scope _ [] H); [reflexivity|].
  intros k v Hin. apply elem_of_nil in Hin. contradiction.
Qed.

(** ** The templates of the table are resolved as by a single pass *)

Lemma inert_cons (c : ascii) (s : string) :
  inert (String c s)
  = negb (Ascii.eqb c "[") && negb (Ascii.eqb c Template.backslash) && inert s.
Proof. reflexivity. Qed.

Lemma inert_plain (s : string) : inert s = true -> Template.plain s = true.
Proof.
  induction s as [|c s IH]; [reflexivity|].
  rewrite inert_cons, plain_cons. intros [[_ Hb]%andb_prop Hs]%andb_prop.
  rewrite Hb, (IH Hs). reflexivity.
Qed.

Lemma inert_uint (d : Decimal.uint) : inert (NilEmpty.string_of_uint d) = true.
Proof. induction d; cbn [NilEmpty.string_of_uint]; try rewrite inert_cons, IHd; reflexivity. Qed.

Lemma inert_str_int (z : Z) : inert (PyStr.str_int z) = true.
Proof.
  unfold PyStr.str_int.
  destruct (Z.to_int z) as [d|d]; cbn [NilZero.string_of_int]; try rewrite inert_cons;
    (destruct d; try reflexivity; apply (inert_uint (_ d))).
Qed.

Lemma inert_str_option_int (o : option Z) : inert (str_option PyStr.str_int o) = true.
Proof. destruct o; [apply inert_str_int | reflexivity]. Qed.

(** A pass copies a text without opening bracket as it is. *)
Lemma replace_inert_prefix (name text u r : string) (prev : option ascii) :
  inert u = true ->
  Template.replace_go name text 0 prev (u ++ r)
  = u ++ Template.replace_go name text 0 (prev_after prev u) r.
Proof.
  revert prev; induction u as [|c u IH]; intros prev; [reflexivity|].
  rewrite inert_cons. intros [[Hc _]%andb_prop Hu]%andb_prop.
  change (String c u ++ r) with (String c (u ++ r)).
  cbn [Template.replace_go prev_after].
  apply negb_true_iff in Hc. rewrite Hc. cbn [andb]. rewrite (IH _ Hu). reflexivity.
Qed.

Lemma format_problem (attrs scope : gmap string string) (v1 v2 v3 : string) :
  Template.lookup_candidate attrs scope "first_num" = Some v1 ->
  Template.lookup_candidate attrs scope "second_num" = Some v2 ->
  Template.lookup_candidate attrs scope "_user_input_buffer" = Some v3 ->
  inert v1 = true -> inert v2 = true -> Template.plain v3 = true ->
  Template._get_formatted attrs scope (message_of "problem")
  = Ok (single_pass attrs scope (message_of "problem")).
Proof.
  intros H1 H2 H3 I1 I2 P3.
  assert (Hf : Template.findall (message_of "problem")
               = ["first_num"; "second_num"; "_user_input_buffer"])
    by (vm_compute; reflexivity).
  assert (Ho : first_occurrences [] ["first_num"; "second_num"; "_user_input_buffer"]
               = ["first_num"; "second_num"; "_user_input_buffer"])
    by (vm_compute; reflexivity).
  rewrite get_formatted_passes
    by (rewrite Hf; repeat (apply Forall_cons; split; [eauto|]); constructor).
  unfold passes. rewrite Hf, Ho. cbn [map]. rewrite H1, H2, H3. cbn [default from_option id].
  cbn [Template.substitute].
  rewrite sub_plain by (apply inert_plain, I1).
  assert (E1 : Template.replace_go "first_num" v1 0 None (message_of "problem")
               = v1 ++ (" X [second_num]" ++ nl ++ "[_user_input_buffer]"))
    by (vm_compute; reflexivity).
  rewrite E1. clear E1.
  rewrite sub_plain by (apply inert_plain, I2).
  rewrite replace_inert_prefix by exact I1.
  assert (E2 : forall P,
             Template.replace_go "second_num" v2 0 P
               (" X [second_num]" ++ nl ++ "[_user_input_buffer]")
             = " X " ++ (v2 ++ (nl ++ "[_user_input_buffer]")))
    by (intros P; vm_compute; reflexivity).
  rewrite E2. clear E2.
  rewrite sub_plain by exact P3.
  rewrite replace_inert_prefix by exact I1.
  rewrite (replace_inert_prefix _ _ " X ") by reflexivity.
  rewrite replace_inert_prefix by exact I2.
  assert (E3 : forall P,
             Template.replace_go "_user_input_buffer" v3 0 P (nl ++ "[_user_input_buffer]")
             = nl ++ (v3 ++ ""))
    by (intros P; vm_compute; reflexivity).
  rewrite E3. clear E3.
  f_equal. unfold single_pass.
  generalize dependent (Template.lookup_candidate attrs scope). intros lk H1 H2 H3.
  vm_compute. vm_compute in H1, H2, H3.
  rewrite H1. cbv iota beta. rewrite H2. cbv iota beta. rewrite H3. reflexivity.
Qed.

Lemma format_end (attrs scope : gmap string string) (v1 v2 v3 : string) :
  Template.lookup_candidate attrs scope "num_solved" = Some v1 ->
  Template.lookup_candidate attrs scope "num_problems" = Some v2 ->
  Template.lookup_candidate attrs scope "seconds_elapsed" = Some v3 ->
  inert v1 = true -> inert v2 = true -> Template.plain v3 = true ->
  Template._get_formatted attrs scope (message_of "end")
  = Ok (single_pass attrs scope (message_of "end")).
Proof.
  intros H1 H2 H3 I1 I2 P3.
  assert (Hf : Template.findall (message_of "end")
               = ["num_solved"; "num_problems"; "seconds_elapsed"])
    by (vm_compute; reflexivity).
  assert (Ho : first_occurrences [] ["num_solved"; "num_problems"; "seconds_elapsed"]
               = ["num_solved"; "num_problems"; "seconds_elapsed"])
    by (vm_compute; reflexivity).
  rewrite get_formatted_passes
    by (rewrite Hf; repeat (apply Forall_cons; split; [eauto|]); constructor).
  unfold passes. rewrite Hf, Ho. cbn [map]. rewrite H1, H2, H3. cbn [default from_option id].
  cbn [Template.substitute].
  rewrite sub_plain by (apply inert_plain, I1).
  assert (E1 : Template.replace_go "num_solved" v1 0 None (message_of "end")
               = "You solved "
                 ++ (v1 ++ (" out of [num_problems] in [seconds_elapsed] seconds!"
                            ++ nl ++ "Click to play again!")))
    by (vm_compute; reflexivity).
  rewrite E1. clear E1.
  rewrite sub_plain by (apply inert_plain, I2).
  rewrite (replace_inert_prefix _ _ "You solved ") by reflexivity.
  rewrite replace_inert_prefix by exact I1.
  assert (E2 : forall P,
             Template.replace_go "num_problems" v2 0 P
               (" out of [num_problems] in [seconds_elapsed] seconds!"
                ++ nl ++ "Click to play again!")
             = " out of "
               ++ (v2 ++ (" in [seconds_elapsed] seconds!" ++ nl ++ "Click to play again!")))
    by (intros P; vm_compute; reflexivity).
  rewrite E2. clear E2.
  rewrite sub_plain by exact P3.
  rewrite (replace_inert_prefix _ _ "You solved ") by reflexivity.
  rewrite replace_inert_prefix by exact I1.
  rewrite (replace_inert_prefix _ _ " out of ") by reflexivity.
  rewrite replace_inert_prefix by exact I2.
  assert (E3 : forall P,
             Template.replace_go "seconds_elapsed" v3 0 P
               (" in [seconds_elapsed] seconds!" ++ nl ++ "Click to play again!")
             = " in " ++ (v3 ++ (" seconds!" ++ nl ++ "Click to play again!")))
    by (intros P; vm_compute; reflexivity).
  rewrite E3. clear E3.
  f_equal. unfold single_pass.
  generalize dependent (Template.lookup_candidate attrs scope). intros lk H1 H2 H3.
  vm_compute. vm_compute in H1, H2, H3.
  rewrite H1. cbv iota beta. rewrite H2. cbv iota beta. rewrite H3. reflexivity.
Qed.

Lemma format_initial (attrs scope : gmap string string) (v1 : string) :
  Template.lookup_candidate attrs scope "num_problems" = Some v1 ->
  Template.plain v1 = true ->
  Template._get_formatted attrs scope (message_of "initial")
  = Ok (single_pass attrs scope (message_of "initial")).
Proof.
  intros H1 P1.
  assert (Hf : Template.findall (message_of "initial") = ["num_problems"])
    by (vm_compute; reflexivity).
  rewrite get_formatted_passes
    by (rewrite Hf; repeat (apply Forall_cons; split; [eauto|]); constructor).
  unfold passes. rewrite Hf. cbn [first_occurrences existsb map]. rewrite H1.
  cbn [default from_option id Template.substitute].
  rewrite sub_plain by exact P1.
  f_equal. unfold single_pass.
  generalize dependent (Template.lookup_candidate attrs scope). intros lk H1.
  vm_compute. vm_compute in H1. rewrite H1. reflexivity.
Qed.

Lemma format_judged (attrs scope : gmap string string) (name : string) :
  name = "correct" \/ name = "incorrect" ->
  Template._get_formatted attrs scope (message_of name)
  = Ok (single_pass attrs scope (message_of name)).
Proof.
  intros [-> | ->].
  - assert (Hf : Template.findall (message_of "correct") = []) by (vm_compute; reflexivity).
    unfold Template._get_formatted. rewrite Hf. cbn [Template.collect Template.substitute].
    f_equal; unfold single_pass;
      generalize (Template.lookup_candidate attrs scope); intros lk;
      vm_compute; reflexivity.
  - assert (Hf : Template.findall (message_of "incorrect") = []) by (vm_compute; reflexivity).
    unfold Template._get_formatted. rewrite Hf. cbn [Template.collect Template.substitute].
    f_equal; unfold single_pass;
      generalize (Template.lookup_candidate attrs scope); intros lk;
      vm_compute; reflexivity.
Qed.

(** In a world whose buffer holds numeric characters only, every
    template of the table is resolved to what a single pass gives. *)
Lemma table_single_pass (name : string) (st : MultiplicationWidgetState) (w : world) :
  assoc name widget_states = Some st ->
  numeric_buffer w ->
  Template._get_formatted (vars_text w) (ambient w (message st)) (message st)
  = Ok (single_pass (vars_text w) (ambient w (message st)) (message st)).
Proof.
  intros Hst Hnum.
  assert (Hm : message st = message_of name) by (unfold message_of; rewrite Hst; reflexivity).
  rewrite Hm. generalize (ambient w (message_of name)). intros scope.
  destruct (fields_lookup
              (PyStr.str_int (num_problems (self w)))
              (str_option PyFloat.str (seconds_elapsed (self w)))
              (str_option PyStr.str_int (num_solved (self w)))
              (str_option PyStr.str_int (_num_displayed (self w)))
              (str_option PyStr.str_int (first_num (self w)))
              (str_option PyStr.str_int (second_num (self w)))
              (str_option PyFloat.str (_start_time (self w)))
              (str_option PyFloat.str (_end_time (self w)))
              (str_option id (_user_input_buffer (self w)))
              (PyStr.str_int (_min_factor (self w)))
              (PyStr.str_int (_max_factor (self w)))
              (curr_widget_state (self w)) (tk_attrs w))
    as (H1 & H2 & H3 & H5 & H6 & H9).
  fold (vars_text w) in H1, H2, H3, H5, H6, H9.
  assert (L : forall k v, vars_text w !! k = Some v ->
                          Template.lookup_candidate (vars_text w) scope k = Some v).
  { intros k v Hk. unfold Template.lookup_candidate. rewrite Hk. reflexivity. }
  assert (Hb : Template.plain (str_option id (_user_input_buffer (self w))) = true).
  { pose proof (buffer_plain_numeric w Hnum) as Hp. unfold buffer_plain in Hp.
    destruct (_user_input_buffer (self w)); [exact Hp | reflexivity]. }
  apply assoc_widget_states in Hst as [Hn _]. unfold state_names in Hn.
  repeat (apply elem_of_cons in Hn as [->|Hn]);
    [..|apply elem_of_nil in Hn; contradiction].
  - eapply format_initial; [apply L, H1 | apply plain_str_int].
  - eapply format_problem; [apply L, H5 | apply L, H6 | apply L, H9 | | | exact Hb];
      apply inert_str_option_int.
  - apply format_judged. left. reflexivity.
  - apply format_judged. right. reflexivity.
  - eapply format_end; [apply L, H3 | apply L, H1 | apply L, H2 | | | ].
    + apply inert_str_option_int.
    + apply inert_str_int.
    + apply plain_str_option, plain_float_str.
Qed.

(** C4 as the specification has it fails: the text a pass puts in is
    read by the passes after it.  Where the value of [a] is the token of
    [b], the pass for [b] replaces it too; and in the widget itself the
    local [template], put in for its own token, has its tokens replaced by
    the pass that follows. *)
Lemma inserted_token_replaced :
  Template._get_formatted {[ "a" := "[b]"; "b" := "x" ]} ∅ "[a] [b]" = Ok "x x"
  /\ single_pass {[ "a" := "[b]"; "b" := "x" ]} ∅ "[a] [b]" = "[b] x"
  /\ snd (_get_formatted "[template] [num_problems]" sample_world)
     = Ok "[template] 5 5"
  /\ single_pass (vars_text sample_world)
       (ambient sample_world "[template] [num_problems]") "[template] [num_problems]"
     = "[template] [num_problems] 5".
Proof. repeat split; vm_compute; reflexivity. Qed.

(** The sample scope at work: the locals resolve to their text, and
    so do the globals of the module. *)
Example scope_names_resolve :
  snd (_get_formatted "[template][self][candidate]" sample_world)
  = Ok "[template].candidate.candidate"
  /\ snd (_get_formatted "[replacement_candidates] [template]" sample_world)
     = Ok "['replacement_candidates', 'template'] [replacement_candidates] [template]"
  /\ snd (_get_formatted "[match_str]" sample_world) = Ok "(?<!\)\[(.+?)(?<!\)\]"
  /\ snd (_get_formatted "[__name__] [List]" sample_world) = Ok "__main__ typing.List".
Proof. repeat split; vm_compute; reflexivity. Qed.

(** The tokens of the five templates of the state table are literal
    names. *)
Example table_names_literal :
  forallb (fun st => forallb Template.literal_name (Template.findall (message st.2)))
    widget_states = true.
Proof. vm_compute. reflexivity. Qed.

(** * Further properties of the code *)

(** ** Drawing the factors *)

Lemma gen_factors_empty_range (w : world) :
  _max_factor (self w) < _min_factor (self w) ->
  _gen_factors w = (w, Raise ValueError).
Proof.
  intros H. unfold _gen_factors.
  rewrite (bind_ok _ _ w w (_min_factor (self w))) by reflexivity.
  rewrite (bind_ok _ _ w w (_max_factor (self w))) by reflexivity.
  erewrite bind_raise; [reflexivity|].
  unfold randint. rewrite (proj2 (Z.ltb_lt _ _) H). reflexivity.
Qed.

(** X1. [_gen_factors] with limits in order draws twice from the random
    source and sets both factors within the limits, touching no other
    attribute; with the limits out of order it raises [ValueError] at the
    first draw and leaves the world as it was. *)
Theorem gen_factors_within_limits (w : world) :
  (_min_factor (self w) <= _max_factor (self w) ->
   exists a b,
     _gen_factors w
     = (with_self (fun s => set_second_num (Some b) (set_first_num (Some a) s))
          (roll (roll w)), Ok tt)
     /\ _min_factor (self w) <= a <= _max_factor (self w)
     /\ _min_factor (self w) <= b <= _max_factor (self w))
  /\ (_max_factor (self w) < _min_factor (self w) ->
      _gen_factors w = (w, Raise ValueError)).
Proof.
  split; [|apply gen_factors_empty_range].
  intros H. eexists _, _. rewrite (gen_factors_run w H).
  split; [reflexivity|]. split; [apply drawn_in_range, H|].
  apply (drawn_in_range _ _ (roll w)), H.
Qed.

Lemma gen_factors_within_limits_witness :
  exists a b,
    _gen_factors sample_world
    = (with_self (fun s => set_second_num (Some b) (set_first_num (Some a) s))
         (roll (roll sample_world)), Ok tt)
    /\ _min_factor (self sample_world) <= a <= _max_factor (self sample_world)
    /\ _min_factor (self sample_world) <= b <= _max_factor (self sample_world).
Proof.
  apply (proj1 (gen_factors_within_limits sample_world)).
  vm_compute. discriminate.
Defined.


(** ** The text of the label *)

Lemma string_app_nil_r (s : string) : s ++ "" = s.
Proof.
  induction s as [|c s IH]; [reflexivity|].
  change (String c s ++ "") with (String c (s ++ "")). rewrite IH. reflexivity.
Qed.

Lemma string_app_assoc (a b c : string) : (a ++ b) ++ c = a ++ (b ++ c).
Proof.
  induction a as [|x a IH]; [reflexivity|].
  change ((String x a ++ b) ++ c) with (String x ((a ++ b) ++ c)).
  rewrite IH. reflexivity.
Qed.

Lemma single_pass_table (name : string) (w : world) (scope : gmap string string) :
  name ∈ state_names ->
  single_pass (vars_text w) scope (message_of name) = display_text name (self w).
Proof.
  intros Hn.
  destruct (fields_lookup
              (PyStr.str_int (num_problems (self w)))
              (str_option PyFloat.str (seconds_elapsed (self w)))
              (str_option PyStr.str_int (num_solved (self w)))
              (str_option PyStr.str_int (_num_displayed (self w)))
              (str_option PyStr.str_int (first_num (self w)))
              (str_option PyStr.str_int (second_num (self w)))
              (str_option PyFloat.str (_start_time (self w)))
              (str_option PyFloat.str (_end_time (self w)))
              (str_option id (_user_input_buffer (self w)))
              (PyStr.str_int (_min_factor (self w)))
              (PyStr.str_int (_max_factor (self w)))
              (curr_widget_state (self w)) (tk_attrs w))
    as (H1 & H2 & H3 & H5 & H6 & H9).
  fold (vars_text w) in H1, H2, H3, H5, H6, H9.
  assert (L : forall c v, vars_text w !! c = Some v ->
                          Template.lookup_candidate (vars_text w) scope c = Some v).
  { intros c v Hc. unfold Template.lookup_candidate. rewrite Hc. reflexivity. }
  apply L in H1, H2, H3, H5, H6, H9. clear L.
  unfold single_pass.
  generalize dependent (Template.lookup_candidate (vars_text w) scope).
  intros lk H1 H2 H3 H5 H6 H9.
  unfold state_names in Hn.
  repeat (apply elem_of_cons in Hn as [->|Hn]);
    [..|apply elem_of_nil in Hn; contradiction];
    cbv [display_text]; cbn [String.eqb Ascii.eqb Bool.eqb];
    generalize dependent (PyStr.str_int (num_problems (self w))); intros v1 H1;
    generalize dependent (str_option PyFloat.str (seconds_elapsed (self w))); intros v2 H2;
    generalize dependent (str_option PyStr.str_int (num_solved (self w))); intros v3 H3;
    generalize dependent (str_option PyStr.str_int (first_num (self w))); intros v5 H5;
    generalize dependent (str_option PyStr.str_int (second_num (self w))); intros v6 H6;
    generalize dependent (str_option id (_user_input_buffer (self w))); intros v9 H9;
    vm_compute in H1, H2, H3, H5, H6, H9.
  - vm_compute. rewrite H1. reflexivity.
  - assert (E : v9 = v9 ++ "") by (symmetry; apply string_app_nil_r).
    rewrite E at 1. clear E.
    vm_compute. rewrite H5. cbv iota beta. rewrite H6. cbv iota beta. rewrite H9.
    reflexivity.
  - vm_compute. reflexivity.
  - vm_compute. reflexivity.
  - vm_compute. rewrite H3. cbv iota beta. rewrite H1. cbv iota beta. rewrite H2.
    reflexivity.
Qed.

Lemma message_of_table (name : string) (st : MultiplicationWidgetState) :
  assoc name widget_states = Some st -> message st = message_of name.
Proof. intros H. unfold message_of. rewrite H. reflexivity. Qed.

(** In a world whose buffer holds numeric characters only, the template
    of a state is resolved to the text of the label for that state. *)
Lemma get_formatted_table (name : string) (w : world) :
  name ∈ state_names -> numeric_buffer w ->
  _get_formatted (message_of name) w = (w, Ok (display_text name (self w))).
Proof.
  intros Hn Hnum. destruct (in_table name Hn) as [st Hst].
  unfold _get_formatted. rewrite <- (message_of_table name st Hst).
  rewrite (table_single_pass name st w Hst Hnum).
  rewrite (message_of_table name st Hst).
  rewrite single_pass_table by exact Hn. reflexivity.
Qed.

(** ** The methods, with the text they show *)

Lemma set_widget_state_shows (name : string) (st old : MultiplicationWidgetState)
    (w : world) :
  assoc name widget_states = Some st ->
  assoc (curr_widget_state (self w)) widget_states = Some old ->
  numeric_buffer w ->
  set_widget_state name w
  = (with_self
       (fun s =>
          set_curr_widget_state name
            (set_text (display_text name s)
               (set_bindings
                  (bind_map (event_routings st)
                     (unbind_map (event_routings old) (bindings s))) s)))
       w, Ok tt).
Proof.
  intros Hst Hold Hnum.
  assert (Hn : name ∈ state_names) by (eapply assoc_widget_states; eassumption).
  set (w2 := with_self
               (fun s => set_bindings
                           (bind_map (event_routings st)
                              (unbind_map (event_routings old) (bindings s))) s) w).
  unfold set_widget_state, state_of.
  rewrite Hst. unfold bind at 1. unfold ret at 1.
  unfold bind at 1. unfold get at 1.
  rewrite Hold. unfold bind at 1. unfold ret at 1.
  unfold bind at 1. rewrite unbind_routings_run.
  unfold bind at 1. rewrite bind_routings_run by (eapply table_resolvable; eassumption).
  unfold bind at 1.
  change (with_self _ (with_self _ w)) with w2.
  rewrite (message_of_table name st Hst).
  rewrite (get_formatted_table name w2 Hn) by exact Hnum.
  reflexivity.
Qed.

Lemma transition_shows (name : string) (w : world) :
  name ∈ state_names ->
  curr_widget_state (self w) ∈ state_names ->
  bindings (self w) = bindings_of (curr_widget_state (self w)) ->
  numeric_buffer w ->
  set_widget_state name w = (transitioned name (display_text name (self w)) w, Ok tt).
Proof.
  intros Hn Hc Hb Hnum.
  destruct (in_table name Hn) as [st Hst]. destruct (in_table _ Hc) as [old Hold].
  destruct (rebind_table name _ st old Hst Hold) as [Hu Hm].
  rewrite (set_widget_state_shows name st old w Hst Hold Hnum).
  unfold transitioned, with_self. rewrite Hb, Hu, Hm. reflexivity.
Qed.

Lemma init_shows (tk : tk_call -> result unit) (clock : nat -> spec_float)
    (dice : nat -> Z) (tk_attrs : gmap string string)
    (ambient : string -> gmap string string) :
  (forall c, tk c = Ok tt) ->
  __init__ tk clock dice tk_attrs ambient
  = (transitioned "initial" (display_text "initial" new_widget)
       {| self := new_widget; clock := clock; ticks := 0; dice := dice;
          rolls := 0; tk_attrs := tk_attrs; ambient := ambient |},
     Ok tt).
Proof.
  intros Hup. rewrite (init_up tk clock dice tk_attrs ambient Hup).
  destruct (in_table "initial") as [st Hst]; [unfold state_names; repeat constructor|].
  rewrite (set_widget_state_shows "initial" st st) by (exact Hst || exact I).
  assert (Hb : bind_map (event_routings st) (unbind_map (event_routings st) ∅)
               = bindings_of "initial").
  { vm_compute in Hst. injection Hst as <-. vm_compute. reflexivity. }
  unfold transitioned, with_self. cbn [self bindings new_widget]. rewrite Hb. reflexivity.
Qed.

Lemma refresh_text_shows (w : world) :
  curr_widget_state (self w) ∈ state_names ->
  numeric_buffer w ->
  refresh_text w
  = (with_self (set_text (display_text (curr_widget_state (self w)) (self w))) w, Ok tt).
Proof.
  intros Hc Hnum. destruct (in_table _ Hc) as [st Hst].
  unfold refresh_text.
  erewrite bind_ok by reflexivity.
  unfold state_of. rewrite Hst.
  erewrite bind_ok by reflexivity.
  rewrite (message_of_table _ st Hst).
  erewrite bind_ok by (apply get_formatted_table; [exact Hc | exact Hnum]).
  reflexivity.
Qed.

Lemma display_end_shows (w : world) :
  _num_displayed (self w) = Some (num_problems (self w)) ->
  is_Some (_start_time (self w)) ->
  curr_widget_state (self w) ∈ state_names ->
  bindings (self w) = bindings_of (curr_widget_state (self w)) ->
  numeric_buffer w ->
  _display_problem w = (moved "end" (stopped w), Ok tt).
Proof.
  intros Hd [s0 Hs] Hc Hb Hnum.
  assert (E : stopped w
              = with_self
                  (fun s =>
                     set_seconds_elapsed
                       (Some (PyFloat.round1 (PyFloat.sub (clock w (ticks w)) s0)))
                       (set_end_time (Some (clock w (ticks w))) s))
                  (tick w)).
  { unfold stopped, with_self, tick. cbn [self]. rewrite Hs. reflexivity. }
  unfold _display_problem.
  erewrite bind_ok by reflexivity.
  erewrite bind_ok by reflexivity.
  rewrite bool_decide_eq_true_2 by exact Hd.
  erewrite bind_ok by reflexivity.
  erewrite bind_ok by reflexivity.
  erewrite bind_ok by reflexivity.
  erewrite bind_ok by reflexivity.
  erewrite bind_ok by reflexivity.
  erewrite bind_ok by (cbn; rewrite Hs; reflexivity).
  erewrite bind_ok by reflexivity.
  rewrite transition_shows;
    [ | unfold state_names; repeat constructor | exact Hc | exact Hb | exact Hnum ].
  unfold moved. rewrite E. reflexivity.
Qed.

Lemma display_next_shows (w : world) (k : Z) :
  _num_displayed (self w) = Some k ->
  k <> num_problems (self w) ->
  _min_factor (self w) <= _max_factor (self w) ->
  curr_widget_state (self w) ∈ state_names ->
  bindings (self w) = bindings_of (curr_widget_state (self w)) ->
  numeric_buffer w ->
  _display_problem w
  = (with_self (set_num_displayed (Some (k + 1))) (moved "problem" (with_factors w)), Ok tt).
Proof.
  intros Hd Hk Hr Hc Hb Hnum.
  unfold _display_problem.
  erewrite bind_ok by reflexivity.
  erewrite bind_ok by reflexivity.
  rewrite bool_decide_eq_false_2 by (rewrite Hd; congruence).
  erewrite bind_ok by (apply gen_factors_run; exact Hr).
  erewrite bind_ok
    by (apply transition_shows;
        [unfold state_names; repeat constructor | exact Hc | exact Hb | exact Hnum]).
  erewrite bind_ok by reflexivity.
  erewrite bind_ok by (cbn; rewrite Hd; reflexivity).
  reflexivity.
Qed.

Lemma start_game_shows (w : world) :
  num_problems (self w) <> 0 ->
  _min_factor (self w) <= _max_factor (self w) ->
  curr_widget_state (self w) ∈ state_names ->
  bindings (self w) = bindings_of (curr_widget_state (self w)) ->
  start_game w
  = (with_self (set_num_displayed (Some 1)) (moved "problem" (with_factors (started w))),
     Ok tt).
Proof.
  intros Hn Hr Hc Hb.
  unfold start_game, _init_vars.
  erewrite bind_ok by reflexivity.
  erewrite bind_ok by reflexivity.
  erewrite bind_ok by reflexivity.
  apply (display_next_shows (started w) 0);
    [reflexivity | cbn; congruence | exact Hr | exact Hc | exact Hb | exact eq_refl].
Qed.

Lemma next_problem_shows (w : world) (k : Z) :
  _num_displayed (self w) = Some k ->
  k <> num_problems (self w) ->
  _min_factor (self w) <= _max_factor (self w) ->
  curr_widget_state (self w) ∈ state_names ->
  bindings (self w) = bindings_of (curr_widget_state (self w)) ->
  next_problem w
  = (with_self (set_num_displayed (Some (k + 1)))
       (moved "problem" (with_factors (cleared w))), Ok tt).
Proof.
  intros Hd Hk Hr Hc Hb.
  unfold next_problem.
  erewrite bind_ok by (apply gen_factors_run; exact Hr).
  erewrite bind_ok by reflexivity.
  apply (display_next_shows (cleared w) k);
    [exact Hd | exact Hk | exact Hr | exact Hc | exact Hb | exact eq_refl].
Qed.

Lemma next_problem_end_shows (w : world) :
  _num_displayed (self w) = Some (num_problems (self w)) ->
  is_Some (_start_time (self w)) ->
  _min_factor (self w) <= _max_factor (self w) ->
  curr_widget_state (self w) ∈ state_names ->
  bindings (self w) = bindings_of (curr_widget_state (self w)) ->
  next_problem w = (moved "end" (stopped (cleared w)), Ok tt).
Proof.
  intros Hd Hs Hr Hc Hb.
  unfold next_problem.
  erewrite bind_ok by (apply gen_factors_run; exact Hr).
  erewrite bind_ok by reflexivity.
  apply (display_end_shows (cleared w));
    [exact Hd | exact Hs | exact Hc | exact Hb | exact eq_refl].
Qed.

Lemma on_enter_correct_shows (w : world) (buf : string) (a b n : Z) :
  _user_input_buffer (self w) = Some buf ->
  PyStr.nonempty buf = true ->
  first_num (self w) = Some a ->
  second_num (self w) = Some b ->
  PyStr.int buf = Some (a * b) ->
  num_solved (self w) = Some n ->
  curr_widget_state (self w) ∈ state_names ->
  bindings (self w) = bindings_of (curr_widget_state (self w)) ->
  numeric_buffer w ->
  on_enter w = (moved "correct" (with_self (set_num_solved (Some (n + 1))) w), Ok tt).
Proof.
  intros Hbuf Hne Ha Hb Hint Hn Hc Hbind Hnum.
  unfold on_enter.
  erewrite bind_ok by reflexivity.
  erewrite bind_ok by (rewrite Hbuf; reflexivity).
  rewrite Hne.
  erewrite bind_ok by reflexivity.
  erewrite bind_ok by reflexivity.
  erewrite bind_ok by (rewrite Ha; reflexivity).
  erewrite bind_ok by (rewrite Hb; reflexivity).
  rewrite Hint, Z.eqb_refl.
  erewrite bind_ok by reflexivity.
  erewrite bind_ok by (rewrite Hn; reflexivity).
  erewrite bind_ok by reflexivity.
  apply (transition_shows "correct" (with_self (set_num_solved (Some (n + 1))) w));
    [unfold state_names; repeat constructor | exact Hc | exact Hbind | exact Hnum].
Qed.

Lemma on_enter_incorrect_shows (w : world) (buf : string) (a b v : Z) :
  _user_input_buffer (self w) = Some buf ->
  PyStr.nonempty buf = true ->
  first_num (self w) = Some a ->
  second_num (self w) = Some b ->
  PyStr.int buf = Some v ->
  v <> a * b ->
  curr_widget_state (self w) ∈ state_names ->
  bindings (self w) = bindings_of (curr_widget_state (self w)) ->
  numeric_buffer w ->
  on_enter w = (moved "incorrect" w, Ok tt).
Proof.
  intros Hbuf Hne Ha Hb Hint Hv Hc Hbind Hnum.
  unfold on_enter.
  erewrite bind_ok by reflexivity.
  erewrite bind_ok by (rewrite Hbuf; reflexivity).
  rewrite Hne.
  erewrite bind_ok by reflexivity.
  erewrite bind_ok by reflexivity.
  erewrite bind_ok by (rewrite Ha; reflexivity).
  erewrite bind_ok by (rewrite Hb; reflexivity).
  rewrite Hint, (proj2 (Z.eqb_neq _ _) Hv).
  apply transition_shows;
    [unfold state_names; repeat constructor | exact Hc | exact Hbind | exact Hnum].
Qed.

Lemma on_keypress_shows (w : world) (char buf : string) :
  PyStr.isnumeric char = true ->
  _user_input_buffer (self w) = Some buf ->
  PyStr.forallb_string PyStr.isnumeric_char buf = true ->
  curr_widget_state (self w) ∈ state_names ->
  on_keypress char w
  = (refreshed (with_self (set_user_input_buffer (Some (buf ++ char))) w), Ok tt).
Proof.
  intros Hch Hbuf Hnum Hc.
  unfold on_keypress. rewrite Hch.
  erewrite bind_ok by reflexivity.
  erewrite bind_ok by (rewrite Hbuf; reflexivity).
  erewrite bind_ok by reflexivity.
  apply (refresh_text_shows (with_self (set_user_input_buffer (Some (buf ++ char))) w));
    [exact Hc|].
  unfold numeric_buffer. cbn.
  rewrite numeric_app, Hnum, isnumeric_all by exact Hch. reflexivity.
Qed.

Lemma on_backspace_shows (w : world) (buf : string) :
  _user_input_buffer (self w) = Some buf ->
  PyStr.forallb_string PyStr.isnumeric_char buf = true ->
  curr_widget_state (self w) ∈ state_names ->
  on_backspace w
  = (refreshed (with_self (set_user_input_buffer (Some (PyStr.drop_last buf))) w), Ok tt).
Proof.
  intros Hbuf Hnum Hc.
  unfold on_backspace.
  erewrite bind_ok by reflexivity.
  erewrite bind_ok by (rewrite Hbuf; reflexivity).
  erewrite bind_ok by reflexivity.
  apply (refresh_text_shows
           (with_self (set_user_input_buffer (Some (PyStr.drop_last buf))) w));
    [exact Hc|].
  unfold numeric_buffer. cbn. apply numeric_drop_last, Hnum.
Qed.

(** ** The event loop is the transition function *)

Lemma machine_confirm (w : world) (ev : event) :
  inv w ->
  curr_widget_state (self w) = "initial" \/ curr_widget_state (self w) = "end" ->
  dispatch ev w = machine ev w.
Proof.
  intros H Hc. pose proof (inv_range w H) as Hr.
  assert (Hs : start_game w = machine Button1 w).
  { rewrite start_game_shows;
      [ | rewrite (inv_problems w H); lia | exact Hr | apply H | apply H ].
    unfold machine. destruct Hc as [-> | ->]; reflexivity. }
  assert (Hm : forall k c, machine (KeyPress k c) w
                           = match k with Return => machine Button1 w | _ => (w, Ok tt) end).
  { intros k c. unfold machine. destruct Hc as [-> | ->]; destruct k; reflexivity. }
  unfold dispatch. rewrite (inv_bindings w H).
  assert (Hb : binding_for ev (bindings_of (curr_widget_state (self w)))
               = match ev with
                 | Button1 | KeyPress Return _ => Some h_start_game
                 | _ => None
                 end).
  { destruct Hc as [-> | ->]; [apply binding_for_initial | apply binding_for_end]. }
  rewrite Hb. destruct ev as [|[] c]; cbn [run_handler]; rewrite ?Hm; auto.
Qed.

Lemma machine_judged (w : world) (ev : event) :
  inv w ->
  curr_widget_state (self w) = "correct" \/ curr_widget_state (self w) = "incorrect" ->
  dispatch ev w = machine ev w.
Proof.
  intros H Hc. pose proof (inv_range w H) as Hr.
  assert (Hses : session w) by (apply H; destruct Hc as [-> | ->]; discriminate).
  destruct (ses_counters w Hses) as (s & d & Hsol & Hdis & H0 & Hsd & Hd5 & _).
  assert (Hn : next_problem w = machine Button1 w).
  { unfold machine.
    replace (String.eqb (curr_widget_state (self w)) "problem") with false
      by (destruct Hc as [-> | ->]; reflexivity).
    replace (String.eqb (curr_widget_state (self w)) "correct"
             || String.eqb (curr_widget_state (self w)) "incorrect") with true
      by (destruct Hc as [-> | ->]; reflexivity).
    cbn [is_confirm negb].
    destruct (Z.eq_dec d (num_problems (self w))) as [->|Hne].
    - rewrite bool_decide_eq_true_2 by exact Hdis.
      apply next_problem_end_shows;
        [exact Hdis | apply Hses | exact Hr | apply H | apply H].
    - rewrite bool_decide_eq_false_2 by (rewrite Hdis; congruence).
      rewrite Hdis. cbn [default from_option id].
      apply next_problem_shows; [exact Hdis | exact Hne | exact Hr | apply H | apply H]. }
  assert (Hm : forall k c, machine (KeyPress k c) w
                           = match k with Return => machine Button1 w | _ => (w, Ok tt) end).
  { intros k c. unfold machine.
    replace (String.eqb (curr_widget_state (self w)) "problem") with false
      by (destruct Hc as [-> | ->]; reflexivity).
    destruct k; reflexivity. }
  unfold dispatch. rewrite (inv_bindings w H).
  assert (Hb : binding_for ev (bindings_of (curr_widget_state (self w)))
               = match ev with
                 | Button1 | KeyPress Return _ => Some h_next_problem
                 | _ => None
                 end).
  { destruct Hc as [-> | ->]; [apply binding_for_correct | apply binding_for_incorrect]. }
  rewrite Hb. destruct ev as [|[] c]; cbn [run_handler]; rewrite ?Hm; auto.
Qed.

Lemma machine_problem (w : world) (ev : event) :
  inv w -> curr_widget_state (self w) = "problem" ->
  dispatch ev w = machine ev w.
Proof.
  intros H Hc. rewrite (step_in_problem w ev H Hc).
  assert (Hses : session w) by (apply H; rewrite Hc; discriminate).
  destruct (ses_counters w Hses) as (s & d & Hsol & Hdis & H0 & Hsd & Hd5 & _).
  destruct (ses_buffer w Hses) as [buf Hbuf].
  destruct (ses_first w Hses) as (a & Ha & Hra).
  destruct (ses_second w Hses) as (b & Hb & Hrb).
  pose proof (inv_numeric w H) as Hnum.
  assert (Hnb : PyStr.forallb_string PyStr.isnumeric_char buf = true).
  { unfold numeric_buffer in Hnum. rewrite Hbuf in Hnum. exact Hnum. }
  unfold machine. rewrite Hc, Hbuf, Ha, Hb, Hsol.
  change (String.eqb "problem" "problem") with true.
  cbn [default from_option id]. cbv iota.
  destruct ev as [|[] c].
  - reflexivity.
  - destruct (PyStr.nonempty buf) eqn:Hne.
    + destruct (PyStr.int buf) as [v|] eqn:Hint.
      * destruct (Z.eqb_spec v (a * b)) as [->|Hv].
        -- apply (on_enter_correct_shows w buf a b s); try assumption; apply H.
        -- apply (on_enter_incorrect_shows w buf a b v); try assumption; apply H.
      * apply (on_enter_unparsed w buf a b); assumption.
    + apply nonempty_false in Hne. subst buf. apply on_enter_empty, Hbuf.
  - apply on_backspace_shows; [exact Hbuf | exact Hnb | apply H].
  - destruct (PyStr.isnumeric c) eqn:Hch.
    + apply on_keypress_shows; [exact Hch | exact Hbuf | exact Hnb | apply H].
    + apply on_keypress_ignored, Hch.
Qed.

Lemma dispatch_machine (w : world) (ev : event) :
  inv w -> dispatch ev w = machine ev w.
Proof.
  intros H. pose proof (inv_state w H) as Hc. unfold state_names in Hc.
  repeat (apply elem_of_cons in Hc as [Hc|Hc]);
    [..|apply elem_of_nil in Hc; contradiction];
    eauto using machine_confirm, machine_judged, machine_problem.
Qed.

Lemma shown_moved (name : string) (w : world) : shown (moved name w).
Proof. reflexivity. Qed.

Lemma shown_counted (name : string) (w : world) (d : option Z) :
  shown (with_self (set_num_displayed d) (moved name w)).
Proof. reflexivity. Qed.

Lemma shown_refreshed (w : world) : shown (refreshed w).
Proof. reflexivity. Qed.

Lemma shown_machine (w : world) (ev : event) : shown w -> shown (fst (machine ev w)).
Proof.
  intros H. unfold machine.
  destruct (String.eqb (curr_widget_state (self w)) "problem").
  - destruct ev as [|[] c]; cbn [fst]; try exact H.
    + destruct (PyStr.nonempty _); [|exact H].
      destruct (PyStr.int _); [|exact H].
      destruct (_ =? _); apply shown_moved.
    + apply shown_refreshed.
    + destruct (PyStr.isnumeric c); [apply shown_refreshed | exact H].
  - destruct (negb (is_confirm ev)); [exact H|].
    destruct (_ || _).
    + destruct (bool_decide _); [apply shown_moved | apply shown_counted].
    + apply shown_counted.
Qed.

Lemma reachable_shown (w : world) : reachable w -> shown w.
Proof.
  induction 1 as [tk clock dice tk_attrs ambient w Hinit | ev w Hr IH].
  - rewrite (init_shows _ _ _ _ _ (init_calls _ _ _ _ _ _ Hinit)) in Hinit.
    injection Hinit as <-. reflexivity.
  - unfold step. rewrite dispatch_machine by (apply reachable_inv, Hr).
    apply shown_machine, IH.
Qed.

Lemma with_text_same (w : world) : with_self (set_text (text (self w))) w = w.
Proof. destruct w as [[] ? ? ? ? ? ?]. reflexivity. Qed.

Lemma refresh_text_same (w : world) : reachable w -> refresh_text w = (w, Ok tt).
Proof.
  intros Hr. pose proof (reachable_inv w Hr) as H.
  rewrite refresh_text_shows by apply H.
  rewrite <- (reachable_shown w Hr), with_text_same. reflexivity.
Qed.

Lemma edge_machine (w : world) (ev : event) :
  curr_widget_state (self w) ∈ state_names ->
  edge (curr_widget_state (self w)) (curr_widget_state (self (fst (machine ev w)))) = true.
Proof.
  intros Hc. unfold state_names in Hc. unfold machine.
  repeat (apply elem_of_cons in Hc as [Hc|Hc]);
    [..|apply elem_of_nil in Hc; contradiction]; rewrite Hc.
  all: repeat match goal with
         | |- context [if String.eqb ?a ?b then _ else _] =>
             let v := eval vm_compute in (String.eqb a b) in
             change (String.eqb a b) with v; cbv iota
         | |- context [String.eqb ?a ?b || String.eqb ?c ?d] =>
             let v := eval vm_compute in (String.eqb a b || String.eqb c d) in
             change (String.eqb a b || String.eqb c d) with v; cbv iota
         end.
  all: destruct ev as [|[] c]; cbn [is_confirm negb fst]; try (rewrite Hc; reflexivity).
  all: repeat match goal with
         | |- context [if ?b then _ else _] => destruct b
         | |- context [match ?o with Some _ => _ | None => _ end] => destruct o
         end; cbn [fst]; unfold refreshed, moved, transitioned, with_self;
         cbn [self curr_widget_state set_text set_user_input_buffer
              set_curr_widget_state set_num_displayed];
         try (rewrite Hc; reflexivity); reflexivity.
Qed.

Lemma machine_key (w : world) (k : key) (c buf : string) :
  curr_widget_state (self w) = "problem" ->
  _user_input_buffer (self w) = Some buf ->
  machine (KeyPress k c) w
  = match k with
    | Return =>
        if PyStr.nonempty buf then
          match PyStr.int buf with
          | None => (w, Raise ValueError)
          | Some v =>
              if v =? default 0 (first_num (self w)) * default 0 (second_num (self w))
              then (moved "correct"
                      (with_self
                         (set_num_solved (Some (default 0 (num_solved (self w)) + 1))) w),
                    Ok tt)
              else (moved "incorrect" w, Ok tt)
          end
        else (w, Ok tt)
    | BackSpace =>
        (refreshed (with_self (set_user_input_buffer (Some (PyStr.drop_last buf))) w), Ok tt)
    | OtherKey =>
        if PyStr.isnumeric c
        then (refreshed (with_self (set_user_input_buffer (Some (buf ++ c))) w), Ok tt)
        else (w, Ok tt)
    end.
Proof.
  intros Hc Hbuf. unfold machine. rewrite Hc, Hbuf.
  change (String.eqb "problem" "problem") with true. cbv iota.
  cbn [default from_option id]. destruct k; reflexivity.
Qed.

Lemma drop_last_app (s : string) (c : ascii) :
  PyStr.drop_last (s ++ String c "") = s.
Proof.
  induction s as [|d s IH]; [reflexivity|].
  change (String d s ++ String c "") with (String d (s ++ String c "")).
  destruct s as [|e s]; [reflexivity|].
  change (String e s ++ String c "") with (String e (s ++ String c "")) in *.
  change (PyStr.drop_last (String d (String e (s ++ String c ""))))
    with (String d (PyStr.drop_last (String e (s ++ String c "")))).
  rewrite IH. reflexivity.
Qed.

Lemma with_buffer_same (w : world) (buf typed : string) :
  _user_input_buffer (self w) = Some buf ->
  shown w ->
  refreshed
    (with_self (set_user_input_buffer (Some buf))
       (refreshed (with_self (set_user_input_buffer (Some typed)) w)))
  = w.
Proof.
  destruct w as [[] ? ? ? ? ? ?]. unfold shown. cbn. intros -> ->. reflexivity.
Qed.

Lemma problem_session (w : world) :
  inv w -> curr_widget_state (self w) = "problem" ->
  exists buf a b,
    _user_input_buffer (self w) = Some buf
    /\ PyStr.forallb_string PyStr.isnumeric_char buf = true
    /\ first_num (self w) = Some a /\ second_num (self w) = Some b
    /\ 0 <= a <= 10 /\ 0 <= b <= 10.
Proof.
  intros H Hc.
  assert (Hses : session w) by (apply H; rewrite Hc; discriminate).
  destruct (ses_buffer w Hses) as [buf Hbuf].
  destruct (ses_first w Hses) as (a & Ha & Hra).
  destruct (ses_second w Hses) as (b & Hb & Hrb).
  rewrite (inv_min w H), (inv_max w H) in Hra, Hrb.
  pose proof (inv_numeric w H) as Hnum. unfold numeric_buffer in Hnum.
  rewrite Hbuf in Hnum. exists buf, a, b. auto 10.
Qed.

(** X2. Between two events the program behaves as the transition
    function [machine]: whatever world the event loop has reached, the
    handlers that an event sets off return the world and the result that
    [machine] computes from the state, the event and the attributes. *)
Theorem event_loop_machine (w : world) (ev : event) :
  reachable w -> dispatch ev w = machine ev w.
Proof. intros Hr. apply dispatch_machine, reachable_inv, Hr. Qed.

Lemma event_loop_machine_witness :
  dispatch Button1 sample_world = machine Button1 sample_world.
Proof. exact (event_loop_machine sample_world Button1 sample_reachable). Defined.

(** X3. The label is never stale: in every world the event loop can
    reach, the text shown is the template of the current state resolved
    with the attributes as they are now, so that a call of [refresh_text]
    would change nothing. *)
Theorem label_never_stale (w : world) :
  reachable w ->
  text (self w) = display_text (curr_widget_state (self w)) (self w)
  /\ _get_formatted (message_of (curr_widget_state (self w))) w = (w, Ok (text (self w)))
  /\ refresh_text w = (w, Ok tt).
Proof.
  intros Hr. pose proof (reachable_inv w Hr) as H.
  pose proof (reachable_shown w Hr) as Hs. unfold shown in Hs.
  split; [exact Hs|]. split; [|apply refresh_text_same, Hr].
  rewrite Hs. apply get_formatted_table; apply H.
Qed.

Lemma label_never_stale_witness :
  let w := run [Button1; KeyPress OtherKey "4"; KeyPress OtherKey "2"] sample_world in
  text (self w) = display_text (curr_widget_state (self w)) (self w)
  /\ _get_formatted (message_of (curr_widget_state (self w))) w = (w, Ok (text (self w)))
  /\ refresh_text w = (w, Ok tt).
Proof.
  intros w. apply (label_never_stale w). apply run_reachable, sample_reachable.
Defined.

(** X4. An event leads from a state only to itself or along one of the
    arrows Initial to Problem, Problem to Correct or Incorrect, Correct
    or Incorrect to Problem or End, End to Problem.  In particular the
    widget never returns to its first state. *)
Theorem transitions_follow_edges (w : world) (ev : event) :
  reachable w ->
  edge (curr_widget_state (self w)) (curr_widget_state (self (step ev w))) = true
  /\ (curr_widget_state (self (step ev w)) = "initial" ->
      curr_widget_state (self w) = "initial").
Proof.
  intros Hr. pose proof (reachable_inv w Hr) as H.
  assert (He : edge (curr_widget_state (self w)) (curr_widget_state (self (step ev w)))
               = true).
  { unfold step. rewrite dispatch_machine by exact H. apply edge_machine, H. }
  split; [exact He|]. intros Hi. rewrite Hi in He.
  pose proof (inv_state w H) as Hc. unfold state_names in Hc.
  repeat (apply elem_of_cons in Hc as [Hc|Hc]);
    [..|apply elem_of_nil in Hc; contradiction];
    rewrite Hc in He |- *; (reflexivity || discriminate He).
Qed.

Lemma transitions_follow_edges_witness :
  edge (curr_widget_state (self sample_world))
    (curr_widget_state (self (step Button1 sample_world))) = true
  /\ (curr_widget_state (self (step Button1 sample_world)) = "initial" ->
      curr_widget_state (self sample_world) = "initial").
Proof. exact (transitions_follow_edges sample_world Button1 sample_reachable). Defined.

(** X5. The only exception a handler raises in a world the event loop
    can reach is the [ValueError] of [int]: it is raised by [on_enter],
    on the confirm key in the Problem state, when the buffer is not empty
    and [int] cannot read it, for a character that is no decimal digit
    or for more digits than the interpreter's limit allows, and it
    leaves the world as it was. *)
Theorem only_value_error (w : world) (ev : event) (e : exn) :
  reachable w ->
  snd (dispatch ev w) = Raise e ->
  e = ValueError
  /\ fst (dispatch ev w) = w
  /\ curr_widget_state (self w) = "problem"
  /\ (exists c, ev = KeyPress Return c)
  /\ exists buf, _user_input_buffer (self w) = Some buf
                 /\ PyStr.nonempty buf = true /\ PyStr.int buf = None.
Proof.
  intros Hr. pose proof (reachable_inv w Hr) as H.
  rewrite dispatch_machine by exact H.
  destruct (String.eqb_spec (curr_widget_state (self w)) "problem") as [Hc|Hc].
  - destruct (problem_session w H Hc) as (buf & a & b & Hbuf & _).
    destruct ev as [|k c].
    + unfold machine. rewrite Hc. cbn. discriminate.
    + rewrite (machine_key w k c buf Hc Hbuf). destruct k.
      * destruct (PyStr.nonempty buf) eqn:Hne; [|discriminate].
        destruct (PyStr.int buf) eqn:Hint.
        -- destruct (_ =? _); discriminate.
        -- cbn. intros [= <-]. eauto 10.
      * discriminate.
      * destruct (PyStr.isnumeric c); discriminate.
  - unfold machine. rewrite (proj2 (String.eqb_neq _ _) Hc).
    destruct (negb (is_confirm ev)); [discriminate|].
    destruct (_ || _); [destruct (bool_decide _)|]; discriminate.
Qed.

Lemma only_value_error_witness :
  let w := run [Button1; KeyPress OtherKey superscript_two] sample_world in
  ValueError = ValueError
  /\ fst (dispatch (KeyPress Return "") w) = w
  /\ curr_widget_state (self w) = "problem"
  /\ (exists c, KeyPress Return "" = KeyPress Return c)
  /\ exists buf, _user_input_buffer (self w) = Some buf
                 /\ PyStr.nonempty buf = true /\ PyStr.int buf = None.
Proof.
  intros w.
  apply (only_value_error w (KeyPress Return "") ValueError).
  - apply run_reachable, sample_reachable.
  - assert (Hb : binding_for (KeyPress Return "") (bindings (self w)) = Some h_on_enter)
      by (vm_compute; reflexivity).
    unfold dispatch. rewrite Hb. cbn [run_handler].
    rewrite (on_enter_unparsed w superscript_two 3 10); vm_compute; reflexivity.
Defined.

(** X6. Events that the current state does not route are dropped: a
    click while a problem is shown, and every key but the confirm key in
    the other states, leave the world as it is, whatever was typed. *)
Theorem unrouted_events_dropped (w : world) :
  reachable w ->
  (curr_widget_state (self w) = "problem" -> dispatch Button1 w = (w, Ok tt))
  /\ (curr_widget_state (self w) <> "problem" ->
      forall c, dispatch (KeyPress BackSpace c) w = (w, Ok tt)
                /\ dispatch (KeyPress OtherKey c) w = (w, Ok tt)).
Proof.
  intros Hr. pose proof (reachable_inv w Hr) as H. split.
  - intros Hc. rewrite dispatch_machine by exact H. unfold machine. rewrite Hc. reflexivity.
  - intros Hc c. rewrite !dispatch_machine by exact H. unfold machine.
    rewrite (proj2 (String.eqb_neq _ _) Hc). split; reflexivity.
Qed.

Lemma unrouted_events_dropped_witness :
  (curr_widget_state (self sample_world) = "problem" ->
   dispatch Button1 sample_world = (sample_world, Ok tt))
  /\ (curr_widget_state (self sample_world) <> "problem" ->
      forall c, dispatch (KeyPress BackSpace c) sample_world = (sample_world, Ok tt)
                /\ dispatch (KeyPress OtherKey c) sample_world = (sample_world, Ok tt)).
Proof. exact (unrouted_events_dropped sample_world sample_reachable). Defined.

(** X7. Typing and erasing cancel: while a problem is shown, a key
    whose character [str.isnumeric] accepts followed by the BackSpace
    key brings back the very world there was before, buffer and label
    included. *)
Theorem typed_then_erased (w : world) (c : ascii) (c' : string) :
  reachable w ->
  curr_widget_state (self w) = "problem" ->
  PyStr.isnumeric (String c "") = true ->
  run [KeyPress OtherKey (String c ""); KeyPress BackSpace c'] w = w.
Proof.
  intros Hr Hc Hch. pose proof (reachable_inv w Hr) as H.
  destruct (problem_session w H Hc) as (buf & a & b & Hbuf & _).
  assert (E1 : step (KeyPress OtherKey (String c "")) w
               = refreshed
                   (with_self (set_user_input_buffer (Some (buf ++ String c ""))) w)).
  { unfold step. rewrite dispatch_machine by exact H.
    rewrite (machine_key w OtherKey _ buf Hc Hbuf), Hch. reflexivity. }
  assert (Hr1 : reachable (step (KeyPress OtherKey (String c "")) w))
    by (apply reachable_step, Hr).
  cbn [run fold_left]. unfold step at 1.
  rewrite dispatch_machine by (apply reachable_inv, Hr1).
  rewrite E1.
  rewrite (machine_key _ BackSpace c' (buf ++ String c "")) by (exact Hc || reflexivity).
  cbn [fst]. rewrite drop_last_app.
  apply with_buffer_same; [exact Hbuf | apply reachable_shown, Hr].
Qed.

Lemma typed_then_erased_witness :
  let w := run [Button1; KeyPress OtherKey "4"] sample_world in
  run [KeyPress OtherKey "2"; KeyPress BackSpace ""] w = w.
Proof.
  intros w. apply (typed_then_erased w "2"%char "").
  - apply run_reachable, sample_reachable.
  - vm_compute. reflexivity.
  - reflexivity.
Defined.

(** X8. A click on a judged answer draws four values when it shows the
    next problem: [next_problem] draws two, which nobody sees, and
    [_display_problem] draws the two that are shown.  When the click
    ends the session two values are still drawn and kept as factors. *)
Theorem next_problem_draws (w : world) (d : Z) :
  reachable w ->
  curr_widget_state (self w) = "correct" \/ curr_widget_state (self w) = "incorrect" ->
  _num_displayed (self w) = Some d ->
  let w' := step Button1 w in
  (d <> 5 ->
   curr_widget_state (self w') = "problem"
   /\ rolls w' = (rolls w + 4)%nat
   /\ first_num (self w') = Some (drawn 0 10 (roll (roll w)))
   /\ second_num (self w') = Some (drawn 0 10 (roll (roll (roll w)))))
  /\ (d = 5 ->
      curr_widget_state (self w') = "end"
      /\ rolls w' = (rolls w + 2)%nat
      /\ first_num (self w') = Some (drawn 0 10 w)
      /\ second_num (self w') = Some (drawn 0 10 (roll w))).
Proof.
  intros Hr Hc Hd w'. pose proof (reachable_inv w Hr) as H.
  assert (E : w' = fst (machine Button1 w)).
  { unfold w', step. rewrite dispatch_machine by exact H. reflexivity. }
  unfold machine in E.
  replace (String.eqb (curr_widget_state (self w)) "problem") with false in E
    by (destruct Hc as [-> | ->]; reflexivity).
  replace (String.eqb (curr_widget_state (self w)) "correct"
           || String.eqb (curr_widget_state (self w)) "incorrect") with true in E
    by (destruct Hc as [-> | ->]; reflexivity).
  cbn [is_confirm negb] in E. rewrite Hd, (inv_problems w H) in E.
  set (lo := _min_factor (self w)). set (hi := _max_factor (self w)).
  assert (Hlo : lo = 0) by apply H. assert (Hhi : hi = 10) by apply H.
  split; intros Hd5.
  - rewrite bool_decide_eq_false_2 in E by congruence. cbn [fst] in E. rewrite E.
    split; [reflexivity|].
    split; [change (S (S (S (S (rolls w)))) = (rolls w + 4)%nat); lia|].
    split.
    + change (Some (drawn lo hi (roll (roll w))) = Some (drawn 0 10 (roll (roll w)))).
      rewrite Hlo, Hhi. reflexivity.
    + change (Some (drawn lo hi (roll (roll (roll w))))
              = Some (drawn 0 10 (roll (roll (roll w))))).
      rewrite Hlo, Hhi. reflexivity.
  - subst d. rewrite bool_decide_eq_true_2 in E by reflexivity. cbn [fst] in E. rewrite E.
    split; [reflexivity|].
    split; [change (S (S (rolls w)) = (rolls w + 2)%nat); lia|].
    split.
    + change (Some (drawn lo hi w) = Some (drawn 0 10 w)).
      rewrite Hlo, Hhi. reflexivity.
    + change (Some (drawn lo hi (roll w)) = Some (drawn 0 10 (roll w))).
      rewrite Hlo, Hhi. reflexivity.
Qed.

Lemma next_problem_draws_witness :
  let w := run [Button1; KeyPress OtherKey "4"; KeyPress Return ""] sample_world in
  let w' := step Button1 w in
  (1 <> 5 ->
   curr_widget_state (self w') = "problem"
   /\ rolls w' = (rolls w + 4)%nat
   /\ first_num (self w') = Some (drawn 0 10 (roll (roll w)))
   /\ second_num (self w') = Some (drawn 0 10 (roll (roll (roll w)))))
  /\ (1 = 5 ->
      curr_widget_state (self w') = "end"
      /\ rolls w' = (rolls w + 2)%nat
      /\ first_num (self w') = Some (drawn 0 10 w)
      /\ second_num (self w') = Some (drawn 0 10 (roll w))).
Proof.
  intros w. apply (next_problem_draws w 1).
  - apply run_reachable, sample_reachable.
  - right. vm_compute. reflexivity.
  - vm_compute. reflexivity.
Defined.

Lemma init_fails (tk : tk_call -> result unit) (clock : nat -> spec_float)
    (dice : nat -> Z) (tk_attrs : gmap string string)
    (ambient : string -> gmap string string) (e : exn) :
  snd (__init__ tk clock dice tk_attrs ambient) = Raise e -> exists c, tk c = Raise e.
Proof.
  pose proof (init_shows tk_up clock dice tk_attrs ambient (fun _ => eq_refl)) as Hs.
  rewrite (init_up tk_up) in Hs by reflexivity.
  unfold __init__, bind, call, get. cbn [self curr_widget_state new_widget].
  destruct (tk TkInit) as [[]|] eqn:E1; [|intros [= <-]; eauto].
  destruct (tk NewStringVar) as [[]|] eqn:E2; [|intros [= <-]; eauto].
  destruct (tk NewLabel) as [[]|] eqn:E3; [|intros [= <-]; eauto].
  destruct (tk LabelPack) as [[]|] eqn:E4; [|intros [= <-]; eauto].
  rewrite Hs.
  destruct (tk LabelFont) as [[]|] eqn:E5; [|intros [= <-]; eauto].
  destruct (tk LabelColours) as [[]|] eqn:E6; [|intros [= <-]; eauto].
  destruct (tk WindowColour) as [[]|] eqn:E7; [|intros [= <-]; eauto].
  discriminate.
Qed.

(** X9. The constructor fails only where one of its calls into Tk
    fails, and then with what that call raised, as where there is no
    display; its own statements never fail.  When the calls return,
    whatever attributes Tk adds to the window and whatever the module
    and the function scope hold, it leaves the widget in its first
    state, showing the number of challenges, with the click and the
    confirm key routed to [start_game], no session attribute set, the
    clock not read and no value drawn; and it returns only when every
    one of the calls has returned. *)
Theorem init_shows_welcome (tk : tk_call -> result unit)
    (clock : nat -> spec_float) (dice : nat -> Z)
    (tk_attrs : gmap string string) (ambient : string -> gmap string string) :
  ((forall c, tk c = Ok tt) ->
   exists w,
     __init__ tk clock dice tk_attrs ambient = (w, Ok tt)
     /\ curr_widget_state (self w) = "initial"
     /\ text (self w) = "5 Challenges." ++ nl ++ "Click to Start!"
     /\ bindings (self w)
        = {[ "<Button-1>" := h_start_game; "<Return>" := h_start_game ]}
     /\ _user_input_buffer (self w) = None
     /\ num_solved (self w) = None /\ _num_displayed (self w) = None
     /\ first_num (self w) = None /\ second_num (self w) = None
     /\ ticks w = 0%nat /\ rolls w = 0%nat)
  /\ (forall e, snd (__init__ tk clock dice tk_attrs ambient) = Raise e ->
               exists c, tk c = Raise e)
  /\ (forall w, __init__ tk clock dice tk_attrs ambient = (w, Ok tt) ->
               forall c, tk c = Ok tt).
Proof.
  split; [|split; [apply init_fails | apply init_calls]].
  intros Hup. eexists. split; [apply init_shows, Hup|].
  split; [reflexivity|]. split; [vm_compute; reflexivity|].
  split; [vm_compute; reflexivity|]. repeat split.
Qed.

Lemma init_shows_welcome_witness :
  exists w,
    __init__ tk_up sample_clock sample_dice ∅ sample_ambient = (w, Ok tt)
    /\ curr_widget_state (self w) = "initial"
    /\ text (self w) = "5 Challenges." ++ nl ++ "Click to Start!"
    /\ bindings (self w)
       = {[ "<Button-1>" := h_start_game; "<Return>" := h_start_game ]}
    /\ _user_input_buffer (self w) = None
    /\ num_solved (self w) = None /\ _num_displayed (self w) = None
    /\ first_num (self w) = None /\ second_num (self w) = None
    /\ ticks w = 0%nat /\ rolls w = 0%nat.
Proof.
  apply (proj1 (init_shows_welcome tk_up sample_clock sample_dice ∅ sample_ambient)).
  reflexivity.
Defined.

Example init_without_display :
  snd (__init__ tk_no_display sample_clock sample_dice ∅ sample_ambient)
  = Raise TclError.
Proof. reflexivity. Qed.

Lemma format_raises_table (name : string) (w : world) (e : exn) :
  name ∈ state_names ->
  curr_widget_state (self w) ∈ state_names ->
  bindings (self w) = bindings_of (curr_widget_state (self w)) ->
  snd (_get_formatted (message_of name) w) = Raise e ->
  set_widget_state name w = (with_self (set_bindings (bindings_of name)) w, Raise e).
Proof.
  intros Hn Hc Hb He.
  destruct (in_table name Hn) as [st Hst]. destruct (in_table _ Hc) as [old Hold].
  destruct (rebind_table name _ st old Hst Hold) as [Hu Hm].
  set (w2 := with_self
               (fun s => set_bindings
                           (bind_map (event_routings st)
                              (unbind_map (event_routings old) (bindings s))) s) w).
  assert (Hw2 : w2 = with_self (set_bindings (bindings_of name)) w).
  { unfold w2, with_self. cbv beta. rewrite Hb, Hu, Hm. reflexivity. }
  unfold set_widget_state, state_of.
  rewrite Hst. unfold bind at 1. unfold ret at 1.
  unfold bind at 1. unfold get at 1.
  rewrite Hold. unfold bind at 1. unfold ret at 1.
  unfold bind at 1. rewrite unbind_routings_run.
  unfold bind at 1. rewrite bind_routings_run by (eapply table_resolvable; eassumption).
  unfold bind at 1.
  change (with_self _ (with_self _ w)) with w2.
  rewrite (message_of_table name st Hst).
  assert (E : _get_formatted (message_of name) w2 = (w2, Raise e)).
  { unfold _get_formatted in He |- *. cbn [snd] in He.
    change (vars_text w2) with (vars_text w). change (ambient w2) with (ambient w).
    rewrite He. reflexivity. }
  rewrite E, Hw2. reflexivity.
Qed.

(** X10. A transition is not all or nothing.  When the template of the
    new state cannot be resolved, [set_widget_state] raises after it has
    rebound the events: the window keeps its old text and its old state
    name, but its events are already those of the new state. *)
Theorem transition_not_atomic (name : string) (w : world) (e : exn) :
  name ∈ state_names ->
  curr_widget_state (self w) ∈ state_names ->
  bindings (self w) = bindings_of (curr_widget_state (self w)) ->
  snd (_get_formatted (message_of name) w) = Raise e ->
  let r := set_widget_state name w in
  snd r = Raise e
  /\ bindings (self (fst r)) = bindings_of name
  /\ curr_widget_state (self (fst r)) = curr_widget_state (self w)
  /\ text (self (fst r)) = text (self w).
Proof.
  intros Hn Hc Hb He r. unfold r.
  rewrite (format_raises_table name w e Hn Hc Hb He). repeat split.
Qed.

Lemma transition_not_atomic_witness :
  let w := with_self (set_user_input_buffer (Some "\")) sample_world in
  let r := set_widget_state "problem" w in
  snd r = Raise ReError
  /\ bindings (self (fst r)) = bindings_of "problem"
  /\ curr_widget_state (self (fst r)) = curr_widget_state (self w)
  /\ text (self (fst r)) = text (self w).
Proof.
  intros w. apply (transition_not_atomic "problem" w ReError).
  - unfold state_names. repeat constructor.
  - unfold state_names. repeat constructor.
  - vm_compute. reflexivity.
  - vm_compute. reflexivity.
Defined.

(** ** The tokens of a template *)

Lemma findall_escaped_nil (prev : option ascii) (s : string) :
  brackets_escaped prev s = true -> Template.findall_go 0 prev s = [].
Proof.
  revert prev; induction s as [|c s IH]; intros prev; [reflexivity|].
  cbn [brackets_escaped Template.findall_go]. intros [Hc Hs]%andb_prop.
  destruct (Ascii.eqb c "[" && Template.not_escaped prev) eqn:E.
  - apply andb_prop in E as [E1 E2]. rewrite E1, E2 in Hc. discriminate.
  - apply IH, Hs.
Qed.

(** X11. A template in which every opening bracket has a backslash
    before it holds no token: it is returned as it is, the backslashes
    included, whatever the attributes and the scope hold. *)
Theorem escaped_template_unchanged (attrs scope : gmap string string)
    (template : string) :
  brackets_escaped None template = true ->
  Template.findall template = []
  /\ Template._get_formatted attrs scope template = Ok template.
Proof.
  intros H. apply findall_escaped_nil in H.
  split; [exact H|]. unfold Template._get_formatted, Template.findall. rewrite H.
  reflexivity.
Qed.

Lemma escaped_template_unchanged_witness :
  Template.findall "score\[1] = 10\[%]" = []
  /\ Template._get_formatted ∅ ∅ "score\[1] = 10\[%]" = Ok "score\[1] = 10\[%]".
Proof. apply (escaped_template_unchanged ∅ ∅ "score\[1] = 10\[%]"). reflexivity. Defined.

Lemma collect_first_missing (attrs scope : gmap string string)
    (pre post : list string) (c : string) (acc : list (string * string)) :
  Forall (fun d => is_Some (Template.lookup_candidate attrs scope d)) pre ->
  Template.lookup_candidate attrs scope c = None ->
  Template.collect attrs scope (pre ++ c :: post) acc = Raise (BadFormatKey c).
Proof.
  intros Hpre Hc. revert acc.
  induction Hpre as [|d pre [v Hd] _ IH]; intros acc; cbn [app Template.collect].
  - rewrite Hc. reflexivity.
  - rewrite Hd. apply IH.
Qed.

(** X12. The token named in the bad-format-key error is the first one,
    in the order of the template, that has an entry neither among the
    attributes nor in the scope; tokens after it are not looked at, and
    nothing has been substituted by then. *)
Theorem first_missing_reported (attrs scope : gmap string string)
    (template : string) (pre post : list string) (c : string) :
  Template.findall template = (pre ++ c :: post)%list ->
  Forall (fun d => is_Some (Template.lookup_candidate attrs scope d)) pre ->
  Template.lookup_candidate attrs scope c = None ->
  Template._get_formatted attrs scope template = Raise (BadFormatKey c).
Proof.
  intros Hf Hpre Hc. unfold Template._get_formatted. rewrite Hf.
  rewrite (collect_first_missing attrs scope pre post c [] Hpre Hc). reflexivity.
Qed.

Lemma first_missing_reported_witness :
  Template._get_formatted {[ "num_problems" := "5" ]} ∅ "[num_problems] [x] [y]"
  = Raise (BadFormatKey "x").
Proof.
  apply (first_missing_reported {[ "num_problems" := "5" ]} ∅
           "[num_problems] [x] [y]" ["num_problems"] ["y"] "x").
  - vm_compute. reflexivity.
  - apply Forall_cons. split; [|apply Forall_nil; exact I].
    exists "5". vm_compute. reflexivity.
  - vm_compute. reflexivity.
Defined.

Lemma lazy_group_shape (first : bool) (prev : ascii) (s tok : string) :
  Template.lazy_group first prev s = Some tok ->
  (exists rest, s = tok ++ String "]" rest)
  /\ one_line tok = true
  /\ (first = true -> tok <> "").
Proof.
  revert first prev tok; induction s as [|c s IH]; intros first prev tok;
    cbn [Template.lazy_group]; [discriminate|].
  destruct (negb first && Ascii.eqb c "]" && negb (Ascii.eqb prev Template.backslash))
    eqn:E.
  - intros [= <-]. apply andb_prop in E as [E _]. apply andb_prop in E as [E1 E2].
    apply Ascii.eqb_eq in E2. subst c. split; [exists s; reflexivity|].
    split; [reflexivity|]. intros ->. discriminate.
  - destruct (Ascii.eqb c Template.newline) eqn:En; [discriminate|].
    destruct (Template.lazy_group false c s) as [tok'|] eqn:Hl; [|discriminate].
    intros [= <-]. destruct (IH _ _ _ Hl) as ([rest ->] & Hline & _).
    split; [exists rest; reflexivity|]. split; [|discriminate].
    unfold one_line. cbn [PyStr.forallb_string]. rewrite En. exact Hline.
Qed.

Lemma occurs_cons (p : string) (c : ascii) (s : string) :
  occurs p s = true -> occurs p (String c s) = true.
Proof.
  intros H. cbn [occurs]. destruct (Template.strip_prefix p (String c s)); auto.
Qed.

Lemma occurs_here (p s : string) : occurs p (p ++ s) = true.
Proof.
  destruct p as [|a p]; [destruct s; reflexivity|].
  change (String a p ++ s) with (String a (p ++ s)).
  cbn [occurs]. 
  change (String a (p ++ s)) with (String a p ++ s).
  rewrite strip_prefix_app. reflexivity.
Qed.

Lemma findall_go_occurs (skip : nat) (prev : option ascii) (s c : string) :
  c ∈ Template.findall_go skip prev s ->
  c <> "" /\ one_line c = true /\ occurs (String "[" (c ++ "]")) s = true.
Proof.
  revert skip prev; induction s as [|a s IH]; intros skip prev;
    cbn [Template.findall_go].
  - destruct skip; intros H; apply elem_of_nil in H; contradiction.
  - assert (K : forall k p, c ∈ Template.findall_go k p s ->
                c <> "" /\ one_line c = true
                /\ occurs (String "[" (c ++ "]")) (String a s) = true).
    { intros k p Hin. destruct (IH k p Hin) as (H1 & H2 & H3).
      auto using occurs_cons. }
    destruct skip as [|k]; [|apply K].
    destruct (Ascii.eqb a "[" && Template.not_escaped prev) eqn:E; [|apply K].
    destruct (Template.lazy_group true a s) as [tok|] eqn:Hl; [|apply K].
    intros [->|Hin]%elem_of_cons; [|exact (K _ _ Hin)].
    apply andb_prop in E as [Ea _]. apply Ascii.eqb_eq in Ea. subst a.
    destruct (lazy_group_shape _ _ _ _ Hl) as ([rest ->] & Hline & Hne).
    split; [auto|]. split; [exact Hline|].
    change (String "[" (tok ++ String "]" rest))
      with (String "[" (tok ++ (String "]" "" ++ rest))).
    rewrite <- string_app_assoc.
    apply (occurs_here (String "[" (tok ++ "]")) rest).
Qed.

(** X13. Every name that [re.findall] takes from a template stands in
    the template between brackets, is not empty and does not run over a
    line end. *)
Theorem tokens_well_formed (template c : string) :
  c ∈ Template.findall template ->
  c <> "" /\ one_line c = true /\ occurs (String "[" (c ++ "]")) template = true.
Proof. apply findall_go_occurs. Qed.

Lemma tokens_well_formed_witness :
  "second_num" <> ""
  /\ one_line "second_num" = true
  /\ occurs "[second_num]" (message_of "problem") = true.
Proof.
  apply (tokens_well_formed (message_of "problem") "second_num").
  vm_compute. apply elem_of_cons. right. apply elem_of_cons. left. reflexivity.
Defined.

Lemma collect_local (attrs scope attrs' scope' : gmap string string)
    (candidates : list string) (acc : list (string * string)) :
  Forall (fun c => Template.lookup_candidate attrs scope c
                   = Template.lookup_candidate attrs' scope' c) candidates ->
  Template.collect attrs scope candidates acc
  = Template.collect attrs' scope' candidates acc.
Proof.
  intros H; revert acc. induction H as [|c cs Hc _ IH]; intros acc; [reflexivity|].
  cbn [Template.collect]. rewrite Hc.
  destruct (Template.lookup_candidate attrs' scope' c); [apply IH | reflexivity].
Qed.

(** X14. The result of [_get_formatted] depends on the attributes and
    the scope only through the entries of the names that stand in the
    template; and when all of these are attributes of the widget, the
    scope does not matter at all. *)
Theorem formatting_is_local (attrs scope attrs' scope' : gmap string string)
    (template : string) :
  (Forall (fun c => Template.lookup_candidate attrs scope c
                    = Template.lookup_candidate attrs' scope' c)
     (Template.findall template) ->
   Template._get_formatted attrs scope template
   = Template._get_formatted attrs' scope' template)
  /\ (Forall (fun c => is_Some (attrs !! c)) (Template.findall template) ->
      Template._get_formatted attrs scope template
      = Template._get_formatted attrs scope' template).
Proof.
  split; intros H; unfold Template._get_formatted.
  - rewrite (collect_local attrs scope attrs' scope' _ [] H). reflexivity.
  - rewrite (collect_local attrs scope attrs scope' _ []); [reflexivity|].
    eapply Forall_impl; [exact H|]. intros c [v Hv]. cbn beta.
    unfold Template.lookup_candidate. rewrite Hv. reflexivity.
Qed.

Lemma formatting_is_local_witness :
  Template._get_formatted {[ "a" := "1" ]} {[ "a" := "2" ]} "[a]+[a]"
  = Template._get_formatted {[ "a" := "1" ]} ∅ "[a]+[a]".
Proof.
  apply (proj2 (formatting_is_local {[ "a" := "1" ]} {[ "a" := "2" ]} ∅ ∅ "[a]+[a]")).
  assert (E : Template.findall "[a]+[a]" = ["a"; "a"]) by (vm_compute; reflexivity).
  rewrite E. repeat (apply Forall_cons; split; [exists "1"; vm_compute; reflexivity|]).
  apply Forall_nil. exact I.
Defined.

(** ** What the confirm key accepts *)

Lemma numeric_char_plain (c : ascii) :
  PyStr.isnumeric_char c = true ->
  PyStr.isspace_char c = false
  /\ Ascii.eqb c "+" = false /\ Ascii.eqb c "-" = false /\ Ascii.eqb c "_" = false.
Proof.
  destruct c as [b0 b1 b2 b3 b4 b5 b6 b7].
  destruct b0, b1, b2, b3, b4, b5, b6, b7; vm_compute; intros H;
    try discriminate H; repeat split.
Qed.

Lemma int_digits_numeric (s : string) (acc : Z) (prev : bool) :
  PyStr.forallb_string PyStr.isnumeric_char s = true ->
  PyStr.forallb_string PyStr.isdecimal_char s = false ->
  match PyStr.int_digits acc prev s with
  | Some (_, rest) => exists c r, rest = String c r /\ PyStr.isspace_char c = false
  | None => True
  end.
Proof.
  revert acc prev; induction s as [|c s IH]; intros acc prev; [discriminate|].
  cbn [PyStr.forallb_string]. intros [Hc Hs]%andb_prop Hd.
  destruct (numeric_char_plain c Hc) as (Hsp & _ & _ & Hu).
  cbn [PyStr.int_digits]. destruct (PyStr.isdecimal_char c) eqn:Hdc.
  - apply IH; assumption.
  - rewrite Hu. destruct prev; [eauto | exact I].
Qed.

(** [int] rejects a text of numeric characters that are not all decimal
    digits. *)
Lemma int_numeric_none (s : string) :
  PyStr.forallb_string PyStr.isnumeric_char s = true ->
  PyStr.forallb_string PyStr.isdecimal_char s = false ->
  PyStr.int s = None.
Proof.
  intros Hn Hd. destruct s as [|c s]; [discriminate|].
  pose proof Hn as [Hc _]%andb_prop.
  destruct (numeric_char_plain c Hc) as (Hsp & Hp & Hm & _).
  assert (E : PyStr.int (String c s)
              = match PyStr.int_digits 0 false (String c s) with
                | Some (v, rest) =>
                    match PyStr.lstrip rest with
                    | EmptyString =>
                        if PyStr.int_max_str_digits <? PyStr.digit_count (String c s)
                        then None else Some v
                    | _ => None
                    end
                | None => None
                end).
  { unfold PyStr.int. cbn [PyStr.lstrip]. rewrite Hsp.
    clear Hn Hd Hc Hsp.
    destruct c as [b0 b1 b2 b3 b4 b5 b6 b7].
    destruct b0, b1, b2, b3, b4, b5, b6, b7;
      try discriminate Hp; try discriminate Hm; reflexivity. }
  rewrite E. pose proof (int_digits_numeric (String c s) 0 false Hn Hd) as H.
  destruct (PyStr.int_digits 0 false (String c s)) as [[v rest]|]; [|reflexivity].
  destruct H as (d & r & -> & Hd'). cbn [PyStr.lstrip]. rewrite Hd'. reflexivity.
Qed.

Lemma decimal_value_nonneg (s : string) (acc : Z) :
  PyStr.forallb_string PyStr.isdecimal_char s = true ->
  0 <= acc -> 0 <= decimal_value acc s.
Proof.
  revert acc; induction s as [|c s IH]; intros acc; [auto|].
  cbn [PyStr.forallb_string decimal_value]. intros [Hc Hs]%andb_prop Hacc.
  apply IH; [exact Hs|].
  unfold PyStr.isdecimal_char in Hc. apply andb_prop in Hc as [H1 H2].
  apply N.leb_le in H1, H2. unfold PyStr.digit_value. lia.
Qed.

(** X15. What the confirm key does while a problem is shown is decided
    by the buffer alone.  Empty: nothing.  Decimal digits only, and not
    more of them than the 4300 the interpreter's limit allows: the answer
    is read as the number they denote, which is not negative, and judged.
    Anything else the keys can have put there, that is a text with one of
    the six numeric characters that are no decimal digits, or one of more
    than 4300 digits: [int] raises [ValueError] and the world stays as it
    was. *)
Theorem confirm_by_buffer (w : world) (c : string) :
  reachable w ->
  curr_widget_state (self w) = "problem" ->
  exists buf a b,
    _user_input_buffer (self w) = Some buf
    /\ first_num (self w) = Some a /\ second_num (self w) = Some b
    /\ (buf = "" -> dispatch (KeyPress Return c) w = (w, Ok tt))
    /\ (PyStr.isdecimal buf = true ->
        Z.of_nat (String.length buf) <= PyStr.int_max_str_digits ->
        PyStr.int buf = Some (decimal_value 0 buf)
        /\ 0 <= decimal_value 0 buf
        /\ snd (dispatch (KeyPress Return c) w) = Ok tt
        /\ curr_widget_state (self (step (KeyPress Return c) w))
           = (if decimal_value 0 buf =? a * b then "correct" else "incorrect"))
    /\ (buf <> "" ->
        PyStr.isdecimal buf = false
        \/ PyStr.int_max_str_digits < Z.of_nat (String.length buf) ->
        dispatch (KeyPress Return c) w = (w, Raise ValueError)).
Proof.
  intros Hr Hc. pose proof (reachable_inv w Hr) as H.
  destruct (problem_session w H Hc) as (buf & a & b & Hbuf & Hnum & Ha & Hb & _).
  exists buf, a, b. do 3 (split; [assumption|]).
  assert (E : dispatch (KeyPress Return c) w = machine (KeyPress Return c) w)
    by (apply dispatch_machine, H).
  unfold step. rewrite E, (machine_key w Return c buf Hc Hbuf), Ha, Hb.
  cbn [default from_option id].
  split; [intros ->; reflexivity|]. split.
  - intros Hd Hl. rewrite (isdecimal_nonempty buf Hd), (int_decimal buf Hd Hl).
    split; [reflexivity|]. split.
    + apply decimal_value_nonneg; [|lia]. destruct buf; [discriminate | exact Hd].
    + destruct (decimal_value 0 buf =? a * b); split; reflexivity.
  - intros Hne Hd. destruct buf as [|x buf]; [contradiction|].
    cbn [PyStr.nonempty].
    assert (Hi : PyStr.int (String x buf) = None).
    { destruct (PyStr.isdecimal (String x buf)) eqn:Hdec.
      - destruct Hd as [Hd|Hd]; [discriminate|]. apply int_decimal_long; assumption.
      - apply int_numeric_none; [exact Hnum | exact Hdec]. }
    rewrite Hi. reflexivity.
Qed.

Lemma confirm_by_buffer_witness :
  let w := run [Button1; KeyPress OtherKey "3"; KeyPress OtherKey "0"] sample_world in
  exists buf a b,
    _user_input_buffer (self w) = Some buf
    /\ first_num (self w) = Some a /\ second_num (self w) = Some b
    /\ (buf = "" -> dispatch (KeyPress Return "") w = (w, Ok tt))
    /\ (PyStr.isdecimal buf = true ->
        Z.of_nat (String.length buf) <= PyStr.int_max_str_digits ->
        PyStr.int buf = Some (decimal_value 0 buf)
        /\ 0 <= decimal_value 0 buf
        /\ snd (dispatch (KeyPress Return "") w) = Ok tt
        /\ curr_widget_state (self (step (KeyPress Return "") w))
           = (if decimal_value 0 buf =? a * b then "correct" else "incorrect"))
    /\ (buf <> "" ->
        PyStr.isdecimal buf = false
        \/ PyStr.int_max_str_digits < Z.of_nat (String.length buf) ->
        dispatch (KeyPress Return "") w = (w, Raise ValueError)).
Proof.
  intros w. apply (confirm_by_buffer w "").
  - apply run_reachable, sample_reachable.
  - vm_compute. reflexivity.
Defined.

(** ** When the passes amount to a single pass *)

Lemma single_pass_skip (lk : string -> option string) (u rest : string)
    (prev : option ascii) (c : ascii) :
  single_pass_go lk (S (String.length u)) prev (u ++ String c rest)
  = single_pass_go lk 0 (Some c) rest.
Proof.
  revert prev; induction u as [|d u IH]; intros prev; [reflexivity|].
  change (String d u ++ String c rest) with (String d (u ++ String c rest)).
  cbn [String.length single_pass_go]. apply IH.
Qed.

Lemma findall_skip (u rest : string) (prev : option ascii) (c : ascii) :
  Template.findall_go (S (String.length u)) prev (u ++ String c rest)
  = Template.findall_go 0 (Some c) rest.
Proof.
  revert prev; induction u as [|d u IH]; intros prev; [reflexivity|].
  change (String d u ++ String c rest) with (String d (u ++ String c rest)).
  cbn [String.length Template.findall_go]. apply IH.
Qed.

Lemma single_pass_inert_prefix (lk : string -> option string) (u r : string)
    (prev : option ascii) :
  inert u = true ->
  single_pass_go lk 0 prev (u ++ r) = u ++ single_pass_go lk 0 (prev_after prev u) r.
Proof.
  revert prev; induction u as [|c u IH]; intros prev; [reflexivity|].
  rewrite inert_cons. intros [[Hc _]%andb_prop Hu]%andb_prop.
  change (String c u ++ r) with (String c (u ++ r)).
  cbn [single_pass_go prev_after].
  apply negb_true_iff in Hc. rewrite Hc. cbn [andb]. rewrite (IH _ Hu). reflexivity.
Qed.

Lemma operator_free (c : ascii) :
  Template.operator_char c = false ->
  Ascii.eqb c "[" = false /\ Ascii.eqb c "]" = false
  /\ Ascii.eqb c Template.backslash = false.
Proof.
  destruct c as [b0 b1 b2 b3 b4 b5 b6 b7].
  destruct b0, b1, b2, b3, b4, b5, b6, b7; vm_compute; intros H;
    try discriminate H; repeat split.
Qed.

Lemma literal_name_cons (c : ascii) (s : string) :
  Template.literal_name (String c s) = true ->
  negb (Ascii.eqb c "[") && negb (Ascii.eqb c "]")
  && negb (Ascii.eqb c Template.backslash) && Template.literal_name s = true.
Proof.
  unfold Template.literal_name. cbn [PyStr.forallb_string].
  intros [Hc Hs]%andb_prop. apply negb_true_iff, operator_free in Hc as (H1 & H2 & H3).
  rewrite H1, H2, H3, Hs. reflexivity.
Qed.

Lemma literal_name_inert (s : string) : Template.literal_name s = true -> inert s = true.
Proof.
  induction s as [|c s IH]; [reflexivity|].
  rewrite inert_cons. intros Hn. apply literal_name_cons in Hn. revert Hn.
  intros [[[H1 _]%andb_prop H3]%andb_prop Hs]%andb_prop.
  rewrite H1, H3, (IH Hs). reflexivity.
Qed.

Lemma inert_app (s t : string) : inert (s ++ t) = inert s && inert t.
Proof.
  induction s as [|c s IH]; [reflexivity|].
  change (String c s ++ t) with (String c (s ++ t)).
  rewrite !inert_cons, IH. rewrite andb_assoc. reflexivity.
Qed.

Lemma prev_after_app (prev : option ascii) (s t : string) :
  prev_after prev (s ++ t) = prev_after (prev_after prev s) t.
Proof.
  revert prev; induction s as [|c s IH]; intros prev; [reflexivity|].
  change (String c s ++ t) with (String c (s ++ t)).
  cbn [prev_after]. apply IH.
Qed.

Lemma not_escaped_after (prev : option ascii) (u : string) :
  inert u = true -> Template.not_escaped prev = true ->
  Template.not_escaped (prev_after prev u) = true.
Proof.
  revert prev; induction u as [|c u IH]; intros prev; [auto|].
  rewrite inert_cons. intros [[_ Hb]%andb_prop Hu]%andb_prop _.
  cbn [prev_after]. apply IH; [exact Hu | exact Hb].
Qed.

Lemma last_char_name (p : ascii) (s : string) :
  Template.literal_name s = true -> Ascii.eqb p Template.backslash = false ->
  Ascii.eqb (Template.last_char p s) Template.backslash = false.
Proof.
  revert p; induction s as [|c s IH]; intros p; [auto|].
  intros Hn. apply literal_name_cons in Hn. revert Hn.
  intros [[_ Hb]%andb_prop Hs]%andb_prop _.
  cbn [Template.last_char]. apply IH; [exact Hs | apply negb_true_iff, Hb].
Qed.

(** *** The lazy group *)

Lemma lazy_true_false (q : ascii) (s tok : string) :
  Template.lazy_group true q s = Some tok ->
  exists tok', Template.lazy_group false q s = Some tok'.
Proof.
  destruct s as [|c s]; cbn [Template.lazy_group]; [discriminate|].
  cbn [negb andb].
  destruct (Ascii.eqb c Template.newline) eqn:En; [discriminate|].
  destruct (Template.lazy_group false c s) as [t|] eqn:Hl; [|discriminate].
  intros _. destruct (Ascii.eqb c "]" && negb (Ascii.eqb q Template.backslash));
    cbn [option_map]; eauto.
Qed.

Lemma newline_not_bracket (c : ascii) :
  Ascii.eqb c Template.newline = true -> Ascii.eqb c "[" = false.
Proof. intros ->%Ascii.eqb_eq. reflexivity. Qed.

(** Where the group finds no end in the template it finds none in what
    a pass makes of it. *)
Lemma lazy_none_render (lk : string -> option string) (s : string) :
  forall (first : bool) (p p' : ascii),
    Template.lazy_group first p s = None ->
    Ascii.eqb p Template.backslash = Ascii.eqb p' Template.backslash ->
    Template.lazy_group first p' (single_pass_go lk 0 (Some p) s) = None.
Proof.
  induction s as [|c s IH]; intros first p p' H Hp; [reflexivity|].
  cbn [Template.lazy_group] in H.
  destruct (negb first && Ascii.eqb c "]" && negb (Ascii.eqb p Template.backslash))
    eqn:E1; [discriminate|].
  assert (Hout : Ascii.eqb c Template.newline = true
                 \/ Template.lazy_group false c s = None).
  { destruct (Ascii.eqb c Template.newline); [left; reflexivity|].
    destruct (Template.lazy_group false c s); [discriminate | right; reflexivity]. }
  assert (E : single_pass_go lk 0 (Some p) (String c s)
              = String c (single_pass_go lk 0 (Some c) s)).
  { cbn [single_pass_go].
    destruct (Ascii.eqb c "[" && Template.not_escaped (Some p)) eqn:Et; [|reflexivity].
    destruct (Template.lazy_group true c s) as [tok|] eqn:Hl; [|reflexivity].
    exfalso. destruct Hout as [Hn|Hn].
    - apply andb_prop in Et as [Et _]. rewrite (newline_not_bracket c Hn) in Et.
      discriminate.
    - destruct (lazy_true_false c s tok Hl) as [tok' Htok']. congruence. }
  rewrite E. cbn [Template.lazy_group]. rewrite <- Hp, E1.
  destruct Hout as [Hn|Hn].
  - rewrite Hn. reflexivity.
  - destruct (Ascii.eqb c Template.newline); [reflexivity|].
    rewrite (IH false c c Hn eq_refl). reflexivity.
Qed.

Lemma one_line_cons (c : ascii) (s : string) :
  one_line (String c s) = negb (Ascii.eqb c Template.newline) && one_line s.
Proof. reflexivity. Qed.

Lemma lazy_group_closes (u rest : string) :
  forall (first : bool) (p : ascii),
    one_line u = true -> (first = true -> u <> "") ->
    Ascii.eqb (Template.last_char p u) Template.backslash = false ->
    exists tok, Template.lazy_group first p (u ++ String "]" rest) = Some tok.
Proof.
  induction u as [|x u IH]; intros first p Hline Hne Hl.
  - destruct first; [exfalso; apply Hne; reflexivity|].
    cbn [Template.last_char] in Hl.
    change ("" ++ String "]" rest) with (String "]" rest).
    cbn [Template.lazy_group]. rewrite Hl. cbn. eauto.
  - rewrite one_line_cons in Hline. apply andb_prop in Hline as [Hx Hu].
    apply negb_true_iff in Hx.
    change (String x u ++ String "]" rest) with (String x (u ++ String "]" rest)).
    cbn [Template.lazy_group].
    destruct (negb first && Ascii.eqb x "]" && negb (Ascii.eqb p Template.backslash));
      [eauto|].
    rewrite Hx.
    destruct (IH false x Hu) as [tok Htok]; [discriminate | exact Hl |].
    rewrite Htok. cbn. eauto.
Qed.

Lemma strip_prefix_inv (p s r : string) :
  Template.strip_prefix p s = Some r -> s = p ++ r.
Proof.
  revert s; induction p as [|a p IH]; intros s; cbn [Template.strip_prefix].
  - intros [= ->]. reflexivity.
  - destruct s as [|b s]; [discriminate|].
    destruct (Ascii.eqb_spec a b) as [->|]; [|discriminate].
    intros H. rewrite (IH s H). reflexivity.
Qed.

Lemma closes_inv (name s : string) :
  Template.closes name s = true ->
  exists rest, s = name ++ String "]" rest
               /\ Ascii.eqb (Template.last_char "[" name) Template.backslash = false.
Proof.
  unfold Template.closes.
  destruct (Template.strip_prefix name s) as [[|x r]|] eqn:Hs; try discriminate.
  apply strip_prefix_inv in Hs. subst s.
  destruct x as [b0 b1 b2 b3 b4 b5 b6 b7].
  destruct b0, b1, b2, b3, b4, b5, b6, b7; try discriminate.
  intros H. exists r. split; [reflexivity | apply negb_true_iff, H].
Qed.

Lemma closes_lazy (name s : string) :
  Template.closes name s = true -> name <> "" -> one_line name = true ->
  exists tok, Template.lazy_group true "[" s = Some tok.
Proof.
  intros (rest & -> & Hl)%closes_inv Hne Hline.
  apply lazy_group_closes; auto.
Qed.

Lemma names_prefix (c tok r r' : string) :
  Template.literal_name c = true -> Template.literal_name tok = true ->
  c ++ String "]" r' = tok ++ String "]" r -> c = tok.
Proof.
  revert tok; induction c as [|y c IH]; intros [|x tok] Hc Ht.
  - reflexivity.
  - change ("" ++ String "]" r') with (String "]" r').
    change (String x tok ++ String "]" r) with (String x (tok ++ String "]" r)).
    intros [= <- _]. apply literal_name_cons in Ht. discriminate.
  - change ("" ++ String "]" r) with (String "]" r).
    change (String y c ++ String "]" r') with (String y (c ++ String "]" r')).
    intros [= -> _]. apply literal_name_cons in Hc. discriminate.
  - change (String x tok ++ String "]" r) with (String x (tok ++ String "]" r)).
    change (String y c ++ String "]" r') with (String y (c ++ String "]" r')).
    intros [= -> H]. apply literal_name_cons in Hc. apply literal_name_cons in Ht.
    apply andb_prop in Hc as [_ Hc]. apply andb_prop in Ht as [_ Ht].
    rewrite (IH tok Hc Ht H). reflexivity.
Qed.

Lemma closes_other (c tok rest : string) :
  Template.literal_name c = true -> Template.literal_name tok = true -> c <> tok ->
  Template.closes c (tok ++ String "]" rest) = false.
Proof.
  intros Hc Ht Hne.
  destruct (Template.closes c (tok ++ String "]" rest)) eqn:E; [|reflexivity].
  apply closes_inv in E as (r' & E & _). symmetry in E.
  apply names_prefix in E; [contradiction | exact Hc | exact Ht].
Qed.

(** *** One pass after the passes for the names of [names] *)

Lemma only_in (names : list string) (lk : string -> option string) (c : string) :
  existsb (String.eqb c) names = true -> only names lk c = lk c.
Proof. intros H. unfold only. rewrite H. reflexivity. Qed.

Lemma only_out (names : list string) (lk : string -> option string) (c : string) :
  existsb (String.eqb c) names = false -> only names lk c = None.
Proof. intros H. unfold only. rewrite H. reflexivity. Qed.

Lemma only_added (names : list string) (lk : string -> option string) (c tok : string) :
  only (names ++ [c]) lk tok
  = if String.eqb tok c then lk tok else only names lk tok.
Proof.
  unfold only. rewrite existsb_app. cbn [existsb]. rewrite orb_false_r.
  destruct (existsb (String.eqb tok) names), (String.eqb tok c); reflexivity.
Qed.

(** What a pass makes of a template that begins with a token. *)
Lemma single_pass_token (lk : string -> option string) (prev : option ascii)
    (tok rest : string) :
  Template.not_escaped prev = true ->
  Template.lazy_group true "[" (tok ++ String "]" rest) = Some tok ->
  Template.literal_name tok = true ->
  single_pass_go lk 0 prev (String "[" (tok ++ String "]" rest))
  = match lk tok with
    | Some u => u ++ single_pass_go lk 0 (Some "]"%char) rest
    | None => String "[" ((tok ++ "]") ++ single_pass_go lk 0 (Some "]"%char) rest)
    end.
Proof.
  intros Hp Hl Hn. cbn [single_pass_go]. rewrite Hp, Hl.
  change (Ascii.eqb "[" "[") with true. cbn [andb].
  destruct (lk tok) as [u|].
  - rewrite single_pass_skip. reflexivity.
  - change (tok ++ String "]" rest) with (tok ++ (String "]" "" ++ rest)).
    rewrite <- string_app_assoc.
    rewrite single_pass_inert_prefix
      by (rewrite inert_app, (literal_name_inert tok Hn); reflexivity).
    rewrite prev_after_app. reflexivity.
Qed.

Lemma findall_token (prev : option ascii) (tok rest : string) :
  Template.not_escaped prev = true ->
  Template.lazy_group true "[" (tok ++ String "]" rest) = Some tok ->
  Template.findall_go 0 prev (String "[" (tok ++ String "]" rest))
  = tok :: Template.findall_go 0 (Some "]"%char) rest.
Proof.
  intros Hp Hl. cbn [Template.findall_go]. rewrite Hp, Hl.
  change (Ascii.eqb "[" "[") with true. cbn [andb].
  rewrite findall_skip. reflexivity.
Qed.

(** The three ways a template can begin. *)
Lemma template_view (prev : option ascii) (ch : ascii) (t : string) :
  (Ascii.eqb ch "[" && Template.not_escaped prev = false
   /\ forall lk, single_pass_go lk 0 prev (String ch t)
                 = String ch (single_pass_go lk 0 (Some ch) t))
  \/ (ch = "["%char /\ Template.not_escaped prev = true
      /\ Template.lazy_group true "[" t = None
      /\ forall lk, single_pass_go lk 0 prev (String ch t)
                    = String ch (single_pass_go lk 0 (Some ch) t))
  \/ (ch = "["%char /\ Template.not_escaped prev = true
      /\ exists tok rest,
           t = tok ++ String "]" rest
           /\ Template.lazy_group true "[" t = Some tok
           /\ tok <> "" /\ one_line tok = true).
Proof.
  destruct (Ascii.eqb ch "[" && Template.not_escaped prev) eqn:Et.
  - apply andb_prop in Et as [->%Ascii.eqb_eq Hp]. right.
    destruct (Template.lazy_group true "[" t) as [tok|] eqn:Hl.
    + right. split; [reflexivity|]. split; [exact Hp|].
      destruct (lazy_group_shape _ _ _ _ Hl) as ([rest Hrest] & Hline & Hne).
      exists tok, rest. auto.
    + left. split; [reflexivity|]. split; [exact Hp|]. split; [reflexivity|].
      intros lk. cbn [single_pass_go]. rewrite Hp, Hl. reflexivity.
  - left. split; [reflexivity|]. intros lk. cbn [single_pass_go]. rewrite Et. reflexivity.
Qed.

Lemma findall_no_token (prev : option ascii) (ch : ascii) (t : string) :
  Ascii.eqb ch "[" && Template.not_escaped prev = false
  \/ Template.lazy_group true ch t = None ->
  Template.findall_go 0 prev (String ch t) = Template.findall_go 0 (Some ch) t.
Proof.
  intros H. cbn [Template.findall_go].
  destruct (Ascii.eqb ch "[" && Template.not_escaped prev); [|reflexivity].
  destruct H as [H|H]; [discriminate | rewrite H; reflexivity].
Qed.

Section OnePass.

Variable lk : string -> option string.
Variable names : list string.
Variables c v : string.
Hypothesis c_new : existsb (String.eqb c) names = false.
Hypothesis c_entry : lk c = Some v.
Hypothesis c_name : Template.literal_name c = true.
Hypothesis c_nonempty : c <> "".
Hypothesis c_line : one_line c = true.

(** The pass for [c] over what the passes for [names] have made of the
    template gives what the passes for [names] and [c] make of it. *)
Lemma pass_adds_name (n : nat) :
  forall (t : string) (prev prev' : option ascii),
    (String.length t <= n)%nat ->
    Template.not_escaped prev = Template.not_escaped prev' ->
    Forall (fun tok => Template.literal_name tok = true
                       /\ forall u, lk tok = Some u -> inert u = true)
      (Template.findall_go 0 prev t) ->
    Template.replace_go c v 0 prev' (single_pass_go (only names lk) 0 prev t)
    = single_pass_go (only (names ++ [c]) lk) 0 prev t.
Proof.
  induction n as [|n IH]; intros t prev prev' Hlen Hp Htok.
  { destruct t; [reflexivity | cbn in Hlen; lia]. }
  destruct t as [|ch t]; [reflexivity|].
  cbn [String.length] in Hlen.
  destruct (template_view prev ch t)
    as [[Et Hs] | [(-> & Hprev & Hl & Hs) | (-> & Hprev & tok & rest & -> & Hl & Hne & Hline)]].
  - (* no token can start here *)
    rewrite !Hs. rewrite findall_no_token in Htok by (left; exact Et).
    cbn [Template.replace_go]. rewrite <- Hp, Et. cbn [andb].
    rewrite (IH t (Some ch) (Some ch)); [reflexivity | lia | reflexivity | exact Htok].
  - (* an opening bracket that no bracket closes *)
    rewrite !Hs. rewrite findall_no_token in Htok by (right; exact Hl).
    cbn [Template.replace_go].
    assert (Hc : Template.closes c (single_pass_go (only names lk) 0 (Some "["%char) t)
                 = false).
    { destruct (Template.closes c _) eqn:E; [|reflexivity].
      destruct (closes_lazy _ _ E c_nonempty c_line) as [tok Htok'].
      rewrite (lazy_none_render (only names lk) t true "[" "[" Hl eq_refl) in Htok'.
      discriminate. }
    rewrite Hc, andb_false_r.
    rewrite (IH t (Some "["%char) (Some "["%char));
      [reflexivity | lia | reflexivity | exact Htok].
  - (* a token *)
    rewrite findall_token in Htok by assumption.
    apply Forall_cons in Htok as [[Hname Hval] Htok].
    assert (Hlen' : (String.length rest <= n)%nat).
    { assert (L : forall a b, String.length (a ++ b)
                              = (String.length a + String.length b)%nat).
      { intros a b. induction a as [|x a IHa]; [reflexivity|].
        change (String x a ++ b) with (String x (a ++ b)). cbn [String.length].
        rewrite IHa. reflexivity. }
      rewrite L in Hlen. cbn [String.length] in Hlen. lia. }
    assert (Hprev' : Template.not_escaped prev' = true) by (rewrite <- Hp; exact Hprev).
    rewrite !single_pass_token by assumption.
    rewrite only_added.
    destruct (String.eqb_spec tok c) as [->|Hne'].
    + rewrite only_out by exact c_new. rewrite c_entry.
      rewrite string_app_assoc.
      change (String "]" "" ++ single_pass_go (only names lk) 0 (Some "]"%char) rest)
        with (String "]" (single_pass_go (only names lk) 0 (Some "]"%char) rest)).
      rewrite replace_at_match;
        [ | exact Hprev' | apply last_char_name; [exact c_name | reflexivity] ].
      rewrite (IH rest (Some "]"%char) (Some "]"%char));
        [reflexivity | lia | reflexivity | exact Htok].
    + destruct (only names lk tok) as [u|] eqn:Hu.
      * assert (Hlu : lk tok = Some u).
        { unfold only in Hu.
          destruct (existsb (String.eqb tok) names); [exact Hu | discriminate]. }
        pose proof (Hval u Hlu) as Hiu.
        rewrite replace_inert_prefix by exact Hiu.
        rewrite (IH rest (Some "]"%char) (prev_after prev' u));
          [ reflexivity | lia | | exact Htok ].
        rewrite not_escaped_after by assumption. reflexivity.
      * cbn [Template.replace_go]. rewrite Hprev'.
        change (Ascii.eqb "[" "[") with true. cbn [andb].
        assert (Hc : Template.closes c
                       ((tok ++ "]")
                        ++ single_pass_go (only names lk) 0 (Some "]"%char) rest)
                     = false).
        { change (tok ++ "]") with (tok ++ String "]" "").
          rewrite string_app_assoc.
          apply closes_other; auto. }
        rewrite Hc.
        rewrite replace_inert_prefix
          by (rewrite inert_app, (literal_name_inert tok Hname); reflexivity).
        rewrite prev_after_app.
        change (prev_after (prev_after (Some "["%char) tok) "]") with (Some "]"%char).
        rewrite (IH rest (Some "]"%char) (Some "]"%char));
          [reflexivity | lia | reflexivity | exact Htok].
Qed.

End OnePass.

Lemma single_pass_none (lk : string -> option string) (t : string)
    (prev : option ascii) :
  single_pass_go (only [] lk) 0 prev t = t.
Proof.
  revert prev; induction t as [|ch t IH]; intros prev; [reflexivity|].
  cbn [single_pass_go].
  destruct (Ascii.eqb ch "[" && Template.not_escaped prev);
    [destruct (Template.lazy_group true ch t)|]; cbn [only existsb];
    rewrite IH; reflexivity.
Qed.

Lemma single_pass_local (lk1 lk2 : string -> option string) (s : string) :
  forall (skip : nat) (prev : option ascii),
    Forall (fun tok => is_Some (lk1 tok) /\ lk1 tok = lk2 tok)
      (Template.findall_go skip prev s) ->
    single_pass_go lk1 skip prev s = single_pass_go lk2 skip prev s.
Proof.
  induction s as [|ch s IH]; intros skip prev H; [reflexivity|].
  cbn [single_pass_go Template.findall_go] in H |- *.
  destruct skip as [|k]; [|apply IH, H].
  destruct (Ascii.eqb ch "[" && Template.not_escaped prev);
    [|rewrite (IH _ _ H); reflexivity].
  destruct (Template.lazy_group true ch s) as [tok|];
    [|rewrite (IH _ _ H); reflexivity].
  apply Forall_cons in H as [[[u Hu] Heq] H].
  rewrite <- Heq, Hu, (IH _ _ H). reflexivity.
Qed.

Lemma first_occurrences_covers (cands : list string) :
  forall (seen : list string) (tok : string),
    tok ∈ cands ->
    existsb (String.eqb tok) (seen ++ first_occurrences seen cands) = true.
Proof.
  induction cands as [|c cs IH]; intros seen tok Hin.
  - apply elem_of_nil in Hin. contradiction.
  - cbn [first_occurrences]. apply elem_of_cons in Hin as [->|Hin].
    + destruct (existsb (String.eqb c) seen) eqn:E.
      * rewrite existsb_app, E. reflexivity.
      * rewrite existsb_app. cbn [existsb]. rewrite String.eqb_refl.
        cbn [orb]. apply orb_true_r.
    + destruct (existsb (String.eqb c) seen).
      * apply IH, Hin.
      * change (c :: first_occurrences (seen ++ [c]) cs)
          with ([c] ++ first_occurrences (seen ++ [c]) cs)%list.
        rewrite app_assoc. apply IH, Hin.
Qed.

Section Passes.

Variable lk : string -> option string.
Variable template : string.

Hypothesis tokens_inert :
  Forall (fun tok => Template.literal_name tok = true /\ forall u, lk tok = Some u -> inert u = true)
    (Template.findall template).

(** The passes for the names not yet seen, over what the passes for the
    names seen have made of the template. *)
Lemma passes_run (cands : list string) :
  forall seen : list string,
    Forall (fun c => c ∈ Template.findall template /\ is_Some (lk c)) cands ->
    Template.substitute
      (map (fun c => (c, default "" (lk c))) (first_occurrences seen cands))
      (single_pass_go (only seen lk) 0 None template)
    = Ok (single_pass_go (only (seen ++ first_occurrences seen cands) lk) 0 None template).
Proof.
  induction cands as [|c cs IH]; intros seen H.
  - cbn [first_occurrences map Template.substitute]. rewrite app_nil_r. reflexivity.
  - apply Forall_cons in H as [[Hin [v Hv]] H].
    cbn [first_occurrences].
    destruct (existsb (String.eqb c) seen) eqn:E; [apply IH, H|].
    cbn [map Template.substitute]. rewrite Hv. cbn [default from_option id].
    pose proof (proj1 (Forall_forall _ _) tokens_inert c Hin) as [Hname Hval].
    pose proof (Hval v Hv) as Hiv.
    destruct (findall_go_occurs 0 None template c Hin) as (Hne & Hline & _).
    rewrite sub_plain by (apply inert_plain, Hiv).
    rewrite (pass_adds_name lk seen c v E Hv Hname Hne Hline
               (String.length template) template None None);
      [ | lia | reflexivity | exact tokens_inert ].
    rewrite IH by exact H.
    change (c :: first_occurrences (seen ++ [c]) cs)
      with ([c] ++ first_occurrences (seen ++ [c]) cs)%list.
    rewrite app_assoc. reflexivity.
Qed.

End Passes.

Lemma one_pass_lookup (lk : string -> option string) (template : string) :
  Forall (fun c => Template.literal_name c = true /\ exists v, lk c = Some v /\ inert v = true)
    (Template.findall template) ->
  Template.substitute
    (map (fun c => (c, default "" (lk c)))
       (first_occurrences [] (Template.findall template)))
    template
  = Ok (single_pass_go lk 0 None template).
Proof.
  intros H.
  rewrite <- (single_pass_none lk template None) at 2.
  rewrite (passes_run lk template).
  - f_equal. apply single_pass_local. apply Forall_forall. intros tok Hin.
    rewrite only_in by (apply first_occurrences_covers; exact Hin).
    destruct (proj1 (Forall_forall _ _) H tok Hin) as [_ (v & Hv & _)].
    split; [exists v; exact Hv | reflexivity].
  - eapply Forall_impl; [exact H|]. intros tok [Hn (v & Hv & Hi)].
    split; [exact Hn|]. intros u Hu. congruence.
  - apply Forall_forall. intros tok Hin.
    destruct (proj1 (Forall_forall _ _) H tok Hin) as [_ (v & Hv & _)].
    split; [exact Hin | exists v; exact Hv].
Qed.

(** X16. Where the names in the template hold none of the characters
    that [re] reads as operators and the texts of their entries hold no
    opening bracket and no backslash, the passes of [_get_formatted], one [re.sub] for each
    name over the whole text, give what a single pass over the template
    gives: each token replaced by the text of its entry, and nothing
    that was put in read again. *)
Theorem one_pass_when_inert (attrs scope : gmap string string) (template : string) :
  Forall (fun c => Template.literal_name c = true
                   /\ exists v, Template.lookup_candidate attrs scope c = Some v
                                /\ inert v = true)
    (Template.findall template) ->
  Template._get_formatted attrs scope template
  = Ok (single_pass attrs scope template).
Proof.
  intros H. rewrite get_formatted_passes.
  - unfold passes, single_pass. apply one_pass_lookup, H.
  - eapply Forall_impl; [exact H|]. intros c [_ (v & Hv & _)]. exists v. exact Hv.
Qed.

Lemma one_pass_when_inert_witness :
  Template._get_formatted {[ "a" := "1" ]} {[ "b" := "]" ]} "[a]+\[b]=[b]=[a]"
  = Ok (single_pass {[ "a" := "1" ]} {[ "b" := "]" ]} "[a]+\[b]=[b]=[a]").
Proof.
  apply (one_pass_when_inert {[ "a" := "1" ]} {[ "b" := "]" ]} "[a]+\[b]=[b]=[a]").
  assert (E : Template.findall "[a]+\[b]=[b]=[a]" = ["a"; "b"; "a"])
    by (vm_compute; reflexivity).
  rewrite E.
  apply Forall_cons. split; [split; [reflexivity | exists "1"; split; vm_compute; reflexivity]|].
  apply Forall_cons. split; [split; [reflexivity | exists "]"; split; vm_compute; reflexivity]|].
  apply Forall_cons. split; [split; [reflexivity | exists "1"; split; vm_compute; reflexivity]|].
  apply Forall_nil. exact I.
Defined.

(** ** What the player reads *)

Lemma timed_machine (w : world) (ev : event) : timed w -> timed (fst (machine ev w)).
Proof.
  intros H. unfold machine.
  destruct (String.eqb (curr_widget_state (self w)) "problem") eqn:Ep.
  - apply String.eqb_eq in Ep.
    destruct ev as [|[] c]; cbn [fst]; try exact H.
    + destruct (PyStr.nonempty _); [|exact H].
      destruct (PyStr.int _); [|exact H].
      destruct (_ =? _); intros He; discriminate He.
    + destruct (PyStr.isnumeric c); exact H.
  - destruct (negb (is_confirm ev)); [exact H|].
    destruct (_ || _).
    + destruct (bool_decide _); cbn [fst].
      * intros _. eexists. reflexivity.
      * intros He. discriminate He.
    + intros He. discriminate He.
Qed.

Lemma reachable_timed (w : world) : reachable w -> timed w.
Proof.
  induction 1 as [tk clock dice tk_attrs ambient w Hinit | ev w Hr IH].
  - rewrite (init_shows _ _ _ _ _ (init_calls _ _ _ _ _ _ Hinit)) in Hinit.
    injection Hinit as <-. intros He. discriminate He.
  - unfold step. rewrite dispatch_machine by (apply reachable_inv, Hr).
    apply timed_machine, IH.
Qed.

(** X17. What the label reads in each state the event loop can reach.
    First state: the number of challenges.  Problem: the two factors,
    each from 0 to 10, and under them the characters typed so far,
    numeric ones only.  Correct and Incorrect: the fixed verdicts.  End:
    the score, from 0 to 5, out of 5 and the elapsed time as [str]
    prints the float.  No attribute is ever shown unset. *)
Theorem label_texts (w : world) :
  reachable w ->
  (curr_widget_state (self w) = "initial" ->
   text (self w) = "5 Challenges." ++ nl ++ "Click to Start!")
  /\ (curr_widget_state (self w) = "problem" ->
      exists a b buf,
        first_num (self w) = Some a /\ second_num (self w) = Some b
        /\ _user_input_buffer (self w) = Some buf
        /\ 0 <= a <= 10 /\ 0 <= b <= 10
        /\ PyStr.forallb_string PyStr.isnumeric_char buf = true
        /\ text (self w) = PyStr.str_int a ++ " X " ++ PyStr.str_int b ++ nl ++ buf)
  /\ (curr_widget_state (self w) = "correct" ->
      text (self w) = "That's correct!" ++ nl ++ "Click to continue.")
  /\ (curr_widget_state (self w) = "incorrect" ->
      text (self w) = "That's incorrect." ++ nl ++ "Click to continue.")
  /\ (curr_widget_state (self w) = "end" ->
      exists s e,
        num_solved (self w) = Some s /\ seconds_elapsed (self w) = Some e
        /\ 0 <= s <= 5
        /\ text (self w)
           = "You solved " ++ PyStr.str_int s ++ " out of 5 in " ++ PyFloat.str e
             ++ " seconds!" ++ nl ++ "Click to play again!").
Proof.
  intros Hr. pose proof (reachable_inv w Hr) as H.
  pose proof (reachable_shown w Hr) as Hs. unfold shown in Hs.
  pose proof (inv_problems w H) as Hn.
  repeat split; intros Hc; rewrite Hc in Hs.
  - rewrite Hs. cbv [display_text]. cbn [String.eqb Ascii.eqb Bool.eqb].
    rewrite Hn. reflexivity.
  - destruct (problem_session w H Hc) as (buf & a & b & Hbuf & Hnum & Ha & Hb & Hra & Hrb).
    exists a, b, buf. repeat (split; [assumption|]).
    rewrite Hs. cbv [display_text]. cbn [String.eqb Ascii.eqb Bool.eqb].
    rewrite Ha, Hb, Hbuf. reflexivity.
  - rewrite Hs. reflexivity.
  - rewrite Hs. reflexivity.
  - assert (Hses : session w) by (apply H; rewrite Hc; discriminate).
    destruct (ses_counters w Hses) as (s & d & Hsol & Hdis & H0 & Hsd & Hd5 & _).
    destruct (reachable_timed w Hr Hc) as [e He].
    exists s, e. split; [exact Hsol|]. split; [exact He|]. split; [lia|].
    rewrite Hs. cbv [display_text]. cbn [String.eqb Ascii.eqb Bool.eqb].
    rewrite Hsol, He, Hn. reflexivity.
Qed.

Lemma label_texts_witness :
  let w := run [Button1; KeyPress OtherKey "4"; KeyPress OtherKey "2"] sample_world in
  (curr_widget_state (self w) = "initial" ->
   text (self w) = "5 Challenges." ++ nl ++ "Click to Start!")
  /\ (curr_widget_state (self w) = "problem" ->
      exists a b buf,
        first_num (self w) = Some a /\ second_num (self w) = Some b
        /\ _user_input_buffer (self w) = Some buf
        /\ 0 <= a <= 10 /\ 0 <= b <= 10
        /\ PyStr.forallb_string PyStr.isnumeric_char buf = true
        /\ text (self w) = PyStr.str_int a ++ " X " ++ PyStr.str_int b ++ nl ++ buf)
  /\ (curr_widget_state (self w) = "correct" ->
      text (self w) = "That's correct!" ++ nl ++ "Click to continue.")
  /\ (curr_widget_state (self w) = "incorrect" ->
      text (self w) = "That's incorrect." ++ nl ++ "Click to continue.")
  /\ (curr_widget_state (self w) = "end" ->
      exists s e,
        num_solved (self w) = Some s /\ seconds_elapsed (self w) = Some e
        /\ 0 <= s <= 5
        /\ text (self w)
           = "You solved " ++ PyStr.str_int s ++ " out of 5 in " ++ PyFloat.str e
             ++ " seconds!" ++ nl ++ "Click to play again!").
Proof.
  intros w. apply (label_texts w). apply run_reachable, sample_reachable.
Defined.

Example label_while_typing :
  text (self (run [Button1; KeyPress OtherKey "4"; KeyPress OtherKey "2"] sample_world))
  = "3 X 10" ++ nl ++ "42".
Proof. vm_compute. reflexivity. Qed.

Example label_at_the_end :
  text (self (run (session_events ["30"; "1"; "2"; "3"; "4"]) sample_world))
  = "You solved 1 out of 5 in 3.0 seconds!" ++ nl ++ "Click to play again!".
Proof. vm_compute. reflexivity. Qed.

(** ** Values are replacement templates *)

Lemma lazy_group_exact (k rest : string) :
  forall (first : bool) (p : ascii),
    Template.literal_name k = true -> one_line k = true -> (first = true -> k <> "") ->
    Ascii.eqb (Template.last_char p k) Template.backslash = false ->
    Template.lazy_group first p (k ++ String "]" rest) = Some k.
Proof.
  induction k as [|x k IH]; intros first p Hname Hline Hne Hl.
  - destruct first; [exfalso; apply Hne; reflexivity|].
    cbn [Template.last_char] in Hl.
    change ("" ++ String "]" rest) with (String "]" rest).
    cbn [Template.lazy_group]. rewrite Hl. reflexivity.
  - rewrite one_line_cons in Hline. apply andb_prop in Hline as [Hx Hk].
    apply negb_true_iff in Hx.
    apply literal_name_cons in Hname.
    apply andb_prop in Hname as [[[_ Hb]%andb_prop _]%andb_prop Hname].
    apply negb_true_iff in Hb.
    change (String x k ++ String "]" rest) with (String x (k ++ String "]" rest)).
    cbn [Template.lazy_group]. rewrite Hb, andb_false_r. cbn [andb]. rewrite Hx.
    rewrite (IH false x Hname Hk); [reflexivity | discriminate | exact Hl].
Qed.




Example value_escapes_read :
  Template._get_formatted {[ "k" := "1\n2\\3\g<+0>" ]} ∅ "[k]"
  = Ok ("1" ++ nl ++ "2\3[k]").
Proof. vm_compute. reflexivity. Qed.

Example value_trailing_backslash :
  Template._get_formatted {[ "k" := "1\" ]} ∅ "[k]" = Raise ReError.
Proof. vm_compute. reflexivity. Qed.

Example value_unknown_group :
  Template._get_formatted {[ "k" := "\g<name>" ]} ∅ "[k]" = Raise IndexError.
Proof. vm_compute. reflexivity. Qed.

(** ** No state is a dead end *)

Lemma drop_last_length (c : ascii) (s : string) :
  String.length (PyStr.drop_last (String c s)) = String.length s.
Proof.
  revert c; induction s as [|d s IH]; intros c; [reflexivity|].
  change (PyStr.drop_last (String c (String d s)))
    with (String c (PyStr.drop_last (String d s))).
  cbn [String.length]. rewrite IH. reflexivity.
Qed.

Lemma erase_step (w : world) (buf : string) :
  reachable w ->
  curr_widget_state (self w) = "problem" ->
  _user_input_buffer (self w) = Some buf ->
  let w' := step (KeyPress BackSpace "") w in
  curr_widget_state (self w') = "problem"
  /\ _user_input_buffer (self w') = Some (PyStr.drop_last buf)
  /\ _num_displayed (self w') = _num_displayed (self w).
Proof.
  intros Hr Hc Hbuf w'. unfold w', step.
  rewrite dispatch_machine by (apply reachable_inv, Hr).
  rewrite (machine_key w BackSpace "" buf Hc Hbuf). cbn [fst].
  split; [exact Hc|]. split; reflexivity.
Qed.

Lemma erase_run (n : nat) :
  forall (w : world) (buf : string),
    reachable w ->
    curr_widget_state (self w) = "problem" ->
    _user_input_buffer (self w) = Some buf ->
    String.length buf = n ->
    let w' := run (repeat (KeyPress BackSpace "") n) w in
    curr_widget_state (self w') = "problem"
    /\ _user_input_buffer (self w') = Some ""
    /\ _num_displayed (self w') = _num_displayed (self w).
Proof.
  induction n as [|n IH]; intros w buf Hr Hc Hbuf Hlen.
  - destruct buf; [|discriminate]. cbn. auto.
  - destruct buf as [|c buf]; [discriminate|]. injection Hlen as Hlen.
    destruct (erase_step w (String c buf) Hr Hc Hbuf) as (Hc' & Hbuf' & Hd').
    cbn [repeat run fold_left].
    destruct (IH (step (KeyPress BackSpace "") w) (PyStr.drop_last (String c buf)))
      as (Hc'' & Hbuf'' & Hd'');
      [ apply reachable_step, Hr | exact Hc' | exact Hbuf'
      | rewrite drop_last_length; exact Hlen | ].
    split; [exact Hc''|]. split; [exact Hbuf''|]. rewrite <- Hd'. exact Hd''.
Qed.

Lemma zero_readable : readable "0".
Proof. split; [reflexivity | vm_compute; discriminate]. Qed.

Lemma zeros_decimal (n : nat) : Forall readable (repeat "0" n).
Proof.
  induction n as [|n IH]; cbn [repeat];
    [apply Forall_nil; exact I | apply Forall_cons; split; [exact zero_readable | exact IH]].
Qed.

Lemma asking_finishes (w : world) (d : Z) :
  asking d w -> exists evs, curr_widget_state (self (run evs w)) = "end".
Proof.
  intros Ha. pose proof (asking_bound w d Ha) as Hd.
  set (answers := repeat "0" (Z.to_nat (5 - d))).
  assert (Hlen : Z.of_nat (length answers) = 5 - d)
    by (unfold answers; rewrite repeat_length; lia).
  assert (Hdec : Forall readable answers).
  { unfold answers. apply zeros_decimal. }
  destruct (rounds_run answers w d Ha) as [Ha5 _]; [lia | exact Hdec |].
  rewrite Hlen in Ha5. replace (d + (5 - d)) with 5 in Ha5 by lia.
  destruct (answer_run _ 5 "0" Ha5 zero_readable) as [Hj _].
  destruct (click_end _ Hj) as [He _].
  exists (concat (map round answers)
          ++ [KeyPress OtherKey "0"; KeyPress Return ""] ++ [Button1])%list.
  rewrite !run_app. exact He.
Qed.

Lemma judged_finishes (w : world) (d : Z) :
  judged d w -> exists evs, curr_widget_state (self (run evs w)) = "end".
Proof.
  intros Hj. destruct (Z.eq_dec d 5) as [->|Hne].
  - exists [Button1]. apply (click_end w Hj).
  - destruct (click_next w d Hj Hne) as [Ha _].
    destruct (asking_finishes _ _ Ha) as [evs He].
    exists (Button1 :: evs). exact He.
Qed.

(** X19. No state is a dead end: from every world the event loop can
    reach, some sequence of events leads to the End state.  (Erase what
    is typed, answer each remaining problem with a digit, click.) *)
Theorem session_can_finish (w : world) :
  reachable w -> exists evs, curr_widget_state (self (run evs w)) = "end".
Proof.
  intros Hr. pose proof (reachable_inv w Hr) as H.
  pose proof (inv_state w H) as Hc. unfold state_names in Hc.
  repeat (apply elem_of_cons in Hc as [Hc|Hc]);
    [..|apply elem_of_nil in Hc; contradiction].
  - destruct (start_run w Hr (or_introl Hc)) as [Ha _].
    destruct (asking_finishes _ _ Ha) as [evs He].
    exists (Button1 :: evs). exact He.
  - assert (Hses : session w) by (apply H; rewrite Hc; discriminate).
    destruct (ses_counters w Hses) as (s & d & _ & Hdis & _).
    destruct (ses_buffer w Hses) as [buf Hbuf].
    destruct (erase_run (String.length buf) w buf Hr Hc Hbuf eq_refl)
      as (Hc' & Hbuf' & Hd').
    set (erase := repeat (KeyPress BackSpace "") (String.length buf)) in *.
    assert (Ha : asking d (run erase w)).
    { split; [apply reachable_inv, run_reachable, Hr|].
      split; [exact Hc'|]. split; [exact Hbuf'|]. rewrite Hd'. exact Hdis. }
    destruct (asking_finishes _ _ Ha) as [evs He].
    exists (erase ++ evs)%list. rewrite run_app. exact He.
  - assert (Hses : session w) by (apply H; rewrite Hc; discriminate).
    destruct (ses_counters w Hses) as (s & d & _ & Hdis & _).
    apply (judged_finishes w d). split; [exact H|]. split; [left; exact Hc | exact Hdis].
  - assert (Hses : session w) by (apply H; rewrite Hc; discriminate).
    destruct (ses_counters w Hses) as (s & d & _ & Hdis & _).
    apply (judged_finishes w d). split; [exact H|]. split; [right; exact Hc | exact Hdis].
  - exists []. exact Hc.
Qed.

Lemma session_can_finish_witness :
  exists evs,
    curr_widget_state
      (self (run evs (run [Button1; KeyPress OtherKey superscript_two] sample_world)))
    = "end".
Proof.
  apply (session_can_finish (run [Button1; KeyPress OtherKey superscript_two] sample_world)).
  apply run_reachable, sample_reachable.
Defined.

(** ** Where factors and times come from *)

Lemma sourced_same (w w' : world) :
  curr_widget_state (self w') = curr_widget_state (self w) ->
  rolls w' = rolls w -> dice w' = dice w -> ticks w' = ticks w -> clock w' = clock w ->
  first_num (self w') = first_num (self w) ->
  second_num (self w') = second_num (self w) ->
  _start_time (self w') = _start_time (self w) ->
  _end_time (self w') = _end_time (self w) ->
  seconds_elapsed (self w') = seconds_elapsed (self w) ->
  sourced w -> sourced w'.
Proof.
  unfold sourced. intros -> -> -> -> -> -> -> -> -> ->. auto.
Qed.

Lemma sourced_judged (name : string) (w w' : world) :
  curr_widget_state (self w) = "problem" ->
  curr_widget_state (self w') = name -> name <> "end" ->
  rolls w' = rolls w -> dice w' = dice w -> ticks w' = ticks w -> clock w' = clock w ->
  first_num (self w') = first_num (self w) ->
  second_num (self w') = second_num (self w) ->
  _start_time (self w') = _start_time (self w) ->
  sourced w -> sourced w'.
Proof.
  unfold sourced. intros Hc Hc' Hne -> -> -> -> -> -> -> H _.
  destruct H as (Hf & Ht & _); [rewrite Hc; discriminate|].
  split; [exact Hf|]. split.
  - intros _. apply Ht. rewrite Hc. discriminate.
  - intros He. rewrite Hc' in He. contradiction.
Qed.

Lemma drawn_table (w : world) :
  _min_factor (self w) = 0 -> _max_factor (self w) = 10 ->
  drawn (_min_factor (self w)) (_max_factor (self w)) w = dice w (rolls w) mod 11.
Proof. intros Hlo Hhi. unfold drawn. rewrite Hlo, Hhi. reflexivity. Qed.

Lemma sourced_machine (w : world) (ev : event) :
  inv w -> sourced w -> sourced (fst (machine ev w)).
Proof.
  intros Hinv H. pose proof (inv_min w Hinv) as Hlo. pose proof (inv_max w Hinv) as Hhi.
  assert (Hd0 : drawn (_min_factor (self w)) (_max_factor (self w)) w
                = dice w (rolls w) mod 11) by (apply drawn_table; assumption).
  assert (Hd1 : drawn (_min_factor (self w)) (_max_factor (self w)) (roll w)
                = dice w (S (rolls w)) mod 11) by (apply (drawn_table (roll w)); assumption).
  assert (Hd2 : drawn (_min_factor (self w)) (_max_factor (self w)) (roll (roll w))
                = dice w (S (S (rolls w))) mod 11)
    by (apply (drawn_table (roll (roll w))); assumption).
  assert (Hd3 : drawn (_min_factor (self w)) (_max_factor (self w)) (roll (roll (roll w)))
                = dice w (S (S (S (rolls w)))) mod 11)
    by (apply (drawn_table (roll (roll (roll w)))); assumption).
  unfold machine.
  destruct (String.eqb (curr_widget_state (self w)) "problem") eqn:Ep.
  - apply String.eqb_eq in Ep.
    destruct ev as [|[] c]; cbn [fst]; try exact H.
    + destruct (PyStr.nonempty _); [|exact H].
      destruct (PyStr.int _); [|exact H].
      destruct (_ =? _).
      * apply (sourced_judged "correct" w); try reflexivity; [exact Ep | discriminate | exact H].
      * apply (sourced_judged "incorrect" w); try reflexivity;
          [exact Ep | discriminate | exact H].
    + destruct (PyStr.isnumeric c); exact H.
  - destruct (negb (is_confirm ev)); [exact H|].
    destruct (String.eqb (curr_widget_state (self w)) "correct"
              || String.eqb (curr_widget_state (self w)) "incorrect") eqn:Ej.
    + assert (Hne : curr_widget_state (self w) <> "initial"
                    /\ curr_widget_state (self w) <> "end").
      { apply orb_prop in Ej as [->%String.eqb_eq | ->%String.eqb_eq];
          split; discriminate. }
      destruct Hne as [Hni Hne]. destruct (H Hni) as (_ & Ht & _).
      destruct (Ht Hne) as (k & Hk & Hs).
      destruct (bool_decide _); cbn [fst]; intros _.
      * split; [exists (rolls w); split; [reflexivity|];
                split; [exact (f_equal Some Hd0) | exact (f_equal Some Hd1)]|].
        split; [intros He; exfalso; apply He; reflexivity|].
        intros _. exists k.
        split; [exact (f_equal S Hk)|]. split; [exact Hs|].
        change (Some (clock w (ticks w)) = Some (clock w (S k))
                /\ Some (PyFloat.round1
                           (PyFloat.sub (clock w (ticks w))
                              (default (clock w (ticks w)) (_start_time (self w)))))
                   = Some (PyFloat.round1 (PyFloat.sub (clock w (S k)) (clock w k)))).
        rewrite Hs, Hk. split; reflexivity.
      * split; [exists (S (S (rolls w))); split; [reflexivity|];
                split; [exact (f_equal Some Hd2) | exact (f_equal Some Hd3)]|].
        split; [intros _; exists k; split; [exact Hk | exact Hs]|].
        intros He; discriminate He.
    + cbn [fst]. intros _.
      split; [exists (rolls w); split; [reflexivity|];
              split; [exact (f_equal Some Hd0) | exact (f_equal Some Hd1)]|].
      split; [intros _; exists (ticks w); split; reflexivity|].
      intros He; discriminate He.
Qed.

Lemma reachable_sourced (w : world) : reachable w -> sourced w.
Proof.
  induction 1 as [tk clock dice tk_attrs ambient w Hinit | ev w Hr IH].
  - rewrite (init_shows _ _ _ _ _ (init_calls _ _ _ _ _ _ Hinit)) in Hinit.
    injection Hinit as <-. intros He.
    exfalso. apply He. reflexivity.
  - unfold step. rewrite dispatch_machine by (apply reachable_inv, Hr).
    apply sourced_machine; [apply reachable_inv, Hr | exact IH].
Qed.

(** X20. Where the numbers on the screen come from.  Once a session
    has started, the two factors are always the two latest values drawn,
    reduced to the range from 0 to 10.  While the session runs the
    clock has been read once since it began, and [_start_time] is that
    reading; at its end the clock has been read once more, [_end_time]
    is that reading, and [seconds_elapsed] is the difference of the two,
    rounded to one decimal. *)
Theorem factors_and_times (w : world) :
  reachable w ->
  curr_widget_state (self w) <> "initial" ->
  (exists r, rolls w = S (S r)
             /\ first_num (self w) = Some (dice w r mod 11)
             /\ second_num (self w) = Some (dice w (S r) mod 11))
  /\ (curr_widget_state (self w) <> "end" ->
      exists k, ticks w = S k /\ _start_time (self w) = Some (clock w k))
  /\ (curr_widget_state (self w) = "end" ->
      exists k, ticks w = S (S k)
                /\ _start_time (self w) = Some (clock w k)
                /\ _end_time (self w) = Some (clock w (S k))
                /\ seconds_elapsed (self w)
                   = Some (PyFloat.round1 (PyFloat.sub (clock w (S k)) (clock w k)))).
Proof. intros Hr. exact (reachable_sourced w Hr). Qed.

Lemma factors_and_times_witness :
  let w := run (session_events ["30"; "1"; "2"; "3"; "4"]) sample_world in
  (exists r, rolls w = S (S r)
             /\ first_num (self w) = Some (dice w r mod 11)
             /\ second_num (self w) = Some (dice w (S r) mod 11))
  /\ (curr_widget_state (self w) <> "end" ->
      exists k, ticks w = S k /\ _start_time (self w) = Some (clock w k))
  /\ (curr_widget_state (self w) = "end" ->
      exists k, ticks w = S (S k)
                /\ _start_time (self w) = Some (clock w k)
                /\ _end_time (self w) = Some (clock w (S k))
                /\ seconds_elapsed (self w)
                   = Some (PyFloat.round1 (PyFloat.sub (clock w (S k)) (clock w k)))).
Proof.
  intros w. apply (factors_and_times w).
  - apply run_reachable, sample_reachable.
  - vm_compute. discriminate.
Defined.

(** ** The calls of a session, whatever the events *)

Lemma next_problem_displays (w : world) :
  _min_factor (self w) <= _max_factor (self w) ->
  next_problem w = _display_problem (cleared w).
Proof.
  intros H. unfold next_problem.
  erewrite bind_ok by (apply gen_factors_run; exact H).
  erewrite bind_ok by reflexivity. reflexivity.
Qed.

(** One event of a running session: [k] is the count of problems shown
    or, at the end, one more than the number of problems. *)
Lemma tally_step (w : world) (ev : event) (k : Z) :
  inv w -> curr_widget_state (self w) <> "initial" ->
  (curr_widget_state (self w) <> "end" -> _num_displayed (self w) = Some k) ->
  (curr_widget_state (self w) = "end" -> k = 6) ->
  handler_calls h_start_game [ev] w = 0%nat ->
  let c := Z.of_nat (handler_calls h_next_problem [ev] w) in
  curr_widget_state (self (step ev w)) <> "initial"
  /\ (curr_widget_state (self (step ev w)) <> "end" ->
      _num_displayed (self (step ev w)) = Some (k + c))
  /\ (curr_widget_state (self (step ev w)) = "end" -> k + c = 6).
Proof.
  intros H Hni Hk He Hs.
  pose proof (inv_state w H) as Hc. unfold state_names in Hc.
  cbn [handler_calls] in Hs |- *. rewrite (inv_bindings w H) in Hs |- *.
  unfold step. rewrite (dispatch_machine w ev H). unfold machine.
  repeat (apply elem_of_cons in Hc as [Hc|Hc]);
    [..|apply elem_of_nil in Hc; contradiction].
  - contradiction.
  - assert (Hd : _num_displayed (self w) = Some k) by (apply Hk; rewrite Hc; discriminate).
    rewrite Hc, binding_for_problem.
    change (String.eqb "problem" "problem") with true. cbv iota.
    destruct ev as [|[] ch]; cbn [handler_eqb Nat.add Z.of_nat]; rewrite Z.add_0_r.
    + cbn [fst]. rewrite Hc. split; [discriminate|]. split; [auto | discriminate].
    + destruct (PyStr.nonempty _);
        [destruct (PyStr.int _); [destruct (_ =? _)|]|]; cbn [fst].
      * split; [discriminate|]. split; [intros _; exact Hd | discriminate].
      * split; [discriminate|]. split; [intros _; exact Hd | discriminate].
      * rewrite Hc. split; [discriminate|]. split; [auto | discriminate].
      * rewrite Hc. split; [discriminate|]. split; [auto | discriminate].
    + cbn [fst]. change (curr_widget_state (self (refreshed ?x))) with (curr_widget_state (self w)).
      rewrite Hc. split; [discriminate|]. split; [intros _; exact Hd | discriminate].
    + destruct (PyStr.isnumeric ch); cbn [fst].
      * change (curr_widget_state (self (refreshed ?x))) with (curr_widget_state (self w)).
        rewrite Hc. split; [discriminate|]. split; [intros _; exact Hd | discriminate].
      * rewrite Hc. split; [discriminate|]. split; [auto | discriminate].
  - assert (Hd : _num_displayed (self w) = Some k) by (apply Hk; rewrite Hc; discriminate).
    assert (Hses : session w) by (apply H; rewrite Hc; discriminate).
    destruct (ses_counters w Hses) as (s & d & _ & Hdis & _ & _ & Hd5 & _).
    rewrite (inv_problems w H) in Hd5.
    rewrite Hd in Hdis. injection Hdis as <-.
    rewrite Hc, binding_for_correct. cbv iota. cbn [orb String.eqb Ascii.eqb Bool.eqb].
    destruct ev as [|[] ch]; cbn [is_confirm negb handler_eqb Nat.add Z.of_nat fst];
      rewrite ?Z.add_0_r, ?Hc;
      try (split; [discriminate|]; split; [auto | discriminate]).
    + rewrite (inv_problems w H), Hd.
      destruct (bool_decide_reflect (Some k = Some 5)) as [[= ->]|Hne]; cbn [fst].
      * split; [discriminate|]. split; [intros X; exfalso; apply X; reflexivity | reflexivity].
      * split; [discriminate|]. split; [intros _; reflexivity | discriminate].
    + rewrite (inv_problems w H), Hd.
      destruct (bool_decide_reflect (Some k = Some 5)) as [[= ->]|Hne]; cbn [fst].
      * split; [discriminate|]. split; [intros X; exfalso; apply X; reflexivity | reflexivity].
      * split; [discriminate|]. split; [intros _; reflexivity | discriminate].
  - assert (Hd : _num_displayed (self w) = Some k) by (apply Hk; rewrite Hc; discriminate).
    assert (Hses : session w) by (apply H; rewrite Hc; discriminate).
    destruct (ses_counters w Hses) as (s & d & _ & Hdis & _ & _ & Hd5 & _).
    rewrite (inv_problems w H) in Hd5.
    rewrite Hd in Hdis. injection Hdis as <-.
    rewrite Hc, binding_for_incorrect. cbv iota. cbn [orb String.eqb Ascii.eqb Bool.eqb].
    destruct ev as [|[] ch]; cbn [is_confirm negb handler_eqb Nat.add Z.of_nat fst];
      rewrite ?Z.add_0_r, ?Hc;
      try (split; [discriminate|]; split; [auto | discriminate]).
    + rewrite (inv_problems w H), Hd.
      destruct (bool_decide_reflect (Some k = Some 5)) as [[= ->]|Hne]; cbn [fst].
      * split; [discriminate|]. split; [intros X; exfalso; apply X; reflexivity | reflexivity].
      * split; [discriminate|]. split; [intros _; reflexivity | discriminate].
    + rewrite (inv_problems w H), Hd.
      destruct (bool_decide_reflect (Some k = Some 5)) as [[= ->]|Hne]; cbn [fst].
      * split; [discriminate|]. split; [intros X; exfalso; apply X; reflexivity | reflexivity].
      * split; [discriminate|]. split; [intros _; reflexivity | discriminate].
  - rewrite Hc in Hs |- *. rewrite binding_for_end in Hs |- *.
    change (String.eqb "end" "problem") with false. cbv iota.
    destruct ev as [|[] ch]; cbn [handler_eqb] in Hs; try discriminate Hs;
      cbn [is_confirm negb handler_eqb Nat.add Z.of_nat fst]; rewrite Z.add_0_r, Hc;
      (split; [discriminate|]; split; [intros X; exfalso; apply X; reflexivity | auto]).
Qed.

Lemma session_tally (evs : list event) :
  forall (w : world) (k : Z),
    inv w -> curr_widget_state (self w) <> "initial" ->
    (curr_widget_state (self w) <> "end" -> _num_displayed (self w) = Some k) ->
    (curr_widget_state (self w) = "end" -> k = 6) ->
    handler_calls h_start_game evs w = 0%nat ->
    let n := Z.of_nat (handler_calls h_next_problem evs w) in
    k + n <= 6
    /\ (curr_widget_state (self (run evs w)) = "end" <-> k + n = 6)
    /\ (curr_widget_state (self (run evs w)) <> "end" ->
        _num_displayed (self (run evs w)) = Some (k + n)).
Proof.
  induction evs as [|ev evs IH]; intros w k H Hni Hk He Hs.
  - cbn [handler_calls run fold_left Z.of_nat]. rewrite Z.add_0_r.
    assert (Hle : curr_widget_state (self w) <> "end" -> k <= 5).
    { intros Hne. assert (Hses : session w) by (apply H, Hni).
      destruct (ses_counters w Hses) as (s & d & _ & Hdis & _ & _ & Hd5 & _).
      rewrite (inv_problems w H) in Hd5. rewrite (Hk Hne) in Hdis.
      injection Hdis as <-. exact Hd5. }
    destruct (String.eqb_spec (curr_widget_state (self w)) "end") as [Hc|Hc].
    + specialize (He Hc). split; [lia|]. split; [tauto | contradiction].
    + specialize (Hle Hc). split; [lia|]. split; [split; [contradiction | lia] | exact Hk].
  - assert (Hs1 : handler_calls h_start_game [ev] w = 0%nat
                  /\ handler_calls h_start_game evs (step ev w) = 0%nat).
    { cbn [handler_calls] in Hs |- *. lia. }
    destruct Hs1 as [Hs1 Hs2].
    destruct (tally_step w ev k H Hni Hk He Hs1) as (Hni' & Hk' & He').
    specialize (IH (step ev w) _ (inv_step w ev H) Hni' Hk' He' Hs2).
    cbv zeta in IH |- *.
    change (run (ev :: evs) w) with (run evs (step ev w)).
    replace (Z.of_nat (handler_calls h_next_problem (ev :: evs) w))
      with (Z.of_nat (handler_calls h_next_problem [ev] w)
            + Z.of_nat (handler_calls h_next_problem evs (step ev w)))
      by (cbn [handler_calls]; lia).
    rewrite Z.add_assoc. exact IH.
Qed.

Lemma confirm_starts (w : world) (ev : event) :
  inv w ->
  curr_widget_state (self w) = "initial" \/ curr_widget_state (self w) = "end" ->
  is_confirm ev = true ->
  handler_calls h_start_game [ev] w = 1%nat
  /\ handler_calls h_next_problem [ev] w = 0%nat
  /\ curr_widget_state (self (step ev w)) = "problem"
  /\ _num_displayed (self (step ev w)) = Some 1.
Proof.
  intros H Hc Hev. cbn [handler_calls]. rewrite (inv_bindings w H).
  unfold step. rewrite (dispatch_machine w ev H). unfold machine.
  destruct Hc as [Hc|Hc]; rewrite Hc;
    [rewrite binding_for_initial | rewrite binding_for_end];
    destruct ev as [|[] ch]; try discriminate Hev; repeat split.
Qed.

(** C7, as the code has it.  Where [_num_displayed] equals
    [num_problems], [_display_problem], called in a state of the table
    with that state's bindings and with [_start_time] set, reads the
    clock into [_end_time], sets [seconds_elapsed] to
    [round(_end_time - _start_time, 1)] and goes to End; the value is
    not negative when the start time is at most the end time.
    Otherwise, with the limits in order and no backslash in the buffer,
    it draws a new pair of factors, goes to Problem and adds one to
    [_num_displayed].  [start_game] and [next_problem] each end with one
    invocation of it.  In every session, whatever the events after the
    one that starts it and as long as none starts another, at most five
    calls of [next_problem] are made, the widget is in the End state
    exactly when five have been made, and until then [_num_displayed] is
    one more than their number: the fifth call of [next_problem], the
    sixth invocation of [_display_problem], is the one that goes to End,
    and there is no sixth call.  So it is in the session of five
    answers that [int] reads, each typed as one key and confirmed: the
    click after the fifth judged answer is the fifth call. *)
Theorem display_problem_branches :
  (forall w s0,
      curr_widget_state (self w) ∈ state_names ->
      bindings (self w) = bindings_of (curr_widget_state (self w)) ->
      _num_displayed (self w) = Some (num_problems (self w)) ->
      _start_time (self w) = Some s0 ->
      let now := clock w (ticks w) in
      let elapsed := PyFloat.round1 (PyFloat.sub now s0) in
      exists t,
        _display_problem w
        = (transitioned "end" t
             (with_self
                (fun s => set_seconds_elapsed (Some elapsed) (set_end_time (Some now) s))
                (tick w)), Ok tt)
        /\ curr_widget_state (self (fst (_display_problem w))) = "end"
        /\ _end_time (self (fst (_display_problem w))) = Some now
        /\ seconds_elapsed (self (fst (_display_problem w))) = Some elapsed
        /\ _num_displayed (self (fst (_display_problem w))) = _num_displayed (self w)
        /\ (PyFloat.finite_le s0 now = true -> PyFloat.nonneg elapsed = true))
  /\ (forall w d,
        curr_widget_state (self w) ∈ state_names ->
        bindings (self w) = bindings_of (curr_widget_state (self w)) ->
        buffer_plain w ->
        _min_factor (self w) <= _max_factor (self w) ->
        _num_displayed (self w) = Some d ->
        d <> num_problems (self w) ->
        let lo := _min_factor (self w) in
        let hi := _max_factor (self w) in
        exists t,
          _display_problem w
          = (with_self (set_num_displayed (Some (d + 1)))
               (transitioned "problem" t (with_factors w)), Ok tt)
          /\ curr_widget_state (self (fst (_display_problem w))) = "problem"
          /\ _num_displayed (self (fst (_display_problem w))) = Some (d + 1)
          /\ first_num (self (fst (_display_problem w))) = Some (drawn lo hi w)
          /\ second_num (self (fst (_display_problem w))) = Some (drawn lo hi (roll w))
          /\ lo <= drawn lo hi w <= hi
          /\ lo <= drawn lo hi (roll w) <= hi)
  /\ (forall w, start_game w = _display_problem (started w))
  /\ (forall w, _min_factor (self w) <= _max_factor (self w) ->
                next_problem w = _display_problem (cleared w))
  /\ (forall w0 ev0 evs,
        reachable w0 ->
        curr_widget_state (self w0) = "initial" \/ curr_widget_state (self w0) = "end" ->
        is_confirm ev0 = true ->
        handler_calls h_start_game evs (step ev0 w0) = 0%nat ->
        let n := handler_calls h_next_problem evs (step ev0 w0) in
        let w := run (ev0 :: evs) w0 in
        handler_calls h_start_game (ev0 :: evs) w0 = 1%nat
        /\ handler_calls h_next_problem (ev0 :: evs) w0 = n
        /\ display_calls (ev0 :: evs) w0 = S n
        /\ (n <= 5)%nat
        /\ (curr_widget_state (self w) = "end" <-> n = 5%nat)
        /\ (curr_widget_state (self w) <> "end" ->
            _num_displayed (self w) = Some (Z.of_nat n + 1)))
  /\ (forall w firsts last,
        reachable w ->
        curr_widget_state (self w) = "initial" \/ curr_widget_state (self w) = "end" ->
        length firsts = 4%nat ->
        Forall readable (last :: firsts) ->
        let events :=
          app (session_events firsts) [KeyPress OtherKey last; KeyPress Return ""] in
        judged 5 (run events w)
        /\ handler_calls h_next_problem events w = 4%nat
        /\ binding_for Button1 (bindings (self (run events w))) = Some h_next_problem
        /\ curr_widget_state (self (step Button1 (run events w))) = "end").
Proof.
  split; [|split; [|split; [|split; [|split]]]].
  - intros w s0 Hc Hb Hd Hs now elapsed.
    destruct (display_end_run w s0 Hd Hs Hc Hb) as [t Ht].
    exists t. split; [exact Ht|]. rewrite Ht.
    do 3 (split; [reflexivity|]). split; [reflexivity|].
    apply elapsed_nonneg.
  - intros w d Hc Hb Hbuf Hr Hd Hne lo hi.
    destruct (display_next_run w d Hd Hne Hr Hc Hb Hbuf) as [t Ht].
    exists t. split; [exact Ht|]. rewrite Ht.
    do 4 (split; [reflexivity|]).
    split; apply drawn_in_range; exact Hr.
  - reflexivity.
  - exact next_problem_displays.
  - intros w0 ev0 evs Hr Hc Hev Hs n w.
    pose proof (reachable_inv w0 Hr) as H.
    destruct (confirm_starts w0 ev0 H Hc Hev) as (C1 & C2 & Hp & Hd).
    assert (S1 : handler_calls h_start_game (ev0 :: evs) w0 = 1%nat).
    { change (ev0 :: evs) with (app [ev0] evs). rewrite handler_calls_app, C1.
      change (run [ev0] w0) with (step ev0 w0). rewrite Hs. reflexivity. }
    assert (N1 : handler_calls h_next_problem (ev0 :: evs) w0 = n).
    { change (ev0 :: evs) with (app [ev0] evs). rewrite handler_calls_app, C2.
      reflexivity. }
    destruct (session_tally evs (step ev0 w0) 1) as (Hle & Hend & Hcount).
    + apply inv_step, H.
    + rewrite Hp. discriminate.
    + intros _. exact Hd.
    + rewrite Hp. discriminate.
    + exact Hs.
    + fold n in Hle, Hend, Hcount.
      change (run evs (step ev0 w0)) with w in Hend, Hcount.
      split; [exact S1|]. split; [exact N1|].
      split; [unfold display_calls; rewrite S1, N1; reflexivity|].
      split; [lia|]. split; [rewrite Hend; lia|].
      intros Hne. rewrite (Hcount Hne). f_equal. lia.
  - intros w firsts last Hr Hc Hlen Hall events.
    apply Forall_cons in Hall as [Hlast Hfirsts].
    destruct (start_run w Hr Hc) as [H1 C1].
    destruct (rounds_run firsts _ 1 H1) as [H2 C2]; [rewrite Hlen; lia | exact Hfirsts |].
    rewrite Hlen in H2. change (1 + Z.of_nat 4) with 5 in H2.
    destruct (answer_run _ 5 last H2 Hlast) as [H3 C3].
    assert (E : run events w
                = run [KeyPress OtherKey last; KeyPress Return ""]
                    (run (concat (map round firsts)) (step Button1 w))).
    { subst events. unfold session_events. rewrite run_app. reflexivity. }
    assert (C : handler_calls h_next_problem events w = 4%nat).
    { subst events. unfold session_events.
      change (Button1 :: concat (map round firsts))
        with (app [Button1] (concat (map round firsts))).
      rewrite !handler_calls_app, C1.
      change (run [Button1] w) with (step Button1 w).
      rewrite C2, Hlen.
      change (run (app [Button1] (concat (map round firsts))) w)
        with (run (concat (map round firsts)) (step Button1 w)).
      rewrite C3. reflexivity. }
    rewrite E. split; [exact H3|]. split; [exact C|].
    destruct H3 as (Hi & Hj & Hd).
    split; [apply (step_judged _ Hi Hj)|].
    apply (click_end _ (conj Hi (conj Hj Hd))).
Qed.

Lemma display_problem_branches_witness :
  let evs :=
    app (concat (map round ["1"; "2"; "3"; "4"]))
      [KeyPress OtherKey "5"; KeyPress Return ""; Button1; KeyPress BackSpace ""] in
  let n := handler_calls h_next_problem evs (step Button1 sample_world) in
  let w := run (Button1 :: evs) sample_world in
  handler_calls h_start_game (Button1 :: evs) sample_world = 1%nat
  /\ handler_calls h_next_problem (Button1 :: evs) sample_world = n
  /\ display_calls (Button1 :: evs) sample_world = S n
  /\ (n <= 5)%nat
  /\ (curr_widget_state (self w) = "end" <-> n = 5%nat)
  /\ (curr_widget_state (self w) <> "end" ->
      _num_displayed (self w) = Some (Z.of_nat n + 1)).
Proof.
  assert (Hc : curr_widget_state (self sample_world) = "initial")
    by (vm_compute; reflexivity).
  intros evs.
  assert (Hs : handler_calls h_start_game evs (step Button1 sample_world) = 0%nat)
    by (vm_compute; reflexivity).
  exact (proj1 (proj2 (proj2 (proj2 (proj2 display_problem_branches))))
           sample_world Button1 evs sample_reachable (or_introl Hc) eq_refl Hs).
Defined.

Example sixth_display_ends :
  let evs :=
    app (concat (map round ["1"; "2"; "3"; "4"]))
      [KeyPress OtherKey "5"; KeyPress Return ""; Button1; KeyPress BackSpace ""] in
  handler_calls h_next_problem (Button1 :: evs) sample_world = 5%nat
  /\ display_calls (Button1 :: evs) sample_world = 6%nat
  /\ curr_widget_state (self (run (Button1 :: evs) sample_world)) = "end".
Proof. repeat split; vm_compute; reflexivity. Qed.

(** ** Passes over what earlier passes put in *)

Lemma substitute_fold (reps : list (string * string)) :
  forall template,
    Forall (fun kv => Template.plain kv.2 = true) reps ->
    Template.substitute reps template = Ok (run_passes reps template).
Proof.
  induction reps as [|[k v] reps IH]; intros template Hall; [reflexivity|].
  apply Forall_cons in Hall as [Hv Hall]. cbn [Template.substitute].
  rewrite (sub_plain k v template Hv). apply IH, Hall.
Qed.

Lemma token_replace (name text rest : string) (prev : option ascii) :
  Template.literal_name name = true -> Template.not_escaped prev = true ->
  Template.replace_go name text 0 prev (String "[" (name ++ String "]" rest))
  = text ++ Template.replace_go name text 0 (Some "]"%char) rest.
Proof.
  intros Hn Hp. apply replace_at_match; [exact Hp|].
  apply last_char_name; [exact Hn | reflexivity].
Qed.

Lemma token_other (a b text rest : string) (prev : option ascii) :
  Template.literal_name a = true -> Template.literal_name b = true -> a <> b ->
  Template.replace_go a text 0 prev (String "[" (b ++ String "]" rest))
  = String "[" (b ++ String "]" (Template.replace_go a text 0 (Some "]"%char) rest)).
Proof.
  intros Ha Hb Hab. cbn [Template.replace_go].
  rewrite (closes_other a b rest Ha Hb Hab), andb_false_r. f_equal.
  change (b ++ String "]" rest) with (b ++ (String "]" "" ++ rest)).
  rewrite <- string_app_assoc.
  rewrite replace_inert_prefix
    by (rewrite inert_app, (literal_name_inert b Hb); reflexivity).
  rewrite prev_after_app, string_app_assoc. reflexivity.
Qed.

Lemma findall_two_tokens (a b : string) :
  Template.literal_name a = true -> one_line a = true -> a <> "" ->
  Template.literal_name b = true -> one_line b = true -> b <> "" ->
  Template.findall (String "[" (a ++ String "]" (String "[" (b ++ "]")))) = [a; b].
Proof.
  intros Ha La Na Hb Lb Nb. unfold Template.findall.
  rewrite findall_token;
    [ | reflexivity
      | apply lazy_group_exact;
        [exact Ha | exact La | intros _; exact Na
        | apply last_char_name; [exact Ha | reflexivity]] ].
  rewrite findall_token;
    [ | reflexivity
      | apply lazy_group_exact;
        [exact Hb | exact Lb | intros _; exact Nb
        | apply last_char_name; [exact Hb | reflexivity]] ].
  reflexivity.
Qed.

Lemma passes_two_tokens (attrs scope : gmap string string) (a b va vb : string) :
  Template.literal_name a = true -> one_line a = true -> a <> "" ->
  Template.literal_name b = true -> one_line b = true -> b <> "" ->
  a <> b ->
  Template.lookup_candidate attrs scope a = Some va ->
  Template.lookup_candidate attrs scope b = Some vb ->
  Template.plain va = true -> Template.plain vb = true ->
  Template._get_formatted attrs scope
    (String "[" (a ++ String "]" (String "[" (b ++ "]"))))
  = Ok (Template.replace_go b vb 0 None
          (Template.replace_go a va 0 None
             (String "[" (a ++ String "]" (String "[" (b ++ "]")))))).
Proof.
  intros Ha La Na Hb Lb Nb Hab Hva Hvb Pa Pb.
  assert (F : Template.findall (String "[" (a ++ String "]" (String "[" (b ++ "]"))))
              = [a; b]) by (apply findall_two_tokens; assumption).
  rewrite get_formatted_passes
    by (rewrite F; repeat (apply Forall_cons; split; [eauto|]); apply Forall_nil; exact I).
  unfold passes. rewrite F. cbn [first_occurrences existsb app orb].
  replace (String.eqb b a) with false
    by (symmetry; apply String.eqb_neq; congruence).
  cbn [orb first_occurrences map]. rewrite Hva, Hvb. cbn [default from_option id].
  rewrite substitute_fold
    by (repeat (apply Forall_cons; split; [assumption|]); apply Forall_nil; exact I).
  reflexivity.
Qed.

Lemma token_plain (b : string) :
  Template.literal_name b = true -> Template.plain (String "[" (b ++ "]")) = true.
Proof.
  intros Hb. rewrite plain_cons, plain_app.
  rewrite (inert_plain b (literal_name_inert b Hb)). reflexivity.
Qed.

Lemma replace_nil (name text : string) (prev : option ascii) :
  Template.replace_go name text 0 prev "" = "".
Proof. reflexivity. Qed.

(** The value of [a] holds the token of [b]: after the pass of [a]
    the pass of [b] replaces that token too; made before the pass of
    [a], it leaves the token in. *)
Lemma inserted_token_passes (attrs scope : gmap string string)
    (a b x y vb : string) :
  Template.literal_name a = true -> one_line a = true -> a <> "" ->
  Template.literal_name b = true -> one_line b = true -> b <> "" ->
  a <> b ->
  inert x = true -> inert y = true -> inert vb = true ->
  Template.lookup_candidate attrs scope a = Some (x ++ String "[" (b ++ String "]" y)) ->
  Template.lookup_candidate attrs scope b = Some vb ->
  Template._get_formatted attrs scope
    (String "[" (a ++ String "]" (String "[" (b ++ "]"))))
  = Ok (x ++ vb ++ y ++ vb)
  /\ Template._get_formatted attrs scope
       (String "[" (b ++ String "]" (String "[" (a ++ "]"))))
     = Ok (vb ++ x ++ String "[" (b ++ String "]" y))
  /\ single_pass attrs scope (String "[" (a ++ String "]" (String "[" (b ++ "]"))))
     = (x ++ String "[" (b ++ String "]" y)) ++ vb.
Proof.
  intros Ha La Na Hb Lb Nb Hab Hx Hy Hv Hva Hvb.
  assert (Hba : b <> a) by congruence.
  assert (Pv : Template.plain vb = true) by (apply inert_plain, Hv).
  assert (Pa : Template.plain (x ++ String "[" (b ++ String "]" y)) = true).
  { rewrite plain_app, plain_cons, plain_app, plain_cons.
    rewrite (inert_plain x Hx), (inert_plain y Hy),
      (inert_plain b (literal_name_inert b Hb)). reflexivity. }
  split; [|split].
  - rewrite (passes_two_tokens attrs scope a b (x ++ String "[" (b ++ String "]" y)) vb)
      by assumption. f_equal.
    rewrite token_replace by (exact Ha || reflexivity).
    rewrite token_other by assumption. rewrite replace_nil.
    rewrite string_app_assoc.
    change (String "[" (b ++ String "]" y) ++ String "[" (b ++ "]"))
      with (String "[" ((b ++ String "]" y) ++ String "[" (b ++ "]"))).
    rewrite string_app_assoc.
    change (String "]" y ++ String "[" (b ++ "]"))
      with (String "]" (y ++ String "[" (b ++ "]"))).
    rewrite replace_inert_prefix by exact Hx.
    rewrite token_replace by (exact Hb || (apply not_escaped_after; [exact Hx | reflexivity])).
    rewrite replace_inert_prefix by exact Hy.
    rewrite token_replace by (exact Hb || (apply not_escaped_after; [exact Hy | reflexivity])).
    rewrite replace_nil, string_app_nil_r. reflexivity.
  - rewrite (passes_two_tokens attrs scope b a vb (x ++ String "[" (b ++ String "]" y)))
      by assumption. f_equal.
    rewrite token_replace by (exact Hb || reflexivity).
    rewrite token_other by assumption. rewrite replace_nil.
    rewrite replace_inert_prefix by exact Hv.
    rewrite token_replace by (exact Ha || (apply not_escaped_after; [exact Hv | reflexivity])).
    rewrite replace_nil, string_app_nil_r. reflexivity.
  - unfold single_pass.
    rewrite single_pass_token;
      [ | reflexivity
        | apply lazy_group_exact;
          [exact Ha | exact La | intros _; exact Na
          | apply last_char_name; [exact Ha | reflexivity]]
        | exact Ha ].
    rewrite Hva.
    rewrite single_pass_token;
      [ | reflexivity
        | apply lazy_group_exact;
          [exact Hb | exact Lb | intros _; exact Nb
          | apply last_char_name; [exact Hb | reflexivity]]
        | exact Hb ].
    rewrite Hvb. cbn [single_pass_go]. rewrite string_app_nil_r. reflexivity.
Qed.

(** C4, as the code has it, for candidates that hold none of the
    characters [re] reads as operators.  With an entry for every token,
    [_get_formatted] makes one pass of [re.sub] for each distinct token,
    in the order of first occurrence, each over the text the passes
    before it have left: with values without backslash the result is the
    passes folded over the template.  A value without backslash is put
    in as it is; at a match a pass writes the value and goes on behind
    the match, so it does not read what it has written itself.  But a
    later pass reads what an earlier one has written: where the value of
    [a] holds the token of [b], the template of the two tokens [a], [b]
    comes out with that token replaced, against what a single pass
    gives, and the template [b], [a] with the token left in.  For the
    templates of the state table, in a world whose buffer holds numeric
    characters only, the passes give what a single pass gives. *)
Theorem substitution_by_passes :
  (forall attrs scope template,
      Forall (fun c => Template.literal_name c = true
                       /\ is_Some (Template.lookup_candidate attrs scope c))
        (Template.findall template) ->
      Template._get_formatted attrs scope template
      = Template.substitute (passes attrs scope template) template)
  /\ (forall reps template,
        Forall (fun kv => Template.literal_name kv.1 = true
                          /\ Template.plain kv.2 = true) reps ->
        Template.substitute reps template = Ok (run_passes reps template))
  /\ (forall name v template,
        Template.literal_name name = true ->
        Template.plain v = true ->
        Template.sub name v template = Ok (Template.replace_go name v 0 None template))
  /\ (forall name text rest prev,
        Template.literal_name name = true ->
        Template.not_escaped prev = true ->
        Template.replace_go name text 0 prev (String "[" (name ++ String "]" rest))
        = text ++ Template.replace_go name text 0 (Some "]"%char) rest)
  /\ (forall attrs scope a b x y vb,
        Template.literal_name a = true -> one_line a = true -> a <> "" ->
        Template.literal_name b = true -> one_line b = true -> b <> "" ->
        a <> b ->
        inert x = true -> inert y = true -> inert vb = true ->
        Template.lookup_candidate attrs scope a
        = Some (x ++ String "[" (b ++ String "]" y)) ->
        Template.lookup_candidate attrs scope b = Some vb ->
        Template._get_formatted attrs scope
          (String "[" (a ++ String "]" (String "[" (b ++ "]"))))
        = Ok (x ++ vb ++ y ++ vb)
        /\ Template._get_formatted attrs scope
             (String "[" (b ++ String "]" (String "[" (a ++ "]"))))
           = Ok (vb ++ x ++ String "[" (b ++ String "]" y))
        /\ single_pass attrs scope
             (String "[" (a ++ String "]" (String "[" (b ++ "]"))))
           = (x ++ String "[" (b ++ String "]" y)) ++ vb)
  /\ (forall name st w,
        assoc name widget_states = Some st ->
        numeric_buffer w ->
        _get_formatted (message st) w
        = (w, Ok (single_pass (vars_text w) (ambient w (message st)) (message st)))).
Proof.
  split; [|split; [|split; [|split; [|split]]]].
  - intros attrs scope template Hall. apply get_formatted_passes.
    eapply Forall_impl; [exact Hall|]. intros c [_ Hc]. exact Hc.
  - intros reps template Hall. apply substitute_fold.
    eapply Forall_impl; [exact Hall|]. intros kv [_ Hv]. exact Hv.
  - intros name v template _. apply sub_plain.
  - intros name text rest prev Hn Hp. apply token_replace; assumption.
  - exact inserted_token_passes.
  - intros name st w Hst Hnum. unfold _get_formatted.
    rewrite (table_single_pass name st w Hst Hnum). reflexivity.
Qed.

Lemma substitution_by_passes_witness :
  Template._get_formatted {[ "a" := "<[b]>"; "b" := "x" ]} ∅ "[a][b]" = Ok "<x>x"
  /\ Template._get_formatted {[ "a" := "<[b]>"; "b" := "x" ]} ∅ "[b][a]" = Ok "x<[b]>"
  /\ single_pass {[ "a" := "<[b]>"; "b" := "x" ]} ∅ "[a][b]" = "<[b]>x".
Proof.
  exact (proj1 (proj2 (proj2 (proj2 (proj2 substitution_by_passes))))
           {[ "a" := "<[b]>"; "b" := "x" ]} ∅ "a" "b" "<" ">" "x"
           eq_refl eq_refl ltac:(discriminate) eq_refl eq_refl ltac:(discriminate)
           ltac:(discriminate) eq_refl eq_refl eq_refl eq_refl eq_refl).
Defined.
